(** * ChemPy molecule layer: atoms, bonds, chemical graphs and molecules

    A shallow embedding of [chempy/molecule.py].  Python objects that are
    mutated in place and compared by identity (the atoms) live in an explicit
    store and are named by references; bonds are never mutated and are kept
    by value.  Python dictionaries are association lists kept in iteration
    order with unique keys.  Exceptions are an explicit result type, and the
    methods that read or mutate atoms run in a small state-and-error monad
    over the store. *)

From Stdlib Require Import ZArith List String Bool Arith Lia Permutation.
Import ListNotations.
Local Open Scope string_scope.
Local Open Scope list_scope.

Set Implicit Arguments.

(** ** Exceptions and results *)

(** An object reference: the identity of an [Atom] object. *)
Abbreviation ref := nat.

(** The key carried by a Python [KeyError]. *)
Inductive pykey : Type :=
| KStr (s : string)
| KAtom (r : ref).

(** Exceptions: the Python exceptions that the statements of the module
    can raise, and the two error classes that the spec names for this
    layer, which no statement of the module raises. *)
Inductive exn : Type :=
| KeyError (k : pykey)     (* dictionary lookup of a missing key *)
| IndexError               (* list index out of range *)
| ValueError               (* [list.index] of a missing item *)
| AttributeError           (* method call on [None] *)
| ConfigurationError       (* spec: unresolvable element *)
| StructuralError.         (* spec: inconsistent structure or code *)

Inductive Result (A : Type) : Type :=
| Ok (a : A)
| Raise (e : exn).
Arguments Ok {A} a.
Arguments Raise {A} e.

Definition is_ok {A} (r : Result A) : bool :=
  match r with Ok _ => true | Raise _ => false end.

(** ** Dictionaries keyed by object identity *)

Definition dict (V : Type) := list (ref * V).

Section Dict.
Context {V : Type}.

(** [d.get(k)] *)
Fixpoint dict_get (d : dict V) (k : ref) : option V :=
  match d with
  | [] => None
  | (k', v) :: d' => if Nat.eqb k' k then Some v else dict_get d' k
  end.

(** [k in d] *)
Definition dict_has (d : dict V) (k : ref) : bool :=
  match dict_get d k with Some _ => true | None => false end.

(** [d[k] = v]: an existing key keeps its place, a new key goes last.
    Python leaves the iteration order of a dictionary open; here it is the
    order in which the keys were first set. *)
Fixpoint dict_set (d : dict V) (k : ref) (v : V) : dict V :=
  match d with
  | [] => [(k, v)]
  | (k', v') :: d' =>
      if Nat.eqb k' k then (k, v) :: d' else (k', v') :: dict_set d' k v
  end.

(** Removal of key [k], if present. *)
Definition dict_del (d : dict V) (k : ref) : dict V :=
  filter (fun kv => negb (Nat.eqb (fst kv) k)) d.

(** [d.keys()] *)
Definition dict_keys (d : dict V) : list ref := map fst d.

(** [d[k]], raising [KeyError] on a missing key. *)
Definition dict_getitem (d : dict V) (k : ref) : Result V :=
  match dict_get d k with
  | Some v => Ok v
  | None => Raise (KeyError (KAtom k))
  end.
End Dict.

(** [l.index(x)] on a list of references: the first position of [x]. *)
Fixpoint list_index (l : list ref) (x : ref) : option nat :=
  match l with
  | [] => None
  | y :: l' =>
      if Nat.eqb y x then Some O
      else match list_index l' x with
           | Some i => Some (S i)
           | None => None
           end
  end.

(** [l.remove(x)], without the [ValueError]: drops the first [x], if any. *)
Fixpoint list_remove (l : list ref) (x : ref) : list ref :=
  match l with
  | [] => []
  | y :: l' => if Nat.eqb y x then l' else y :: list_remove l' x
  end.

(** ** Elements *)

(** Modelled from the spec: the [Element] class of the module [element],
    which is not part of the sources read here.  It is an immutable record
    of atomic number, symbol and mass; the mass is a float that none of the
    functions below reads, and is left out. *)
Record Element : Type := mkElement {
  number : Z;
  symbol : string
}.

(** The Element Registry, as [molecule.py] uses it: the namespace of the
    module [element] ([elements.__dict__]) and the lookup by atomic number
    ([elements.getElement]).  [elements_dict s] is the element bound to the
    name [s], and [None] when the name is not bound; names that the module
    binds to other objects than elements are not modelled. *)
Class ElementRegistry : Type := {
  elements_dict : string -> option Element;
  getElement : Z -> Result Element
}.

(** ** Atoms *)

Module Atom.

Record t : Type := mk {
  element : Element;
  radicalElectrons : Z;
  spinMultiplicity : Z;
  implicitHydrogens : Z;
  charge : Z;
  label : string
}.

Definition number (a : t) : Z := number (element a).
Definition symbol (a : t) : string := symbol (element a).

Definition isHydrogen (a : t) : bool := Z.eqb (number a) 1.
Definition isNonHydrogen (a : t) : bool := Z.ltb 1 (number a).
Definition isCarbon (a : t) : bool := Z.eqb (number a) 6.
Definition isOxygen (a : t) : bool := Z.eqb (number a) 8.

Definition set_implicitHydrogens (a : t) (n : Z) : t :=
  mk (element a) (radicalElectrons a) (spinMultiplicity a) n
     (charge a) (label a).

(** [copy]: the field values of a new atom equal to this one. *)
Definition copy (a : t) : t :=
  mk (element a) (radicalElectrons a) (spinMultiplicity a)
     (implicitHydrogens a) (charge a) (label a).

End Atom.

(** The [element] argument of [Atom.__init__]: a symbol ([str]) or an
    element. *)
Inductive element_arg : Type :=
| BySymbol (s : string)
| ByElement (e : Element).

(** ** Bonds *)

Module Bond.

Record t : Type := mk { order : Z }.

Definition equivalent (b1 b2 : t) : bool := Z.eqb (order b1) (order b2).
Definition copy (b : t) : t := mk (order b).
Definition isSingle (b : t) : bool := Z.eqb (order b) 1.
Definition isDouble (b : t) : bool := Z.eqb (order b) 2.
Definition isTriple (b : t) : bool := Z.eqb (order b) 3.

End Bond.

(** ** The store of atoms and the monad of the methods *)

Record Heap : Type := mkHeap {
  cell : ref -> Atom.t;   (* the atom object behind each reference *)
  next : ref              (* the first reference not yet allocated *)
}.

Definition M (A : Type) : Type := Heap -> Result (A * Heap).

Definition ret {A} (a : A) : M A := fun h => Ok (a, h).

Definition bind {A B} (m : M A) (k : A -> M B) : M B :=
  fun h => match m h with
           | Ok (a, h') => k a h'
           | Raise e => Raise e
           end.

Definition raise {A} (e : exn) : M A := fun _ => Raise e.

Definition lift {A} (r : Result A) : M A :=
  fun h => match r with Ok a => Ok (a, h) | Raise e => Raise e end.

Definition gets {A} (f : Heap -> A) : M A := fun h => Ok (f h, h).

Declare Scope chem_scope.
Delimit Scope chem_scope with chem.
Notation "x <- m ;; k" := (bind m (fun x => k))
  (at level 100, m at next level, right associativity) : chem_scope.
Notation "m ;;; k" := (bind m (fun _ => k))
  (at level 100, right associativity) : chem_scope.
Open Scope chem_scope.

Definition upd (f : ref -> Atom.t) (r : ref) (a : Atom.t) : ref -> Atom.t :=
  fun r' => if Nat.eqb r' r then a else f r'.

(** Creation of a new object. *)
Definition alloc (a : Atom.t) : M ref :=
  fun h => Ok (next h, mkHeap (upd (cell h) (next h) a) (S (next h))).

Definition read (r : ref) : M Atom.t := gets (fun h => cell h r).

Definition write (r : ref) (a : Atom.t) : M unit :=
  fun h => Ok (tt, mkHeap (upd (cell h) r a) (next h)).

(** A [for] loop over a list, threading the loop's variables. *)
Fixpoint foldM {A S} (body : S -> A -> M S) (l : list A) (s : S) : M S :=
  match l with
  | [] => ret s
  | x :: l' => s' <- body s x ;; foldM body l' s'
  end.

(** [Atom.__init__]: a symbol is resolved in the namespace of the module
    [element], an element is taken as it is; the new object is allocated. *)
Definition Atom_init `{ElementRegistry} (element : element_arg)
    (radicalElectrons spinMultiplicity implicitHydrogens charge : Z)
    (label : string) : M ref :=
  e <- match element with
       | BySymbol s =>
           match elements_dict s with
           | Some e => ret e
           | None => raise (KeyError (KStr s))
           end
       | ByElement e => ret e
       end ;;
  alloc (Atom.mk e radicalElectrons spinMultiplicity implicitHydrogens
                 charge label).


(** ** The generic graph *)

Module Graph.

Record t : Type := mk {
  vertices : list ref;
  edges : dict (dict Bond.t)
}.

(** Modelled from the spec: [Graph.__init__] of [chempy/graph.py], which is
    not part of the sources read here.  An omitted vertex list or edge
    mapping gives an empty one. *)
Definition init (vs : option (list ref)) (es : option (dict (dict Bond.t)))
  : t :=
  mk (match vs with Some l => l | None => [] end)
     (match es with Some d => d | None => [] end).

(** The bonds stored for [v]: its entry, or no bond when it has none. *)
Definition neighbours (es : dict (dict Bond.t)) (v : ref) : dict Bond.t :=
  match dict_get es v with Some d => d | None => [] end.

(** Modelled from the spec: [Graph.addVertex] of [chempy/graph.py].  The
    vertex is added and, as the docstring of [addAtom] says, is initialized
    with no bonds. *)
Definition addVertex (g : t) (v : ref) : t :=
  mk (vertices g ++ [v]) (dict_set (edges g) v []).

(** Modelled from the spec: [Graph.addEdge] of [chempy/graph.py].  The edge
    is stored under both orderings of its two vertices. *)
Definition addEdge (g : t) (v1 v2 : ref) (e : Bond.t) : t :=
  let es1 := dict_set (edges g) v1 (dict_set (neighbours (edges g) v1) v2 e) in
  let es2 := dict_set es1 v2 (dict_set (neighbours es1 v2) v1 e) in
  mk (vertices g) es2.

(** Modelled from the spec: [Graph.removeVertex] of [chempy/graph.py].  The
    vertex goes together with all of its edges: its own entry and its
    occurrences in the entries of the other vertices. *)
Definition removeVertex (g : t) (v : ref) : t :=
  mk (list_remove (vertices g) v)
     (map (fun kd => (fst kd, dict_del (snd kd) v)) (dict_del (edges g) v)).

End Graph.

(** The Graph Capability that [molecule.py] calls and that the spec leaves
    to the graph engine: the canonical sort, the isomorphism test and the
    copy.  The canonical sort gives the new order of the vertex list, a
    rearrangement of the old one. *)
Class GraphCapability : Type := {
  sortVertices : Heap -> Graph.t -> list ref;
  sortVertices_perm :
    forall h g, Permutation (sortVertices h g) (Graph.vertices g);
  Graph_isIsomorphic : Heap -> Graph.t -> Graph.t -> bool;
  Graph_copy : Graph.t -> bool -> M Graph.t
}.

(** ** Chemical graphs *)

Module ChemGraph.

(** A [ChemGraph] is a [Graph] with the representation flag. *)
Record t : Type := mk {
  graph : Graph.t;
  implicitHydrogens : bool
}.

(** The [atoms] and [bonds] properties: aliases of [vertices] and [edges]. *)
Definition atoms (g : t) : list ref := Graph.vertices (graph g).
Definition bonds (g : t) : dict (dict Bond.t) := Graph.edges (graph g).

Definition init (atoms : option (list ref))
    (bonds : option (dict (dict Bond.t))) : t :=
  mk (Graph.init atoms bonds) false.

Definition addAtom (g : t) (atom : ref) : t :=
  mk (Graph.addVertex (graph g) atom) (implicitHydrogens g).

Definition addBond (g : t) (atom1 atom2 : ref) (bond : Bond.t) : t :=
  mk (Graph.addEdge (graph g) atom1 atom2 bond) (implicitHydrogens g).

Definition removeAtom (g : t) (atom : ref) : t :=
  mk (Graph.removeVertex (graph g) atom) (implicitHydrogens g).

Definition set_implicitHydrogens (g : t) (b : bool) : t := mk (graph g) b.

Section Methods.
Context `{ElementRegistry} `{GraphCapability}.

Definition sortAtoms (g : t) : M t :=
  vs <- gets (fun h => sortVertices h (graph g)) ;;
  ret (mk (Graph.mk vs (bonds g)) (implicitHydrogens g)).

Definition isIsomorphic (g other : t) : M bool :=
  gets (fun h => Graph_isIsomorphic h (graph g) (graph other)).

Definition copy (g : t) (deep : bool) : M t :=
  g0 <- Graph_copy (graph g) deep ;;
  ret (init (Some (Graph.vertices g0)) (Some (Graph.edges g0))).

(** One hydrogen found by the scan of [makeHydrogensImplicit]: the counter
    of the first key of its bond dictionary goes up by one. *)
Definition implicit_step (bonds : dict (dict Bond.t)) (hydrogens : list ref)
    (atom : ref) : M (list ref) :=
  a <- read atom ;;
  if Atom.isHydrogen a then
    d <- lift (dict_getitem bonds atom) ;;
    match dict_keys d with
    | [] => raise IndexError
    | neighbor :: _ =>
        n <- read neighbor ;;
        write neighbor
          (Atom.set_implicitHydrogens n (Atom.implicitHydrogens n + 1)) ;;;
        ret (hydrogens ++ [atom])
    end
  else ret hydrogens.

Definition makeHydrogensImplicit (g : t) : M t :=
  allH <- gets (fun h =>
            forallb (fun atom => Atom.isHydrogen (cell h atom)) (atoms g)) ;;
  if (allH : bool) then ret g
  else
    hydrogens <- foldM (implicit_step (bonds g)) (atoms g) [] ;;
    let g' := fold_left removeAtom hydrogens g in
    ret (set_implicitHydrogens g' true).

(** The [while] loop of [makeHydrogensExplicit] for one atom, run for the
    [n] iterations that a counter of value [n] allows: each one creates a
    hydrogen atom and a single bond, records them and takes one off the
    counter. *)
Fixpoint explicit_while (n : nat) (atom : ref)
    (hydrogens : list (ref * ref * Bond.t))
  : M (list (ref * ref * Bond.t)) :=
  match n with
  | O => ret hydrogens
  | S n' =>
      H <- Atom_init (BySymbol "H") 0 1 0 0 "" ;;
      let bond := Bond.mk 1 in
      a <- read atom ;;
      write atom
        (Atom.set_implicitHydrogens a (Atom.implicitHydrogens a - 1)) ;;;
      explicit_while n' atom (hydrogens ++ [(H, atom, bond)])
  end.

Definition explicit_step (hydrogens : list (ref * ref * Bond.t))
    (atom : ref) : M (list (ref * ref * Bond.t)) :=
  a <- read atom ;;
  explicit_while (Z.to_nat (Atom.implicitHydrogens a)) atom hydrogens.

Definition explicit_add (g : t) (p : ref * ref * Bond.t) : t :=
  let '(H, atom, bond) := p in
  addBond (addAtom g H) H atom bond.

Definition makeHydrogensExplicit (g : t) : M t :=
  hydrogens <- foldM explicit_step (atoms g) [] ;;
  let g' := fold_left explicit_add hydrogens g in
  ret (set_implicitHydrogens g' false).

End Methods.
End ChemGraph.

(** ** The foreign molecular model (OpenBabel) *)

(** What [fromOBMol] reads of a foreign atom. *)
Record OBAtom : Type := mkOBAtom {
  GetAtomicNum : Z;
  GetSpinMultiplicity : Z;
  GetFormalCharge : Z
}.

(** What [fromOBMol] reads of a foreign bond: its four predicates. *)
Record OBBond : Type := mkOBBond {
  IsSingle : bool;
  IsDouble : bool;
  IsTriple : bool;
  IsAromatic : bool
}.

(** A foreign molecule that is read: its atoms, numbered from 1, and its
    bonds between two atom numbers. *)
Record OBMol : Type := mkOBMol {
  ob_atoms : list OBAtom;
  ob_bonds : list (nat * nat * OBBond)
}.

Definition NumAtoms (obmol : OBMol) : nat := List.length (ob_atoms obmol).

(** [obmol.GetAtom(idx)]: [None] when there is no such atom. *)
Definition GetAtom (obmol : OBMol) (idx : nat) : option OBAtom :=
  match idx with
  | O => None
  | S i => nth_error (ob_atoms obmol) i
  end.

(** [obatom.GetBond(obatom2)] for the atoms numbered [idx1] and [idx2]: the
    bond that joins them, in either direction, or [None]. *)
Definition GetBond (obmol : OBMol) (idx1 idx2 : nat) : option OBBond :=
  match find (fun b => let '(b1, b2, _) := b in
                       (Nat.eqb b1 idx1 && Nat.eqb b2 idx2)
                       || (Nat.eqb b1 idx2 && Nat.eqb b2 idx1))
             (ob_bonds obmol) with
  | Some (_, _, bd) => Some bd
  | None => None
  end.

(** The part of the foreign model that is not data: completing a molecule
    with its missing hydrogens. *)
Class ForeignModel : Type := {
  AddHydrogens : OBMol -> OBMol
}.

(** A foreign molecule that is written is the sequence of calls made on
    it. *)
Inductive OBCall : Type :=
| NewAtom
| SetAtomicNum (n : Z)
| SetFormalCharge (c : Z)
| AddBond (index1 index2 : nat) (order : Z)
| AssignSpinMultiplicity (b : bool).

(** An argument of any Python type. *)
Inductive pyobj (MoleculeT : Type) : Type :=
| PyMolecule (m : MoleculeT)
| PyChemGraph (g : ChemGraph.t)
| PyOther.
Arguments PyMolecule {MoleculeT} m.
Arguments PyChemGraph {MoleculeT} g.
Arguments PyOther {MoleculeT}.

(** ** Molecules *)

Module Molecule.

Record t : Type := mk { resonanceForms : list ChemGraph.t }.

Definition init : t := mk [].

(** The spin-multiplicity code of a foreign atom, as [fromOBMol] turns it
    into [(radicalElectrons, spinMultiplicity)]. *)
Definition decode_spin (code : Z) : Z * Z :=
  let radicalElectrons := 0%Z in
  let spinMultiplicity := code in
  if Z.eqb spinMultiplicity 0 then (0, 1)%Z
  else if Z.eqb spinMultiplicity 1 then (2, 1)%Z
  else if Z.eqb spinMultiplicity 2 then (1, 2)%Z
  else if Z.eqb spinMultiplicity 3 then (2, 3)%Z
  else (radicalElectrons, spinMultiplicity).

(** The order [fromOBMol] gives a foreign bond. *)
Definition decode_order (obbond : OBBond) : Z :=
  if IsSingle obbond then 1%Z
  else if IsDouble obbond then 2%Z
  else if IsTriple obbond then 3%Z
  else if IsAromatic obbond then 5%Z
  else 0%Z.

(** [l[i]] *)
Definition list_getitem (l : list ref) (i : nat) : Result ref :=
  match nth_error l i with Some x => Ok x | None => Raise IndexError end.

(** [d[k1][k2] = v] *)
Definition dict_setitem2 (d : dict (dict Bond.t)) (k1 k2 : ref) (v : Bond.t)
  : Result (dict (dict Bond.t)) :=
  match dict_getitem d k1 with
  | Ok inner => Ok (dict_set d k1 (dict_set inner k2 v))
  | Raise e => Raise e
  end.

Section Methods.
Context `{ElementRegistry} `{GraphCapability} `{ForeignModel}.

(** The inner loop of [fromOBMol], for the atoms numbered [i+1] and
    [j+1].  Foreign atoms are handled by their numbers; the atom numbered
    [j+1] exists whenever the loop reaches it, since [j < i]. *)
Definition fromOBMol_bond (obmol : OBMol) (i : nat) (g : ChemGraph.t)
    (j : nat) : M ChemGraph.t :=
  match GetAtom obmol (j + 1) with
  | None => raise AttributeError
  | Some _ =>
      match GetBond obmol (i + 1) (j + 1) with
      | None => ret g
      | Some obbond =>
          let bond := Bond.mk (decode_order obbond) in
          atom1 <- lift (list_getitem (ChemGraph.atoms g) i) ;;
          atom2 <- lift (list_getitem (ChemGraph.atoms g) j) ;;
          let b0 := ChemGraph.bonds g in
          let b1 := if dict_has b0 atom1 then b0 else dict_set b0 atom1 [] in
          let b2 := if dict_has b1 atom2 then b1 else dict_set b1 atom2 [] in
          b3 <- lift (dict_setitem2 b2 atom1 atom2 bond) ;;
          b4 <- lift (dict_setitem2 b3 atom2 atom1 bond) ;;
          ret (ChemGraph.mk (Graph.mk (ChemGraph.atoms g) b4)
                            (ChemGraph.implicitHydrogens g))
      end
  end.

(** The outer loop of [fromOBMol], for the atom numbered [i+1]. *)
Definition fromOBMol_atom (obmol : OBMol) (g : ChemGraph.t) (i : nat)
  : M ChemGraph.t :=
  match GetAtom obmol (i + 1) with
  | None => raise AttributeError
  | Some obatom =>
      let number := GetAtomicNum obatom in
      element <- lift (getElement number) ;;
      let '(radicalElectrons, spinMultiplicity) :=
        decode_spin (GetSpinMultiplicity obatom) in
      let charge := GetFormalCharge obatom in
      atom <- Atom_init (ByElement element) radicalElectrons spinMultiplicity
                0 charge "" ;;
      let g1 := ChemGraph.mk
                  (Graph.mk (ChemGraph.atoms g ++ [atom]) (ChemGraph.bonds g))
                  (ChemGraph.implicitHydrogens g) in
      foldM (fromOBMol_bond obmol i) (seq 0 i) g1
  end.

Definition fromOBMol (self : t) (obmol : OBMol) : M t :=
  let chemGraph := ChemGraph.init None None in
  let obmol := AddHydrogens obmol in
  chemGraph <- foldM (fromOBMol_atom obmol) (seq 0 (NumAtoms obmol))
                 chemGraph ;;
  chemGraph <- ChemGraph.makeHydrogensImplicit chemGraph ;;
  ret (mk [chemGraph]).

(** The first loop of [toOBMol]: one foreign atom per atom. *)
Definition toOBMol_atom (calls : list OBCall) (atom : ref)
  : M (list OBCall) :=
  a <- read atom ;;
  ret (calls ++ [NewAtom; SetAtomicNum (Atom.number a);
                 SetFormalCharge (Atom.charge a)]).

(** The second loop of [toOBMol], for one stored bond. *)
Definition toOBMol_bond (atoms : list ref) (atom1 : ref)
    (calls : list OBCall) (entry : ref * Bond.t) : Result (list OBCall) :=
  let '(atom2, bond) := entry in
  match list_index atoms atom1 with
  | None => Raise ValueError
  | Some index1 =>
      match list_index atoms atom2 with
      | None => Raise ValueError
      | Some index2 =>
          if Nat.ltb index1 index2 then
            Ok (calls ++ [AddBond (index1 + 1) (index2 + 1)
                                  (Bond.order bond)])
          else Ok calls
      end
  end.

Fixpoint toOBMol_inner (atoms : list ref) (atom1 : ref)
    (bonds : dict Bond.t) (calls : list OBCall) : Result (list OBCall) :=
  match bonds with
  | [] => Ok calls
  | entry :: rest =>
      match toOBMol_bond atoms atom1 calls entry with
      | Ok calls' => toOBMol_inner atoms atom1 rest calls'
      | Raise e => Raise e
      end
  end.

Fixpoint toOBMol_bonds (atoms : list ref) (bonds : dict (dict Bond.t))
    (calls : list OBCall) : Result (list OBCall) :=
  match bonds with
  | [] => Ok calls
  | (atom1, bonds1) :: rest =>
      match toOBMol_inner atoms atom1 bonds1 calls with
      | Ok calls' => toOBMol_bonds atoms rest calls'
      | Raise e => Raise e
      end
  end.

(** [toOBMol] returns the foreign molecule, as the calls that built it, and
    leaves the molecule with its first resonance form changed in place. *)
Definition toOBMol (self : t) : M (list OBCall * t) :=
  match resonanceForms self with
  | [] => raise IndexError
  | form :: others =>
      let implicitH := ChemGraph.implicitHydrogens form in
      form <- ChemGraph.makeHydrogensExplicit form ;;
      form <- ChemGraph.sortAtoms form ;;
      let atoms := ChemGraph.atoms form in
      let bonds := ChemGraph.bonds form in
      calls <- foldM toOBMol_atom atoms [] ;;
      calls <- lift (toOBMol_bonds atoms bonds calls) ;;
      let calls := calls ++ [AssignSpinMultiplicity true] in
      form <- (if implicitH then ChemGraph.makeHydrogensImplicit form
               else ret form) ;;
      ret (calls, mk (form :: others))
  end.

Definition isIsomorphic (self : t) (other : pyobj t) : M bool :=
  gets (fun h =>
    match other with
    | PyMolecule other =>
        existsb (fun chemGraph1 =>
          existsb (fun chemGraph2 =>
            Graph_isIsomorphic h (ChemGraph.graph chemGraph1)
                                 (ChemGraph.graph chemGraph2))
            (resonanceForms other))
          (resonanceForms self)
    | PyChemGraph other =>
        existsb (fun chemGraph1 =>
          Graph_isIsomorphic h (ChemGraph.graph chemGraph1)
                               (ChemGraph.graph other))
          (resonanceForms self)
    | PyOther => false
    end).

End Methods.
End Molecule.

(** ** Notions the properties are stated with *)

(** The number of entries [(atom1, atom2) -> bond] of a bond mapping. *)
Definition bond_entries (es : dict (dict Bond.t)) : nat :=
  list_sum (map (fun kd => List.length (snd kd)) es).

(** Every bond is stored under both orderings of its atoms. *)
Definition numBonds (g : ChemGraph.t) : nat :=
  Nat.div2 (bond_entries (ChemGraph.bonds g)).

Definition numAtoms (g : ChemGraph.t) : nat :=
  List.length (ChemGraph.atoms g).

(** The bond stored under [(a, b)], if any. *)
Definition stored (es : dict (dict Bond.t)) (a b : ref) : option Bond.t :=
  dict_get (Graph.neighbours es a) b.

(** Bond storage is symmetric: what is stored under [(a, b)] is stored
    under [(b, a)] as well, with an equal bond. *)
Definition symmetric (es : dict (dict Bond.t)) : Prop :=
  forall a b bond, stored es a b = Some bond -> stored es b a = Some bond.

(** The first key of the bond dictionary of [a]: [bonds[a].keys()[0]]. *)
Definition first_neighbour (es : dict (dict Bond.t)) (a : ref)
  : option ref :=
  match dict_get es a with
  | Some ((n, _) :: _) => Some n
  | _ => None
  end.

(** The number of bonds of [a]. *)
Definition degree (es : dict (dict Bond.t)) (a : ref) : nat :=
  List.length (Graph.neighbours es a).

Definition isHydrogenAt (h : Heap) (a : ref) : bool :=
  Atom.isHydrogen (cell h a).

Definition counter (h : Heap) (a : ref) : Z :=
  Atom.implicitHydrogens (cell h a).

(** The hydrogen vertices of [l] whose first neighbour is [r]. *)
Definition hydrogens_on (h : Heap) (es : dict (dict Bond.t)) (l : list ref)
    (r : ref) : list ref :=
  filter (fun a => isHydrogenAt h a &&
                   match first_neighbour es a with
                   | Some n => Nat.eqb n r
                   | None => false
                   end) l.

(** Keys occur once in a dictionary, at both levels of a bond mapping. *)
Definition dict_wf {V} (d : dict V) : Prop := NoDup (dict_keys d).

Definition bonds_wf (es : dict (dict Bond.t)) : Prop :=
  dict_wf es /\ forall a d, In (a, d) es -> dict_wf d.

(** The call [AddBond] joins the atoms numbered [i] and [j], in either
    order. *)
Definition joins (i j : nat) (c : OBCall) : bool :=
  match c with
  | AddBond x y _ =>
      (Nat.eqb x i && Nat.eqb y j) || (Nat.eqb x j && Nat.eqb y i)
  | _ => false
  end.

Definition count_calls (p : OBCall -> bool) (calls : list OBCall) : nat :=
  List.length (filter p calls).

(** Every reference the graph holds has been allocated. *)
Definition allocated (h : Heap) (g : ChemGraph.t) : Prop :=
  (forall a, In a (ChemGraph.atoms g) -> a < next h) /\
  (forall a d, In (a, d) (ChemGraph.bonds g) ->
     a < next h /\ forall b, In b (dict_keys d) -> b < next h).

(** ** Notions the proofs are stated with *)

(** From [h] to [h'] only counters of implicit hydrogens have changed. *)
Definition only_counters (h h' : Heap) : Prop :=
  next h' = next h /\
  forall r, cell h' r = Atom.set_implicitHydrogens (cell h r) (counter h' r).

(** The store after [neighbor.implicitHydrogens += d]. *)
Definition bump (h : Heap) (r : ref) (d : Z) : Heap :=
  mkHeap (upd (cell h) r
            (Atom.set_implicitHydrogens (cell h r) (counter h r + d)))
         (next h).

(** The graph [makeHydrogensImplicit] leaves when the scan goes through. *)
Definition stripped (h : Heap) (g : ChemGraph.t) : ChemGraph.t :=
  ChemGraph.set_implicitHydrogens
    (fold_left ChemGraph.removeAtom
       (filter (isHydrogenAt h) (ChemGraph.atoms g)) g)
    true.

(** The atom that [fromOBMol] builds from a foreign atom and an element. *)
Definition imported (obatom : OBAtom) (e : Element) : Atom.t :=
  Atom.mk e (fst (Molecule.decode_spin (GetSpinMultiplicity obatom)))
            (snd (Molecule.decode_spin (GetSpinMultiplicity obatom)))
            0 (GetFormalCharge obatom) "".

(** The atom [Atom(element='H')]. *)
Definition hydrogen_atom (eH : Element) : Atom.t := Atom.mk eH 0 1 0 0 "".

(** The number of planned hydrogens that go to the atom [r]. *)
Definition planned_for (hs : list (ref * ref * Bond.t)) (r : ref) : nat :=
  List.length (filter (fun p => Nat.eqb (snd (fst p)) r) hs).

(** The store after one iteration of the [while] loop for [atom]. *)
Definition plan_one (eH : Element) (h : Heap) (atom : ref) : Heap :=
  let cells := upd (cell h) (next h) (hydrogen_atom eH) in
  mkHeap (upd cells atom
            (Atom.set_implicitHydrogens (cells atom)
               (Atom.implicitHydrogens (cells atom) - 1)))
         (S (next h)).

(** The state of the planning loop, started in the store [h0]: the planned
    hydrogens are the objects created since, they go to atoms that existed
    before, and what is planned for an atom is what its counter has lost. *)
Record planned_ok (h0 : Heap) (eH : Element)
    (hs : list (ref * ref * Bond.t)) (h : Heap) : Prop := {
  po_next : next h = next h0 + List.length hs;
  po_refs : map (fun p => fst (fst p)) hs = seq (next h0) (List.length hs);
  po_targets : forall p, In p hs -> snd (fst p) < next h0;
  po_old : forall r, r < next h0 ->
    cell h r = Atom.set_implicitHydrogens (cell h0 r) (counter h r);
  po_sum : forall r, r < next h0 ->
    (counter h r + Z.of_nat (planned_for hs r) = counter h0 r)%Z;
  po_new : forall r, next h0 <= r < next h -> cell h r = hydrogen_atom eH
}.

(** The bond mapping after [addAtom(H)] and [addBond(H, atom, bond)]. *)
Definition add_edges (es : dict (dict Bond.t)) (H atom : ref)
    (bond : Bond.t) : dict (dict Bond.t) :=
  Graph.edges
    (Graph.addEdge (Graph.addVertex (Graph.mk [] es) H) H atom bond).

(** The entries of a bond mapping between references below [n], which
    are the bonds between the atoms allocated before [n]: the count within
    one bond dictionary, for one vertex, and for the mapping. *)
Definition inner_below (n : nat) (d : dict Bond.t) : nat :=
  List.length (filter (fun kv => Nat.ltb (fst kv) n) d).

Definition weight_below (n : nat) (kd : ref * dict Bond.t) : nat :=
  if Nat.ltb (fst kd) n then inner_below n (snd kd) else 0.

Definition entries_below (n : nat) (es : dict (dict Bond.t)) : nat :=
  list_sum (map (weight_below n) es).

(** The keys of a bond mapping, at both levels, satisfy [P]. *)
Definition keys_ok (P : ref -> Prop) (es : dict (dict Bond.t)) : Prop :=
  forall a d, In (a, d) es -> P a /\ forall b, In b (dict_keys d) -> P b.

(** The calls the bond loop makes for the entry [(atom1, atom2) -> bond]. *)
Definition emitted1 (atoms : list ref) (atom1 : ref) (entry : ref * Bond.t)
  : list OBCall :=
  match list_index atoms atom1, list_index atoms (fst entry) with
  | Some index1, Some index2 =>
      if Nat.ltb index1 index2
      then [AddBond (index1 + 1) (index2 + 1) (Bond.order (snd entry))]
      else []
  | _, _ => []
  end.

(** The calls the bond loop makes for a bond mapping. *)
Definition emitted (atoms : list ref) (bonds : dict (dict Bond.t))
  : list OBCall :=
  flat_map (fun kd => flat_map (emitted1 atoms (fst kd)) (snd kd)) bonds.

(** Allocated atoms keep their elements from [h] to [h']. *)
Definition old_elements (h h' : Heap) : Prop :=
  next h <= next h' /\
  forall r, r < next h ->
    Atom.element (cell h' r) = Atom.element (cell h r).

(** The calls of the first loop of the export for one atom. *)
Definition atom_calls (h : Heap) (atom : ref) : list OBCall :=
  [NewAtom; SetAtomicNum (Atom.number (cell h atom));
   SetFormalCharge (Atom.charge (cell h atom))].

(** The form as the two loops of the export see it: hydrogens explicit,
    atoms in canonical order. *)
Definition sorted_form `{GraphCapability} (h1 : Heap) (g1 : ChemGraph.t)
  : ChemGraph.t :=
  ChemGraph.mk (Graph.mk (sortVertices h1 (ChemGraph.graph g1))
                         (ChemGraph.bonds g1))
               (ChemGraph.implicitHydrogens g1).

(** ** A small instance, on which the properties are evaluated *)

Module Demo.

Definition H : Element := mkElement 1 "H".
Definition He : Element := mkElement 2 "He".
Definition C : Element := mkElement 6 "C".
Definition O : Element := mkElement 8 "O".

Definition table : list Element := [H; He; C; O].

#[local] Instance registry : ElementRegistry := {|
  elements_dict := fun s =>
    find (fun e => String.eqb (symbol e) s) table;
  getElement := fun n =>
    match find (fun e => Z.eqb (number e) n) table with
    | Some e => Ok e
    | None => Raise ValueError
    end
|}.

(** A graph capability whose canonical order is the reverse of the current
    one, whose isomorphism test compares the numbers of vertices and whose
    copy is the graph itself. *)
#[local] Instance capability : GraphCapability := {|
  sortVertices := fun _ g => rev (Graph.vertices g);
  sortVertices_perm := fun _ g =>
    Permutation_sym (Permutation_rev (Graph.vertices g));
  Graph_isIsomorphic := fun _ g1 g2 =>
    Nat.eqb (List.length (Graph.vertices g1))
            (List.length (Graph.vertices g2));
  Graph_copy := fun g _ => ret g
|}.

(** A foreign model whose molecules already have their hydrogens. *)
#[local] Instance foreign : ForeignModel := {|
  AddHydrogens := fun obmol => obmol
|}.

Definition atomOf (e : Element) (implicitH : Z) : Atom.t :=
  Atom.mk e 0 1 implicitH 0 "".

(** A store with the given atoms at the references 0, 1, ... *)
Definition heapOf (l : list Atom.t) : Heap :=
  mkHeap (fun r => nth r l (atomOf H 0)) (List.length l).

Definition single : Bond.t := Bond.mk 1.

(** Hydroxyl with its hydrogen stored as a vertex: O(0) - H(1). *)
Definition hydroxyl_heap : Heap := heapOf [atomOf O 0; atomOf H 0].
Definition hydroxyl : ChemGraph.t :=
  ChemGraph.mk (Graph.mk [0; 1] [(0, [(1, single)]); (1, [(0, single)])])
               false.

(** Methane with its hydrogens on the counter of the carbon. *)
Definition methane_heap : Heap := heapOf [atomOf C 4].
Definition methane : ChemGraph.t :=
  ChemGraph.mk (Graph.mk [0] [(0, [])]) true.

(** Dihydrogen: H(0) - H(1). *)
Definition dihydrogen_heap : Heap := heapOf [atomOf H 0; atomOf H 0].
Definition dihydrogen : ChemGraph.t :=
  ChemGraph.mk (Graph.mk [0; 1] [(0, [(1, single)]); (1, [(0, single)])])
               false.

(** A hydrogen that bridges two oxygens: O(0) - H(1) - O(2). *)
Definition bridge_heap : Heap :=
  heapOf [atomOf O 0; atomOf H 0; atomOf O 0].
Definition bridge : ChemGraph.t :=
  ChemGraph.mk
    (Graph.mk [0; 1; 2]
       [(0, [(1, single)]); (1, [(0, single); (2, single)]);
        (2, [(1, single)])])
    false.

(** A form emptied of its atoms after its hydrogens were made implicit:
    no vertex, and the flag still set. *)
Definition emptied : ChemGraph.t := ChemGraph.mk (Graph.mk [] []) true.

Definition single_bond : OBBond := mkOBBond true false false false.

(** Foreign water: O(1) with H(2) and H(3). *)
Definition ob_water : OBMol :=
  mkOBMol [mkOBAtom 8 0 0; mkOBAtom 1 0 0; mkOBAtom 1 0 0]
          [(1, 2, single_bond); (1, 3, single_bond)].

(** Foreign carbon monoxide: C(1) and O(2), joined by a triple bond. *)
Definition ob_carbon_monoxide : OBMol :=
  mkOBMol [mkOBAtom 6 0 0; mkOBAtom 8 0 0]
          [(1, 2, mkOBBond false false true false)].

(** A foreign helium atom whose spin-multiplicity code is 4. *)
Definition ob_helium4 : OBMol := mkOBMol [mkOBAtom 2 4 0] [].

Definition empty_heap : Heap := heapOf [].

End Demo.

(** ** The other methods of atoms and bonds *)

(** [e1 is e2] for two elements.  The elements are the objects of the
    registry, one object for each element, so that two of them are the same
    object exactly when they are the same record. *)
Definition same_element (e1 e2 : Element) : bool :=
  Z.eqb (number e1) (number e2) && String.eqb (symbol e1) (symbol e2).

(** The argument of [Atom.equivalent]: an atom, or an object of another
    class. *)
Inductive atom_arg : Type :=
| IsAtom (a : Atom.t)
| NotAtom.

(** [Atom.equivalent], on the field values of the two atoms. *)
Definition Atom_equivalent (self : Atom.t) (other0 : atom_arg) : bool :=
  match other0 with
  | NotAtom => false
  | IsAtom other =>
      same_element (Atom.element self) (Atom.element other)
      && Z.eqb (Atom.radicalElectrons self) (Atom.radicalElectrons other)
      && Z.eqb (Atom.spinMultiplicity self) (Atom.spinMultiplicity other)
      && Z.eqb (Atom.implicitHydrogens self) (Atom.implicitHydrogens other)
      && Z.eqb (Atom.charge self) (Atom.charge other)
  end.

(** [Atom.copy]: a new atom object built by [Atom.__init__] from the
    fields of this one. *)
Definition Atom_copy `{ElementRegistry} (self : ref) : M ref :=
  a <- read self ;;
  Atom_init (ByElement (Atom.element a)) (Atom.radicalElectrons a)
            (Atom.spinMultiplicity a) (Atom.implicitHydrogens a)
            (Atom.charge a) (Atom.label a).

(** The outcome of [Bond.__str__]: a string, or the [KeyError] of the
    lookup of the order in the table of letters. *)
Inductive str_result : Type :=
| Str (s : string)
| StrKeyError (order : Z).

(** [orders = {1:'S', 2:'D', 3:'T'}] *)
Definition Bond_orders : list (Z * string) := [(1%Z, "S"); (2%Z, "D"); (3%Z, "T")].

Fixpoint Bond_orders_get (table : list (Z * string)) (order : Z)
  : option string :=
  match table with
  | [] => None
  | (k, v) :: rest =>
      if Z.eqb k order then Some v else Bond_orders_get rest order
  end.

(** [Bond.__str__] *)
Definition Bond_str (self : Bond.t) : str_result :=
  match Bond_orders_get Bond_orders (Bond.order self) with
  | Some letter => Str ("<Bond '" ++ letter ++ "'>")%string
  | None => StrKeyError (Bond.order self)
  end.

(** ** Notions for the properties of the hydrogen transforms *)

(** The sum of the counters of implicit hydrogens of the atoms [l]. *)
Definition total_counter (h : Heap) (l : list ref) : Z :=
  fold_right Z.add 0%Z (map (counter h) l).

(** All the fields of an atom but its counter of implicit hydrogens. *)
Definition same_but_counter (a a' : Atom.t) : Prop :=
  Atom.element a' = Atom.element a /\
  Atom.radicalElectrons a' = Atom.radicalElectrons a /\
  Atom.spinMultiplicity a' = Atom.spinMultiplicity a /\
  Atom.charge a' = Atom.charge a /\
  Atom.label a' = Atom.label a.


(** ** A registry without hydrogen *)

Module DemoMore.

#[local] Instance no_hydrogen : ElementRegistry := {|
  elements_dict := fun s =>
    find (fun e => String.eqb (symbol e) s) [Demo.C; Demo.O];
  getElement := fun n =>
    match find (fun e => Z.eqb (number e) n) [Demo.C; Demo.O] with
    | Some e => Ok e
    | None => Raise ValueError
    end
|}.

(** Foreign dihydrogen: H(1) and H(2), joined by a single bond. *)
Definition ob_dihydrogen : OBMol :=
  mkOBMol [mkOBAtom 1 0 0; mkOBAtom 1 0 0] [(1, 2, Demo.single_bond)].

(** A foreign hydroxide with a proton apart: O(1) - H(2), and H(3) without
    a bond. *)
Definition ob_proton_hydroxide : OBMol :=
  mkOBMol [mkOBAtom 8 0 (-1); mkOBAtom 1 0 0; mkOBAtom 1 0 1]
          [(1, 2, Demo.single_bond)].

(** A foreign molecule with an atom that the small registry does not
    know: O(1), then an atom of atomic number 7. *)
Definition ob_unknown : OBMol :=
  mkOBMol [mkOBAtom 8 0 0; mkOBAtom 7 0 0] [(1, 2, Demo.single_bond)].

End DemoMore.

(** ** Notions for the properties of the import *)

(** The bond that [fromOBMol] builds for the foreign atoms numbered [p+1]
    and [q+1], when the foreign molecule has a bond between them. *)
Definition ob_link (obmol : OBMol) (p q : nat) : option Bond.t :=
  match GetBond obmol (p + 1) (q + 1) with
  | Some obbond => Some (Bond.mk (Molecule.decode_order obbond))
  | None => None
  end.

(** The pair of the foreign atoms numbered [p+1] and [q+1], [q < p], has
    been visited when the outer loop of [fromOBMol] is at [i] and its inner
    loop at [j]. *)
Definition visited (i j p q : nat) : bool :=
  Nat.ltb p i || (Nat.eqb p i && Nat.ltb q j).

(** The bond mapping while [fromOBMol] runs, the atoms of the molecule
    being the objects created from the reference [n0] on: it holds the
    bonds of the pairs visited, under both orderings, and nothing else;
    its keys occur once and no vertex has an empty bond dictionary. *)
Record links (obmol : OBMol) (n0 i j : nat) (es : dict (dict Bond.t))
  : Prop := {
  li_low : forall x y, x < n0 \/ y < n0 -> stored es x y = None;
  li_diag : forall p, stored es (n0 + p) (n0 + p) = None;
  li_pair : forall p q, q < p ->
    stored es (n0 + p) (n0 + q)
    = (if visited i j p q then ob_link obmol p q else None) /\
    stored es (n0 + q) (n0 + p)
    = (if visited i j p q then ob_link obmol p q else None);
  li_wf : bonds_wf es;
  li_nonempty : forall x d, dict_get es x = Some d -> d <> []
}.

(** The registry gives for an atomic number an element of that number. *)
Definition registry_consistent `{ElementRegistry} : Prop :=
  forall n e, getElement n = Ok e -> number e = n.

(** The registry has an element for every atom of the foreign molecule. *)
Definition resolves `{ElementRegistry} (obmol : OBMol) : Prop :=
  forall obatom, In obatom (ob_atoms obmol) ->
    exists e, getElement (GetAtomicNum obatom) = Ok e.

(** The [k]-th foreign atom (from 0) is a hydrogen. *)
Definition ob_hydrogen (obmol : OBMol) (k : nat) : bool :=
  match nth_error (ob_atoms obmol) k with
  | Some obatom => Z.eqb (GetAtomicNum obatom) 1
  | None => false
  end.

(** The [k]-th foreign atom has a bond with the [p]-th. *)
Definition ob_bonded (obmol : OBMol) (k p : nat) : bool :=
  negb (Nat.eqb k p) &&
  match GetBond obmol (k + 1) (p + 1) with
  | Some _ => true
  | None => false
  end.

(** The numbers, from 0, of the foreign atoms that are not hydrogens. *)
Definition heavy_index (obmol : OBMol) : list nat :=
  filter (fun k => negb (ob_hydrogen obmol k)) (seq 0 (NumAtoms obmol)).

(** The number of foreign hydrogens that have a bond with the [p]-th
    foreign atom. *)
Definition hydrogens_bonded (obmol : OBMol) (p : nat) : nat :=
  List.length (filter (fun k => ob_hydrogen obmol k && ob_bonded obmol k p)
                      (seq 0 (NumAtoms obmol))).

(** The foreign atoms that the [k]-th foreign atom has a bond with. *)
Definition partners (obmol : OBMol) (k : nat) : list nat :=
  filter (ob_bonded obmol k) (seq 0 (NumAtoms obmol)).

(** The foreign molecule has an atom that is not a hydrogen. *)
Definition has_heavy (obmol : OBMol) : bool :=
  existsb (fun k => negb (ob_hydrogen obmol k)) (seq 0 (NumAtoms obmol)).

(** Every foreign hydrogen has a bond. *)
Definition hydrogens_bonded_all (obmol : OBMol) : bool :=
  forallb (fun k => implb (ob_hydrogen obmol k)
                          (negb (Nat.eqb (List.length (partners obmol k)) 0)))
          (seq 0 (NumAtoms obmol)).

(** Every foreign hydrogen has one bond, and one only. *)
Definition hydrogens_monovalent (obmol : OBMol) : bool :=
  forallb (fun k => implb (ob_hydrogen obmol k)
                          (Nat.eqb (List.length (partners obmol k)) 1))
          (seq 0 (NumAtoms obmol)).

(** The foreign hydrogens without a bond, in the order of the atoms. *)
Definition unbonded_hydrogens (obmol : OBMol) : list nat :=
  filter (fun k => ob_hydrogen obmol k
                   && Nat.eqb (List.length (partners obmol k)) 0)
         (seq 0 (NumAtoms obmol)).

(** The foreign atoms that a foreign hydrogen has a bond with are not
    hydrogens. *)
Definition hydrogens_on_heavy (obmol : OBMol) : bool :=
  forallb (fun k => implb (ob_hydrogen obmol k)
                          (forallb (fun p => negb (ob_hydrogen obmol p))
                                   (partners obmol k)))
          (seq 0 (NumAtoms obmol)).

(** The call creates a foreign atom. *)
Definition is_NewAtom (c : OBCall) : bool :=
  match c with
  | NewAtom => true
  | _ => false
  end.

(** [if k not in d: d[k] = {}] *)
Definition ensure (es : dict (dict Bond.t)) (k : ref) : dict (dict Bond.t) :=
  if dict_has es k then es else dict_set es k [].

(** * Properties *)

(** ** The monad *)

Ltac unfold_monad :=
  unfold read, write, alloc in *;
  unfold bind, ret, raise, lift, gets in *; cbv beta in *.

Lemma bind_Ok {A B} (m : M A) (k : A -> M B) h b h' :
  bind m k h = Ok (b, h') ->
  exists a h1, m h = Ok (a, h1) /\ k a h1 = Ok (b, h').
Proof.
  unfold bind. destruct (m h) as [[a h1]|e]; [|discriminate].
  intros Hk. exists a, h1. split; [reflexivity|assumption].
Qed.

Lemma bind_eq {A B} (m : M A) (k : A -> M B) h a h1 :
  m h = Ok (a, h1) -> bind m k h = k a h1.
Proof. unfold bind. intros ->. reflexivity. Qed.

Lemma foldM_app {A S} (body : S -> A -> M S) l1 l2 s h :
  foldM body (l1 ++ l2) s h =
  bind (foldM body l1 s) (foldM body l2) h.
Proof.
  revert s h. induction l1 as [|x l1 IH]; intros s h; simpl.
  - reflexivity.
  - unfold bind in *. destruct (body s x h) as [[s1 h1]|e]; [|reflexivity].
    apply IH.
Qed.

(** ** Atom construction *)

(** C9, as the code has it.  Constructing an atom from a symbol that the
    namespace of the element module does not bind fails, whatever the
    other arguments and the store: the lookup [elements.__dict__[element]]
    raises the [KeyError] of that symbol. *)
Theorem Atom_init_unresolved `{ElementRegistry} (s : string)
    (radicalElectrons spinMultiplicity implicitHydrogens charge : Z)
    (label : string) (h : Heap) :
  elements_dict s = None ->
  Atom_init (BySymbol s) radicalElectrons spinMultiplicity implicitHydrogens
            charge label h = Raise (KeyError (KStr s)).
Proof.
  intros Hs. unfold Atom_init, bind. rewrite Hs. reflexivity.
Qed.

Lemma Atom_init_unresolved_witness :
  @elements_dict Demo.registry "Xx" = None /\
  @Atom_init Demo.registry (BySymbol "Xx") 0 1 0 0 "" Demo.empty_heap
  = Raise (KeyError (KStr "Xx")).
Proof.
  split; [reflexivity|].
  apply (@Atom_init_unresolved Demo.registry "Xx"). reflexivity.
Defined.

(** C9, refuted as stated: the symbol Xx is not in the registry, and the
    construction of an atom from it fails with [KeyError], not with
    [ConfigurationError]. *)
Lemma Atom_init_Xx_KeyError :
  @elements_dict Demo.registry "Xx" = None /\
  @Atom_init Demo.registry (BySymbol "Xx") 0 1 0 0 "" Demo.empty_heap
  = Raise (KeyError (KStr "Xx")) /\
  @Atom_init Demo.registry (BySymbol "Xx") 0 1 0 0 "" Demo.empty_heap
  <> Raise ConfigurationError.
Proof.
  split; [reflexivity|]. split; [reflexivity|]. discriminate.
Qed.

(** ** Copy *)

(** C10.  [ChemGraph.copy], shallow or deep, returns whenever the copy of
    the underlying graph does, and the graph it returns has its
    [implicitHydrogens] flag [False] whatever the flag of the source: the
    copy is built by [ChemGraph.__init__], which sets the flag. *)
Theorem ChemGraph_copy_flag `{GraphCapability} (g : ChemGraph.t)
    (deep : bool) (h : Heap) :
  match ChemGraph.copy g deep h with
  | Ok (g', h') =>
      ChemGraph.implicitHydrogens g' = false /\
      exists g0, Graph_copy (ChemGraph.graph g) deep h = Ok (g0, h') /\
                 ChemGraph.atoms g' = Graph.vertices g0 /\
                 ChemGraph.bonds g' = Graph.edges g0
  | Raise e => Graph_copy (ChemGraph.graph g) deep h = Raise e
  end.
Proof.
  unfold ChemGraph.copy, bind.
  destruct (Graph_copy (ChemGraph.graph g) deep h) as [[g0 h']|e]; simpl.
  - split; [reflexivity|]. exists g0. repeat split.
  - reflexivity.
Qed.

(** ** Resonance-form isomorphism *)

(** C6.  [Molecule.isIsomorphic] returns, and returns true exactly when
    some resonance form of [self] is isomorphic, for the graph capability,
    to some resonance form of [other] (a molecule) or to [other] itself (a
    chemical graph); for an argument of another type it returns false. *)
Theorem isIsomorphic_spec `{GraphCapability} (self : Molecule.t)
    (other : pyobj Molecule.t) (h : Heap) :
  exists b, Molecule.isIsomorphic self other h = Ok (b, h) /\
    (b = true <->
     match other with
     | PyMolecule o =>
         exists g1 g2, In g1 (Molecule.resonanceForms self) /\
                       In g2 (Molecule.resonanceForms o) /\
                       ChemGraph.isIsomorphic g1 g2 h = Ok (true, h)
     | PyChemGraph g =>
         exists g1, In g1 (Molecule.resonanceForms self) /\
                    ChemGraph.isIsomorphic g1 g h = Ok (true, h)
     | PyOther => False
     end).
Proof.
  unfold Molecule.isIsomorphic, ChemGraph.isIsomorphic, gets.
  eexists. split; [reflexivity|].
  destruct other as [o|g|].
  - rewrite existsb_exists. split.
    + intros (g1 & Hg1 & Hex). apply existsb_exists in Hex.
      destruct Hex as (g2 & Hg2 & Hiso). exists g1, g2.
      rewrite Hiso. auto.
    + intros (g1 & g2 & Hg1 & Hg2 & Hiso). exists g1. split; [assumption|].
      apply existsb_exists. exists g2. split; [assumption|]. congruence.
  - rewrite existsb_exists. split.
    + intros (g1 & Hg1 & Hiso). exists g1. rewrite Hiso. auto.
    + intros (g1 & Hg1 & Hiso). exists g1. split; [assumption|]. congruence.
  - split; [discriminate|contradiction].
Qed.

(** ** Lists and dictionaries *)

Lemma list_remove_app (pre l : list ref) (x : ref) :
  ~ In x pre -> list_remove (pre ++ x :: l) x = pre ++ l.
Proof.
  induction pre as [|y pre IH]; simpl; intros Hnin.
  - rewrite Nat.eqb_refl. reflexivity.
  - destruct (Nat.eqb_spec y x) as [->|Hne].
    + exfalso. apply Hnin. left. reflexivity.
    + f_equal. apply IH. intros Hin. apply Hnin. right. assumption.
Qed.

Lemma fold_list_remove_filter (p : ref -> bool) (l pre : list ref) :
  (forall x, In x pre -> p x = false) ->
  fold_left list_remove (filter p l) (pre ++ l) =
  pre ++ filter (fun x => negb (p x)) l.
Proof.
  revert pre. induction l as [|x l IH]; intros pre Hpre; simpl.
  - reflexivity.
  - destruct (p x) eqn:Hpx; simpl.
    + rewrite list_remove_app.
      * apply IH. assumption.
      * intros Hin. apply Hpre in Hin. congruence.
    + change (pre ++ x :: l) with (pre ++ [x] ++ l).
      rewrite app_assoc, IH, <- app_assoc; [reflexivity|].
      intros y Hy. apply in_app_or in Hy. destruct Hy as [Hy|[<-|[]]]; auto.
Qed.

Lemma filter_ext_in_bool {A} (p q : A -> bool) (l : list A) :
  (forall x, In x l -> p x = q x) -> filter p l = filter q l.
Proof.
  induction l as [|x l IH]; simpl; intros Hpq; [reflexivity|].
  rewrite (Hpq x (or_introl eq_refl)), IH; [reflexivity|].
  intros y Hy. apply Hpq. right. assumption.
Qed.

Lemma first_neighbour_degree (es : dict (dict Bond.t)) (a : ref) :
  first_neighbour es a = None <-> degree es a = 0.
Proof.
  unfold first_neighbour, degree, Graph.neighbours.
  destruct (dict_get es a) as [[|[n b] d]|]; simpl; split;
    intros; try reflexivity; discriminate.
Qed.

(** ** The store *)

Lemma only_counters_refl h : only_counters h h.
Proof.
  split; [reflexivity|]. intros r. unfold counter.
  destruct (cell h r); reflexivity.
Qed.

Lemma only_counters_trans h1 h2 h3 :
  only_counters h1 h2 -> only_counters h2 h3 -> only_counters h1 h3.
Proof.
  intros [Hn1 Hc1] [Hn2 Hc2]. split; [congruence|].
  intros r. rewrite (Hc2 r) at 1. rewrite (Hc1 r). reflexivity.
Qed.

Lemma only_counters_isHydrogen h h' a :
  only_counters h h' -> isHydrogenAt h' a = isHydrogenAt h a.
Proof.
  intros [_ Hc]. unfold isHydrogenAt. rewrite (Hc a). reflexivity.
Qed.

Lemma counter_bump h r d r' :
  counter (bump h r d) r' =
  if Nat.eqb r' r then (counter h r + d)%Z else counter h r'.
Proof.
  unfold counter, bump, upd; simpl. destruct (Nat.eqb r' r); reflexivity.
Qed.

Lemma only_counters_bump h r d : only_counters h (bump h r d).
Proof.
  split; [reflexivity|]. intros r'. rewrite counter_bump.
  unfold bump, upd, counter; simpl.
  destruct (Nat.eqb_spec r' r) as [->|Hne]; [reflexivity|].
  destruct (cell h r'); reflexivity.
Qed.

(** ** The scan of [makeHydrogensImplicit] *)

Section Implicit.
Variable es : dict (dict Bond.t).

Lemma implicit_step_eq (hs : list ref) (a : ref) (h : Heap) :
  ChemGraph.implicit_step es hs a h =
  if isHydrogenAt h a then
    match first_neighbour es a with
    | Some n => Ok (hs ++ [a], bump h n 1)
    | None =>
        Raise (match dict_get es a with
               | Some _ => IndexError
               | None => KeyError (KAtom a)
               end)
    end
  else Ok (hs, h).
Proof.
  unfold ChemGraph.implicit_step, first_neighbour, isHydrogenAt, dict_getitem.
  unfold_monad. destruct (Atom.isHydrogen (cell h a)); [|reflexivity].
  destruct (dict_get es a) as [[|[n b] d]|]; reflexivity.
Qed.

Lemma hydrogens_on_ext h h' l r :
  only_counters h h' -> hydrogens_on h' es l r = hydrogens_on h es l r.
Proof.
  intros Hoc. unfold hydrogens_on. apply filter_ext_in_bool. intros a _.
  rewrite (only_counters_isHydrogen a Hoc). reflexivity.
Qed.

Lemma hydrogens_on_cons h a l r :
  hydrogens_on h es (a :: l) r =
  if isHydrogenAt h a &&
     match first_neighbour es a with
     | Some n => Nat.eqb n r
     | None => false
     end
  then a :: hydrogens_on h es l r
  else hydrogens_on h es l r.
Proof. reflexivity. Qed.

(** When every hydrogen of the list has a first neighbour the scan goes
    through: it collects the hydrogens and has added to each counter the
    number of hydrogens whose first neighbour it belongs to. *)
Lemma implicit_scan_ok (l hs : list ref) (h : Heap) :
  (forall a, In a l -> isHydrogenAt h a = true ->
             first_neighbour es a <> None) ->
  exists h',
    foldM (ChemGraph.implicit_step es) l hs h
    = Ok (hs ++ filter (isHydrogenAt h) l, h') /\
    only_counters h h' /\
    forall r, counter h' r =
              (counter h r + Z.of_nat (List.length (hydrogens_on h es l r)))%Z.
Proof.
  revert hs h. induction l as [|a l IH]; intros hs h Hdeg.
  - exists h. simpl. rewrite app_nil_r. split; [reflexivity|].
    split; [apply only_counters_refl|]. intros r. lia.
  - cbn [foldM filter]. unfold bind. rewrite implicit_step_eq.
    destruct (isHydrogenAt h a) eqn:Ha.
    + destruct (first_neighbour es a) as [n|] eqn:Hn.
      2:{ exfalso. apply (Hdeg a); [left; reflexivity|assumption|assumption]. }
      pose proof (only_counters_bump h n 1) as Hb.
      destruct (IH (hs ++ [a]) (bump h n 1)) as (h' & Hrun & Hoc & Hcnt).
      { intros a' Hin Hh. apply Hdeg; [right; assumption|].
        rewrite <- (only_counters_isHydrogen a' Hb). assumption. }
      exists h'. rewrite Hrun, <- app_assoc.
      rewrite (filter_ext_in_bool (isHydrogenAt (bump h n 1))
                 (isHydrogenAt h));
        [|intros; apply only_counters_isHydrogen; assumption].
      split; [reflexivity|].
      split; [eapply only_counters_trans; eassumption|].
      intros r. rewrite Hcnt, counter_bump, (hydrogens_on_ext l r Hb).
      rewrite hydrogens_on_cons, Ha, Hn. cbn [andb].
      destruct (Nat.eqb_spec r n) as [->|Hne].
      * rewrite Nat.eqb_refl. cbn [List.length]. lia.
      * destruct (Nat.eqb_spec n r) as [->|_]; [congruence|]. lia.
    + destruct (IH hs h) as (h' & Hrun & Hoc & Hcnt).
      { intros a' Hin. apply Hdeg. right. assumption. }
      exists h'. rewrite Hrun. split; [reflexivity|].
      split; [assumption|]. intros r. rewrite Hcnt.
      rewrite hydrogens_on_cons, Ha. reflexivity.
Qed.

(** A hydrogen without a first neighbour stops the scan with the
    exception of the failed lookup. *)
Lemma implicit_scan_raise (l hs : list ref) (h : Heap) :
  (exists a, In a l /\ isHydrogenAt h a = true /\
             first_neighbour es a = None) ->
  exists e, foldM (ChemGraph.implicit_step es) l hs h = Raise e /\
            (e = IndexError \/ exists a, e = KeyError (KAtom a)).
Proof.
  revert hs h. induction l as [|a l IH]; intros hs h (a0 & Hin & Hh & Hn).
  - destruct Hin.
  - simpl. unfold bind. rewrite implicit_step_eq.
    destruct (isHydrogenAt h a) eqn:Ha.
    + destruct (first_neighbour es a) as [n|] eqn:Hna.
      * apply IH. destruct Hin as [<-|Hin]; [congruence|].
        exists a0. split; [assumption|]. split; [|assumption].
        rewrite (only_counters_isHydrogen a0 (only_counters_bump h n 1)).
        assumption.
      * eexists. split; [reflexivity|].
        destruct (dict_get es a); [left|right; exists a]; reflexivity.
    + apply IH. destruct Hin as [<-|Hin]; [congruence|].
      exists a0. auto.
Qed.

End Implicit.

Lemma fold_removeAtom_flag (hs : list ref) (g : ChemGraph.t) :
  ChemGraph.implicitHydrogens (fold_left ChemGraph.removeAtom hs g) =
  ChemGraph.implicitHydrogens g.
Proof.
  revert g. induction hs as [|x hs IH]; intros g; simpl; [reflexivity|].
  rewrite IH. reflexivity.
Qed.

Lemma fold_removeAtom_atoms (hs : list ref) (g : ChemGraph.t) :
  ChemGraph.atoms (fold_left ChemGraph.removeAtom hs g) =
  fold_left list_remove hs (ChemGraph.atoms g).
Proof.
  revert g. induction hs as [|x hs IH]; intros g; simpl; [reflexivity|].
  rewrite IH. reflexivity.
Qed.

Lemma forallb_false_exists {A} (p : A -> bool) (l : list A) :
  forallb p l = false <-> exists x, In x l /\ p x = false.
Proof.
  induction l as [|x l IH]; simpl.
  - split; [discriminate|intros (x & [] & _)].
  - rewrite andb_false_iff, IH. split.
    + intros [Hx|(y & Hy & Hp)]; [exists x; auto|exists y; auto].
    + intros (y & [<-|Hy] & Hp); [left; assumption|right; exists y; auto].
Qed.

(** C8.  On a graph all of whose vertices are hydrogen atoms
    [makeHydrogensImplicit] returns at its guard: the graph and the store
    are the ones it was given, so neither the number of atoms nor the
    number of bonds changes and no atom is stripped. *)
Theorem makeHydrogensImplicit_all_hydrogen (g : ChemGraph.t) (h : Heap) :
  (forall a, In a (ChemGraph.atoms g) -> isHydrogenAt h a = true) ->
  exists g' h',
    ChemGraph.makeHydrogensImplicit g h = Ok (g', h') /\
    numAtoms g' = numAtoms g /\ numBonds g' = numBonds g /\
    g' = g /\ h' = h.
Proof.
  intros Hall. exists g, h. repeat split.
  unfold ChemGraph.makeHydrogensImplicit, bind, gets.
  replace (forallb _ _) with true; [reflexivity|].
  symmetry. apply forallb_forall. exact Hall.
Qed.

Lemma makeHydrogensImplicit_all_hydrogen_witness :
  (forall a, In a (ChemGraph.atoms Demo.dihydrogen) ->
             isHydrogenAt Demo.dihydrogen_heap a = true) /\
  exists g' h',
    ChemGraph.makeHydrogensImplicit Demo.dihydrogen Demo.dihydrogen_heap
    = Ok (g', h') /\
    numAtoms g' = 2 /\ numBonds g' = 1.
Proof.
  assert (Hall : forall a, In a (ChemGraph.atoms Demo.dihydrogen) ->
                           isHydrogenAt Demo.dihydrogen_heap a = true).
  { simpl. intros a [<-|[<-|[]]]; reflexivity. }
  split; [exact Hall|].
  destruct (makeHydrogensImplicit_all_hydrogen Demo.dihydrogen
              Demo.dihydrogen_heap Hall)
    as (g' & h' & Hrun & Ha & Hb & _).
  exists g', h'. split; [exact Hrun|]. split; [exact Ha|exact Hb].
Defined.

(** ** [makeHydrogensImplicit] past its guard *)

Lemma stripped_atoms (h : Heap) (g : ChemGraph.t) :
  ChemGraph.atoms (stripped h g) =
  filter (fun a => negb (isHydrogenAt h a)) (ChemGraph.atoms g).
Proof.
  unfold stripped. change (ChemGraph.atoms (ChemGraph.set_implicitHydrogens
    ?g0 true)) with (ChemGraph.atoms g0).
  rewrite fold_removeAtom_atoms.
  apply (fold_list_remove_filter (isHydrogenAt h) (ChemGraph.atoms g) []).
  intros x [].
Qed.

Lemma makeHydrogensImplicit_ok (g : ChemGraph.t) (h : Heap) :
  (exists a, In a (ChemGraph.atoms g) /\ isHydrogenAt h a = false) ->
  (forall a, In a (ChemGraph.atoms g) -> isHydrogenAt h a = true ->
             first_neighbour (ChemGraph.bonds g) a <> None) ->
  exists h',
    ChemGraph.makeHydrogensImplicit g h = Ok (stripped h g, h') /\
    only_counters h h' /\
    forall r, counter h' r =
      (counter h r +
       Z.of_nat (List.length
         (hydrogens_on h (ChemGraph.bonds g) (ChemGraph.atoms g) r)))%Z.
Proof.
  intros Hheavy Hdeg.
  destruct (implicit_scan_ok (ChemGraph.bonds g) (ChemGraph.atoms g) [] h Hdeg)
    as (h' & Hrun & Hoc & Hcnt).
  exists h'. split; [|split; assumption].
  unfold ChemGraph.makeHydrogensImplicit, bind, gets.
  apply forallb_false_exists in Hheavy. unfold isHydrogenAt in Hheavy.
  rewrite Hheavy, Hrun. reflexivity.
Qed.

(** C2, as the code has it.  On a graph with a vertex that is not a
    hydrogen, [makeHydrogensImplicit] raises when some hydrogen vertex has
    no bond at all (the [KeyError] or [IndexError] of the lookup of its
    neighbour).  When every hydrogen vertex has at least one bond, one or
    several, it returns: the hydrogens are gone from the vertices, the flag
    is set, and each hydrogen has added one to the counter of the first key
    of its bond dictionary. *)
Theorem makeHydrogensImplicit_by_degree (g : ChemGraph.t) (h : Heap) :
  (exists a, In a (ChemGraph.atoms g) /\ isHydrogenAt h a = false) ->
  ((exists a, In a (ChemGraph.atoms g) /\ isHydrogenAt h a = true /\
              degree (ChemGraph.bonds g) a = 0) ->
   exists e, ChemGraph.makeHydrogensImplicit g h = Raise e /\
             (e = IndexError \/ exists a, e = KeyError (KAtom a)))
  /\
  ((forall a, In a (ChemGraph.atoms g) -> isHydrogenAt h a = true ->
              degree (ChemGraph.bonds g) a <> 0) ->
   exists g' h',
     ChemGraph.makeHydrogensImplicit g h = Ok (g', h') /\
     ChemGraph.implicitHydrogens g' = true /\
     ChemGraph.atoms g' =
       filter (fun a => negb (isHydrogenAt h a)) (ChemGraph.atoms g) /\
     forall r, counter h' r =
       (counter h r +
        Z.of_nat (List.length
          (hydrogens_on h (ChemGraph.bonds g) (ChemGraph.atoms g) r)))%Z).
Proof.
  intros Hheavy. split.
  - intros (a & Hin & Hh & Hd).
    destruct (implicit_scan_raise (ChemGraph.bonds g) (ChemGraph.atoms g) [] h)
      as (e & Hrun & He).
    { exists a. split; [assumption|]. split; [assumption|].
      apply first_neighbour_degree. assumption. }
    exists e. split; [|assumption].
    unfold ChemGraph.makeHydrogensImplicit, bind, gets.
    apply forallb_false_exists in Hheavy. unfold isHydrogenAt in Hheavy.
    rewrite Hheavy, Hrun. reflexivity.
  - intros Hdeg.
    destruct (makeHydrogensImplicit_ok g h Hheavy) as (h' & Hrun & _ & Hcnt).
    { intros a Hin Hh Hn. apply (Hdeg a Hin Hh).
      apply first_neighbour_degree. assumption. }
    exists (stripped h g), h'. split; [assumption|].
    split; [reflexivity|]. split; [apply stripped_atoms|assumption].
Qed.

Lemma makeHydrogensImplicit_by_degree_witness :
  (exists a, In a (ChemGraph.atoms Demo.bridge) /\
             isHydrogenAt Demo.bridge_heap a = false) /\
  exists g' h',
    ChemGraph.makeHydrogensImplicit Demo.bridge Demo.bridge_heap
    = Ok (g', h') /\
    ChemGraph.implicitHydrogens g' = true /\
    ChemGraph.atoms g' = [0; 2] /\
    counter h' 0 = 1%Z /\ counter h' 2 = 0%Z.
Proof.
  assert (Hheavy : exists a, In a (ChemGraph.atoms Demo.bridge) /\
                             isHydrogenAt Demo.bridge_heap a = false).
  { exists 0. split; [left; reflexivity|reflexivity]. }
  split; [exact Hheavy|].
  destruct (makeHydrogensImplicit_by_degree Demo.bridge Demo.bridge_heap
              Hheavy) as [_ Hok].
  destruct Hok as (g' & h' & Hrun & Hflag & Hatoms & Hcnt).
  { simpl. intros a [<-|[<-|[<-|[]]]]; vm_compute; discriminate. }
  exists g', h'. split; [exact Hrun|]. split; [exact Hflag|].
  split; [exact Hatoms|].
  split; [rewrite Hcnt|rewrite Hcnt]; reflexivity.
Defined.

(** C2, refuted as stated: the hydrogen of O(0) - H(1) - O(2) has degree 2
    and the graph has heavy atoms, yet [makeHydrogensImplicit] raises
    nothing.  It returns the graph without the hydrogen, counted on the
    oxygen that comes first in its bond dictionary. *)
Lemma makeHydrogensImplicit_bridge_returns :
  In 1 (ChemGraph.atoms Demo.bridge) /\
  isHydrogenAt Demo.bridge_heap 1 = true /\
  degree (ChemGraph.bonds Demo.bridge) 1 = 2 /\
  isHydrogenAt Demo.bridge_heap 0 = false /\
  (forall e, ChemGraph.makeHydrogensImplicit Demo.bridge Demo.bridge_heap
             <> Raise e) /\
  exists g' h',
    ChemGraph.makeHydrogensImplicit Demo.bridge Demo.bridge_heap
    = Ok (g', h') /\
    ChemGraph.atoms g' = [0; 2] /\
    counter h' 0 = 1%Z /\ counter h' 2 = 0%Z.
Proof.
  split; [right; left; reflexivity|]. repeat (split; [reflexivity|]).
  split; [intros e; vm_compute; discriminate|].
  eexists. eexists. split; [vm_compute; reflexivity|].
  repeat split.
Qed.

(** ** Dictionary lookups after updates *)

Section DictLemmas.
Context {V : Type}.
Implicit Types (d : dict V) (k : ref) (v : V).

Lemma dict_get_set_eq d k v : dict_get (dict_set d k v) k = Some v.
Proof.
  induction d as [|[k' v'] d IH]; simpl.
  - rewrite Nat.eqb_refl. reflexivity.
  - destruct (Nat.eqb_spec k' k) as [->|Hne]; simpl.
    + rewrite Nat.eqb_refl. reflexivity.
    + destruct (Nat.eqb_spec k' k); [contradiction|assumption].
Qed.

Lemma dict_get_set_ne d k v k' :
  k' <> k -> dict_get (dict_set d k v) k' = dict_get d k'.
Proof.
  intros Hne. induction d as [|[k0 v0] d IH]; simpl.
  - destruct (Nat.eqb_spec k k'); [congruence|reflexivity].
  - destruct (Nat.eqb_spec k0 k) as [->|Hne0]; simpl.
    + destruct (Nat.eqb_spec k k'); [congruence|reflexivity].
    + destruct (Nat.eqb_spec k0 k'); [reflexivity|assumption].
Qed.

Lemma dict_get_set d k v k' :
  dict_get (dict_set d k v) k' =
  if Nat.eqb k' k then Some v else dict_get d k'.
Proof.
  destruct (Nat.eqb_spec k' k) as [->|Hne].
  - apply dict_get_set_eq.
  - apply dict_get_set_ne. assumption.
Qed.

Lemma dict_get_del d k k' :
  dict_get (dict_del d k) k' =
  if Nat.eqb k' k then None else dict_get d k'.
Proof.
  unfold dict_del. induction d as [|[k0 v0] d IH]; simpl.
  - destruct (Nat.eqb k' k); reflexivity.
  - destruct (Nat.eqb_spec k0 k) as [E0|Hne0]; simpl; rewrite ?IH;
      destruct (Nat.eqb_spec k' k) as [E1|Hne1];
      destruct (Nat.eqb_spec k0 k') as [E2|Hne2];
      congruence.
Qed.

Lemma dict_get_map {W} (f : V -> W) d k :
  dict_get (map (fun kd => (fst kd, f (snd kd))) d) k =
  option_map f (dict_get d k).
Proof.
  induction d as [|[k0 v0] d IH]; simpl; [reflexivity|].
  destruct (Nat.eqb k0 k); [reflexivity|assumption].
Qed.

Lemma dict_get_In d k v : dict_get d k = Some v -> In (k, v) d.
Proof.
  induction d as [|[k0 v0] d IH]; simpl; [discriminate|].
  destruct (Nat.eqb_spec k0 k) as [->|Hne].
  - intros [= ->]. left. reflexivity.
  - intros Hget. right. apply IH. assumption.
Qed.

Lemma dict_get_None d k : dict_get d k = None <-> ~ In k (dict_keys d).
Proof.
  induction d as [|[k0 v0] d IH]; simpl.
  - split; [intros _ []|reflexivity].
  - destruct (Nat.eqb_spec k0 k) as [->|Hne].
    + split; [discriminate|]. intros Hnin. exfalso. apply Hnin. auto.
    + rewrite IH. split.
      * intros Hnin [Heq|Hin]; [congruence|contradiction].
      * intros Hnin Hin. apply Hnin. auto.
Qed.

End DictLemmas.

(** ** Stored bonds after updates *)

Lemma stored_set_inner (es : dict (dict Bond.t)) (k1 k2 : ref) (v : Bond.t)
    (a b : ref) :
  stored (dict_set es k1 (dict_set (Graph.neighbours es k1) k2 v)) a b =
  if Nat.eqb a k1 && Nat.eqb b k2 then Some v else stored es a b.
Proof.
  unfold stored, Graph.neighbours. rewrite dict_get_set.
  destruct (Nat.eqb_spec a k1) as [->|Hne]; simpl.
  - rewrite dict_get_set. destruct (Nat.eqb b k2); reflexivity.
  - reflexivity.
Qed.

Lemma stored_ensure (es : dict (dict Bond.t)) (k a b : ref) :
  stored (if dict_has es k then es else dict_set es k []) a b =
  stored es a b.
Proof.
  unfold dict_has. destruct (dict_get es k) as [d|] eqn:Hk; [reflexivity|].
  unfold stored, Graph.neighbours. rewrite dict_get_set.
  destruct (Nat.eqb_spec a k) as [->|Hne]; [|reflexivity].
  rewrite Hk. reflexivity.
Qed.

Lemma dict_setitem2_stored (es es' : dict (dict Bond.t)) (k1 k2 : ref)
    (v : Bond.t) :
  Molecule.dict_setitem2 es k1 k2 v = Ok es' ->
  forall a b,
    stored es' a b =
    if Nat.eqb a k1 && Nat.eqb b k2 then Some v else stored es a b.
Proof.
  unfold Molecule.dict_setitem2, dict_getitem.
  destruct (dict_get es k1) as [inner|] eqn:Hk; [|discriminate].
  intros [= <-] a b. rewrite <- stored_set_inner.
  unfold Graph.neighbours. rewrite Hk. reflexivity.
Qed.

Lemma stored_removeVertex (g : Graph.t) (v a b : ref) :
  stored (Graph.edges (Graph.removeVertex g v)) a b =
  if Nat.eqb a v || Nat.eqb b v then None else stored (Graph.edges g) a b.
Proof.
  unfold stored, Graph.neighbours, Graph.removeVertex. simpl.
  rewrite (dict_get_map (fun d => dict_del d v)), dict_get_del.
  destruct (Nat.eqb a v); simpl; [reflexivity|].
  destruct (dict_get (Graph.edges g) a) as [d|]; simpl.
  - rewrite dict_get_del. reflexivity.
  - destruct (Nat.eqb b v); reflexivity.
Qed.

Lemma symmetric_removeAtom (g : ChemGraph.t) (v : ref) :
  symmetric (ChemGraph.bonds g) ->
  symmetric (ChemGraph.bonds (ChemGraph.removeAtom g v)).
Proof.
  intros Hsym a b bond.
  change (ChemGraph.bonds (ChemGraph.removeAtom g v))
    with (Graph.edges (Graph.removeVertex (ChemGraph.graph g) v)).
  rewrite !stored_removeVertex.
  destruct (Nat.eqb a v), (Nat.eqb b v); simpl; try discriminate.
  apply Hsym.
Qed.

Lemma symmetric_fold_removeAtom (hs : list ref) (g : ChemGraph.t) :
  symmetric (ChemGraph.bonds g) ->
  symmetric (ChemGraph.bonds (fold_left ChemGraph.removeAtom hs g)).
Proof.
  revert g. induction hs as [|x hs IH]; intros g Hsym; simpl.
  - assumption.
  - apply IH, symmetric_removeAtom, Hsym.
Qed.

Lemma symmetric_set_both (es es1 es2 : dict (dict Bond.t)) (k1 k2 : ref)
    (v : Bond.t) :
  symmetric es ->
  (forall a b, stored es1 a b =
     if Nat.eqb a k1 && Nat.eqb b k2 then Some v else stored es a b) ->
  (forall a b, stored es2 a b =
     if Nat.eqb a k2 && Nat.eqb b k1 then Some v else stored es1 a b) ->
  symmetric es2.
Proof.
  intros Hsym H1 H2 a b bond. rewrite !H2, !H1.
  destruct (Nat.eqb_spec a k1), (Nat.eqb_spec a k2),
           (Nat.eqb_spec b k1), (Nat.eqb_spec b k2);
    simpl; subst; try contradiction; auto.
Qed.

(** ** What [makeHydrogensImplicit] returns, when it returns *)

Lemma implicit_scan_cases (es : dict (dict Bond.t)) (l : list ref)
    (h : Heap) :
  (forall a, In a l -> isHydrogenAt h a = true ->
             first_neighbour es a <> None) \/
  (exists a, In a l /\ isHydrogenAt h a = true /\
             first_neighbour es a = None).
Proof.
  induction l as [|x l [IH|(a & Hin & Ha & Hn)]].
  - left. intros a [].
  - destruct (isHydrogenAt h x) eqn:Hx.
    + destruct (first_neighbour es x) as [n|] eqn:Hn.
      * left. intros a [<-|Hin] Ha; [congruence|auto].
      * right. exists x. split; [left; reflexivity|auto].
    + left. intros a [<-|Hin] Ha; [congruence|auto].
  - right. exists a. split; [right; assumption|auto].
Qed.

Lemma makeHydrogensImplicit_inv (g g' : ChemGraph.t) (h h' : Heap) :
  ChemGraph.makeHydrogensImplicit g h = Ok (g', h') ->
  ((forall a, In a (ChemGraph.atoms g) -> isHydrogenAt h a = true) /\
   g' = g /\ h' = h)
  \/
  ((exists a, In a (ChemGraph.atoms g) /\ isHydrogenAt h a = false) /\
   g' = stripped h g /\ only_counters h h' /\
   forall r, counter h' r =
     (counter h r +
      Z.of_nat (List.length
        (hydrogens_on h (ChemGraph.bonds g) (ChemGraph.atoms g) r)))%Z).
Proof.
  intros Hrun.
  destruct (forallb (isHydrogenAt h) (ChemGraph.atoms g)) eqn:Hall.
  - left. split; [apply forallb_forall; assumption|].
    unfold ChemGraph.makeHydrogensImplicit, bind, gets in Hrun.
    unfold isHydrogenAt in Hall. rewrite Hall in Hrun.
    injection Hrun as <- <-. split; reflexivity.
  - right. apply forallb_false_exists in Hall. split; [assumption|].
    destruct (implicit_scan_cases (ChemGraph.bonds g) (ChemGraph.atoms g) h)
      as [Hdeg|Hbad].
    + destruct (makeHydrogensImplicit_ok g h Hall Hdeg)
        as (h1 & Hrun1 & Hoc & Hcnt).
      rewrite Hrun1 in Hrun. injection Hrun as <- <-. auto.
    + exfalso.
      destruct (implicit_scan_raise (ChemGraph.bonds g) (ChemGraph.atoms g)
                  [] h Hbad) as (e & Hscan & _).
      unfold ChemGraph.makeHydrogensImplicit, bind, gets in Hrun.
      apply forallb_false_exists in Hall. unfold isHydrogenAt in Hall.
      rewrite Hall, Hscan in Hrun. discriminate.
Qed.

Lemma makeHydrogensImplicit_only_counters (g g' : ChemGraph.t)
    (h h' : Heap) :
  ChemGraph.makeHydrogensImplicit g h = Ok (g', h') -> only_counters h h'.
Proof.
  intros Hrun. apply makeHydrogensImplicit_inv in Hrun.
  destruct Hrun as [(_ & _ & ->)|(_ & _ & Hoc & _)];
    [apply only_counters_refl|assumption].
Qed.

Lemma makeHydrogensImplicit_symmetric (g g' : ChemGraph.t) (h h' : Heap) :
  ChemGraph.makeHydrogensImplicit g h = Ok (g', h') ->
  symmetric (ChemGraph.bonds g) -> symmetric (ChemGraph.bonds g').
Proof.
  intros Hrun Hsym. apply makeHydrogensImplicit_inv in Hrun.
  destruct Hrun as [(_ & -> & _)|(_ & -> & _)]; [assumption|].
  unfold stripped.
  apply (symmetric_fold_removeAtom
           (filter (isHydrogenAt h) (ChemGraph.atoms g)) g Hsym).
Qed.

(** ** The loops of [fromOBMol] *)

Section ImportLoops.
Context `{ElementRegistry} `{ForeignModel}.
Variable obmol : OBMol.

Lemma fromOBMol_bond_inv (i j : nat) (g g' : ChemGraph.t) (h h' : Heap) :
  Molecule.fromOBMol_bond obmol i g j h = Ok (g', h') ->
  h' = h /\ ChemGraph.atoms g' = ChemGraph.atoms g /\
  (symmetric (ChemGraph.bonds g) -> symmetric (ChemGraph.bonds g')).
Proof.
  unfold Molecule.fromOBMol_bond.
  destruct (GetAtom obmol (j + 1)); [|discriminate].
  destruct (GetBond obmol (i + 1) (j + 1)) as [obbond|].
  2:{ intros [= <- <-]. auto. }
  unfold bind, lift, ret.
  destruct (Molecule.list_getitem (ChemGraph.atoms g) i) as [atom1|];
    [|discriminate].
  destruct (Molecule.list_getitem (ChemGraph.atoms g) j) as [atom2|];
    [|discriminate].
  set (b1 := if dict_has (ChemGraph.bonds g) atom1 then _ else _).
  set (b2 := if dict_has b1 atom2 then _ else _).
  destruct (Molecule.dict_setitem2 b2 atom1 atom2 _) as [b3|] eqn:H3;
    [|discriminate].
  destruct (Molecule.dict_setitem2 b3 atom2 atom1 _) as [b4|] eqn:H4;
    [|discriminate].
  intros [= <- <-]. split; [reflexivity|]. split; [reflexivity|].
  intros Hsym. simpl.
  eapply symmetric_set_both;
    [|apply dict_setitem2_stored; exact H3
     |apply dict_setitem2_stored; exact H4].
  intros a b bond. unfold b2, b1. rewrite !stored_ensure. apply Hsym.
Qed.

Lemma fromOBMol_bonds_inv (i : nat) (js : list nat) (g g' : ChemGraph.t)
    (h h' : Heap) :
  foldM (Molecule.fromOBMol_bond obmol i) js g h = Ok (g', h') ->
  h' = h /\ ChemGraph.atoms g' = ChemGraph.atoms g /\
  (symmetric (ChemGraph.bonds g) -> symmetric (ChemGraph.bonds g')).
Proof.
  revert g h. induction js as [|j js IH]; intros g h; simpl.
  - intros [= <- <-]. auto.
  - intros Hrun. apply bind_Ok in Hrun.
    destruct Hrun as (g1 & h1 & Hstep & Hrest).
    apply fromOBMol_bond_inv in Hstep. destruct Hstep as (-> & Ha1 & Hs1).
    apply IH in Hrest. destruct Hrest as (-> & Ha & Hs).
    split; [reflexivity|]. split; [congruence|auto].
Qed.

Lemma fromOBMol_atom_inv (i : nat) (g g' : ChemGraph.t) (h h' : Heap) :
  Molecule.fromOBMol_atom obmol g i h = Ok (g', h') ->
  exists obatom e,
    nth_error (ob_atoms obmol) i = Some obatom /\
    getElement (GetAtomicNum obatom) = Ok e /\
    h' = mkHeap (upd (cell h) (next h) (imported obatom e)) (S (next h)) /\
    ChemGraph.atoms g' = ChemGraph.atoms g ++ [next h] /\
    (symmetric (ChemGraph.bonds g) -> symmetric (ChemGraph.bonds g')).
Proof.
  unfold Molecule.fromOBMol_atom. rewrite Nat.add_1_r. unfold GetAtom.
  destruct (nth_error (ob_atoms obmol) i) as [obatom|]; [|discriminate].
  unfold bind at 1, lift.
  destruct (getElement (GetAtomicNum obatom)) as [e|] eqn:He; [|discriminate].
  destruct (Molecule.decode_spin (GetSpinMultiplicity obatom))
    as [rad spin] eqn:Hdec.
  unfold Atom_init, bind, ret, alloc.
  intros Hrun. apply fromOBMol_bonds_inv in Hrun.
  destruct Hrun as (-> & Ha & Hs).
  exists obatom, e. split; [reflexivity|]. split; [exact He|].
  unfold imported. rewrite Hdec. split; [reflexivity|].
  split; [exact Ha|exact Hs].
Qed.

(** After the outer loop has run over the foreign atoms numbered [s+1] to
    [s+n], these have the [n] references that follow the ones allocated
    before, in their order. *)
Lemma fromOBMol_atoms_inv (n s : nat) (g g' : ChemGraph.t) (h h' : Heap) :
  foldM (Molecule.fromOBMol_atom obmol) (seq s n) g h = Ok (g', h') ->
  next h' = next h + n /\
  (forall r, r < next h -> cell h' r = cell h r) /\
  (forall i obatom, i < n ->
     nth_error (ob_atoms obmol) (s + i) = Some obatom ->
     exists e, getElement (GetAtomicNum obatom) = Ok e /\
               cell h' (next h + i) = imported obatom e) /\
  (symmetric (ChemGraph.bonds g) -> symmetric (ChemGraph.bonds g')).
Proof.
  revert s g h. induction n as [|n IH]; intros s g h; simpl.
  - intros [= <- <-]. split; [lia|]. split; [reflexivity|].
    split; [intros; lia|auto].
  - intros Hrun. apply bind_Ok in Hrun.
    destruct Hrun as (g1 & h1 & Hstep & Hrest).
    apply fromOBMol_atom_inv in Hstep.
    destruct Hstep as (obatom & e & Hnth & He & -> & Ha1 & Hs1).
    apply IH in Hrest. simpl in Hrest.
    destruct Hrest as (Hnext & Hold & Hnew & Hs).
    split; [lia|]. split; [|split].
    + intros r Hr. rewrite Hold by lia. unfold upd.
      destruct (Nat.eqb_spec r (next h)); [lia|reflexivity].
    + intros i obatom' Hi Hnth'. destruct i as [|i].
      * rewrite Nat.add_0_r in *. rewrite Hnth in Hnth'.
        injection Hnth' as <-. exists e. split; [assumption|].
        rewrite Hold by lia. unfold upd. rewrite Nat.eqb_refl. reflexivity.
      * assert (Hi' : i < n) by lia.
        assert (Hn' : nth_error (ob_atoms obmol) (S s + i) = Some obatom').
        { rewrite <- Hnth'. f_equal. lia. }
        destruct (Hnew i obatom' Hi' Hn') as (e' & He' & Hcell).
        exists e'. split; [assumption|].
        rewrite <- Hcell. f_equal. simpl. lia.
    + auto.
Qed.

End ImportLoops.

(** ** Import *)

Lemma fromOBMol_inv `{ElementRegistry} `{ForeignModel} (self m' : Molecule.t)
    (obmol : OBMol) (h h' : Heap) :
  Molecule.fromOBMol self obmol h = Ok (m', h') ->
  exists g0 h0 g,
    foldM (Molecule.fromOBMol_atom (AddHydrogens obmol))
          (seq 0 (NumAtoms (AddHydrogens obmol))) (ChemGraph.init None None) h
    = Ok (g0, h0) /\
    ChemGraph.makeHydrogensImplicit g0 h0 = Ok (g, h') /\
    m' = Molecule.mk [g].
Proof.
  unfold Molecule.fromOBMol. intros Hrun.
  apply bind_Ok in Hrun. destruct Hrun as (g0 & h0 & Hloop & Hrun).
  apply bind_Ok in Hrun. destruct Hrun as (g & h1 & Himp & Hret).
  injection Hret as <- <-. exists g0, h0, g. auto.
Qed.

(** C1, as the code has it.  When the import returns, the atom built for
    each foreign atom (the i-th atom is the i-th object the import creates)
    has its radical electrons and spin multiplicity set from the foreign
    spin-multiplicity code by the table: 0 gives (0, 1), 1 gives (2, 1),
    2 gives (1, 2), 3 gives (2, 3).  A code outside the table raises
    nothing: it gives no radical electrons and is kept as the spin
    multiplicity. *)
Theorem fromOBMol_spin_decode `{ElementRegistry} `{ForeignModel}
    (self m' : Molecule.t) (obmol : OBMol) (h h' : Heap) :
  Molecule.fromOBMol self obmol h = Ok (m', h') ->
  forall i obatom,
    nth_error (ob_atoms (AddHydrogens obmol)) i = Some obatom ->
    let code := GetSpinMultiplicity obatom in
    let atom := cell h' (next h + i) in
    let decoded := (Atom.radicalElectrons atom, Atom.spinMultiplicity atom) in
    (code = 0 -> decoded = (0, 1))%Z /\
    (code = 1 -> decoded = (2, 1))%Z /\
    (code = 2 -> decoded = (1, 2))%Z /\
    (code = 3 -> decoded = (2, 3))%Z /\
    (code < 0 \/ 3 < code -> decoded = (0, code))%Z.
Proof.
  intros Hrun i obatom Hnth.
  apply fromOBMol_inv in Hrun.
  destruct Hrun as (g0 & h0 & g & Hloop & Himp & _).
  apply fromOBMol_atoms_inv in Hloop.
  destruct Hloop as (_ & _ & Hnew & _).
  destruct (Hnew i obatom) as (e & _ & Hcell).
  { apply nth_error_Some. unfold NumAtoms in *. congruence. }
  { exact Hnth. }
  apply makeHydrogensImplicit_only_counters in Himp.
  destruct Himp as [_ Hframe].
  cbv zeta. rewrite (Hframe (next h + i)), Hcell.
  unfold imported, Molecule.decode_spin. simpl.
  repeat split; intros Hc.
  - rewrite Hc. reflexivity.
  - rewrite Hc. reflexivity.
  - rewrite Hc. reflexivity.
  - rewrite Hc. reflexivity.
  - destruct (Z.eqb_spec (GetSpinMultiplicity obatom) 0); [lia|].
    destruct (Z.eqb_spec (GetSpinMultiplicity obatom) 1); [lia|].
    destruct (Z.eqb_spec (GetSpinMultiplicity obatom) 2); [lia|].
    destruct (Z.eqb_spec (GetSpinMultiplicity obatom) 3); [lia|].
    reflexivity.
Qed.

Lemma fromOBMol_spin_decode_witness :
  exists m' h',
    @Molecule.fromOBMol Demo.registry Demo.foreign Molecule.init
      Demo.ob_water Demo.empty_heap = Ok (m', h') /\
    (Atom.radicalElectrons (cell h' 0), Atom.spinMultiplicity (cell h' 0))
    = (0, 1)%Z.
Proof.
  eexists. eexists. split; [vm_compute; reflexivity|].
  refine (proj1 (@fromOBMol_spin_decode Demo.registry Demo.foreign
                   Molecule.init _ Demo.ob_water Demo.empty_heap _ _
                   0 (mkOBAtom 8 0 0) eq_refl) eq_refl).
  vm_compute. reflexivity.
Defined.

(** C1, refuted as stated: the import of a foreign helium atom whose
    spin-multiplicity code is 4 raises nothing.  It returns a molecule whose
    atom has no radical electrons and spin multiplicity 4. *)
Lemma fromOBMol_code_4_returns :
  (GetSpinMultiplicity (mkOBAtom 2 4 0) = 4)%Z /\
  (forall e, @Molecule.fromOBMol Demo.registry Demo.foreign Molecule.init
               Demo.ob_helium4 Demo.empty_heap <> Raise e) /\
  exists m' h',
    @Molecule.fromOBMol Demo.registry Demo.foreign Molecule.init
      Demo.ob_helium4 Demo.empty_heap = Ok (m', h') /\
    (Atom.radicalElectrons (cell h' 0), Atom.spinMultiplicity (cell h' 0))
    = (0, 4)%Z.
Proof.
  split; [reflexivity|]. split; [intros e; vm_compute; discriminate|].
  eexists. eexists. split; [vm_compute; reflexivity|]. reflexivity.
Qed.

(** C7.  The chemical graph of a molecule that the import returns stores
    its bonds symmetrically: a bond stored under [(a, b)] is stored under
    [(b, a)] as well, and the two entries are equal bonds. *)
Theorem fromOBMol_bonds_symmetric `{ElementRegistry} `{ForeignModel}
    (self m' : Molecule.t) (obmol : OBMol) (h h' : Heap) :
  Molecule.fromOBMol self obmol h = Ok (m', h') ->
  exists g,
    Molecule.resonanceForms m' = [g] /\
    forall a b bond,
      stored (ChemGraph.bonds g) a b = Some bond ->
      exists bond', stored (ChemGraph.bonds g) b a = Some bond' /\
                    bond' = bond /\ Bond.equivalent bond bond' = true.
Proof.
  intros Hrun. apply fromOBMol_inv in Hrun.
  destruct Hrun as (g0 & h0 & g & Hloop & Himp & ->).
  exists g. split; [reflexivity|].
  apply fromOBMol_atoms_inv in Hloop. destruct Hloop as (_ & _ & _ & Hsym0).
  assert (Hsym : symmetric (ChemGraph.bonds g)).
  { eapply makeHydrogensImplicit_symmetric; [exact Himp|].
    apply Hsym0. intros a b bond. discriminate. }
  intros a b bond Hab. exists bond. split; [apply Hsym; assumption|].
  split; [reflexivity|]. unfold Bond.equivalent. apply Z.eqb_refl.
Qed.

Lemma fromOBMol_bonds_symmetric_witness :
  exists m' h',
    @Molecule.fromOBMol Demo.registry Demo.foreign Molecule.init
      Demo.ob_carbon_monoxide Demo.empty_heap = Ok (m', h') /\
    exists g,
      Molecule.resonanceForms m' = [g] /\
      forall a b bond,
        stored (ChemGraph.bonds g) a b = Some bond ->
        exists bond', stored (ChemGraph.bonds g) b a = Some bond' /\
                      bond' = bond /\ Bond.equivalent bond bond' = true.
Proof.
  eexists. eexists. split; [vm_compute; reflexivity|].
  eapply (@fromOBMol_bonds_symmetric Demo.registry Demo.foreign
            Molecule.init _ Demo.ob_carbon_monoxide Demo.empty_heap).
  vm_compute. reflexivity.
Defined.

(** ** The bond loop of the export *)

Lemma list_index_nth (l : list ref) (x : ref) (i : nat) :
  list_index l x = Some i -> nth_error l i = Some x.
Proof.
  revert i. induction l as [|y l IH]; intros i; simpl; [discriminate|].
  destruct (Nat.eqb_spec y x) as [->|Hne].
  - intros [= <-]. reflexivity.
  - destruct (list_index l x) as [j|]; [|discriminate].
    intros [= <-]. simpl. apply IH. reflexivity.
Qed.

Lemma list_index_inj (l : list ref) (x y : ref) (i : nat) :
  list_index l x = Some i -> list_index l y = Some i -> x = y.
Proof.
  intros Hx Hy. apply list_index_nth in Hx, Hy. congruence.
Qed.

Lemma toOBMol_inner_emitted atoms atom1 (d : dict Bond.t) calls calls' :
  Molecule.toOBMol_inner atoms atom1 d calls = Ok calls' ->
  calls' = calls ++ flat_map (emitted1 atoms atom1) d.
Proof.
  revert calls. induction d as [|[atom2 bond] d IH]; intros calls; simpl.
  - intros [= <-]. rewrite app_nil_r. reflexivity.
  - unfold emitted1 at 1. simpl.
    destruct (list_index atoms atom1) as [i1|]; [|discriminate].
    destruct (list_index atoms atom2) as [i2|]; [|discriminate].
    destruct (Nat.ltb i1 i2); intros Hrun; apply IH in Hrun; rewrite Hrun.
    + rewrite <- app_assoc. reflexivity.
    + reflexivity.
Qed.

Lemma toOBMol_bonds_emitted atoms (bonds : dict (dict Bond.t)) calls calls' :
  Molecule.toOBMol_bonds atoms bonds calls = Ok calls' ->
  calls' = calls ++ emitted atoms bonds.
Proof.
  revert calls. induction bonds as [|[atom1 d] bonds IH]; intros calls; simpl.
  - intros [= <-]. rewrite app_nil_r. reflexivity.
  - destruct (Molecule.toOBMol_inner atoms atom1 d calls) as [calls1|] eqn:Hin;
      [|discriminate].
    apply toOBMol_inner_emitted in Hin. intros Hrun. apply IH in Hrun.
    rewrite Hrun, Hin. unfold emitted. simpl. rewrite <- app_assoc.
    reflexivity.
Qed.

(** The bond loop returns when the atoms it looks up are in the list. *)
Lemma toOBMol_bonds_returns atoms (bonds : dict (dict Bond.t)) calls :
  (forall a d, In (a, d) bonds ->
     In a atoms /\ forall b, In b (dict_keys d) -> In b atoms) ->
  exists calls', Molecule.toOBMol_bonds atoms bonds calls = Ok calls'.
Proof.
  assert (Hidx : forall x, In x atoms -> exists i, list_index atoms x = Some i).
  { intros x. induction atoms as [|y l IH]; simpl; [intros []|].
    intros Hin. destruct (Nat.eqb_spec y x) as [->|Hne]; [eauto|].
    destruct IH as (i & ->); [destruct Hin; [contradiction|assumption]|].
    eauto. }
  revert calls. induction bonds as [|[atom1 d] bonds IH]; intros calls Hkeys.
  - simpl. eauto.
  - simpl.
    assert (Hin : exists calls1,
              Molecule.toOBMol_inner atoms atom1 d calls = Ok calls1).
    { destruct (Hkeys atom1 d (or_introl eq_refl)) as [H1 Hd].
      destruct (Hidx atom1 H1) as (i1 & Hi1).
      clear Hkeys IH. revert calls.
      induction d as [|[atom2 bond] d IHd]; intros calls; simpl; [eauto|].
      destruct (Hidx atom2) as (i2 & Hi2); [apply Hd; left; reflexivity|].
      rewrite Hi1, Hi2.
      destruct (Nat.ltb i1 i2); apply IHd; intros b Hb; apply Hd; right;
        assumption. }
    destruct Hin as (calls1 & ->). apply IH.
    intros a d' Hin'. apply Hkeys. right. assumption.
Qed.

Lemma count_calls_app p l1 l2 :
  count_calls p (l1 ++ l2) = count_calls p l1 + count_calls p l2.
Proof. unfold count_calls. rewrite filter_app, length_app. reflexivity. Qed.

Lemma count_calls_flat_map {A} p (f : A -> list OBCall) (l : list A) :
  count_calls p (flat_map f l) =
  list_sum (map (fun x => count_calls p (f x)) l).
Proof.
  induction l as [|x l IH]; simpl; [reflexivity|].
  rewrite count_calls_app, IH. reflexivity.
Qed.

(** A sum over a dictionary whose terms vanish off one key. *)
Lemma sum_single {V} (d : dict V) (f : ref * V -> nat) (k0 : ref) :
  dict_wf d ->
  (forall k v, k <> k0 -> f (k, v) = 0) ->
  list_sum (map f d) =
  match dict_get d k0 with Some v => f (k0, v) | None => 0 end.
Proof.
  unfold dict_wf. intros Hwf Hf.
  induction d as [|[k v] d IH]; simpl; [reflexivity|].
  simpl in Hwf. inversion Hwf as [|? ? Hnin Hwf']; subst.
  destruct (Nat.eqb_spec k k0) as [->|Hne].
  - rewrite (IH Hwf'). apply dict_get_None in Hnin. rewrite Hnin. lia.
  - rewrite (Hf k v Hne). apply IH. assumption.
Qed.

Section Emission.
Variables (atoms : list ref) (lo hi : ref) (ilo ihi : nat).
Hypothesis Hlo : list_index atoms lo = Some ilo.
Hypothesis Hhi : list_index atoms hi = Some ihi.
Hypothesis Hlt : ilo < ihi.

Lemma emitted1_joins (atom1 : ref) (entry : ref * Bond.t) :
  count_calls (joins (ilo + 1) (ihi + 1)) (emitted1 atoms atom1 entry) =
  if Nat.eqb atom1 lo && Nat.eqb (fst entry) hi then 1 else 0.
Proof.
  destruct entry as [atom2 bond]. unfold emitted1. simpl.
  destruct (list_index atoms atom1) as [i1|] eqn:H1.
  2:{ destruct (Nat.eqb_spec atom1 lo) as [->|_]; [congruence|reflexivity]. }
  destruct (list_index atoms atom2) as [i2|] eqn:H2.
  2:{ destruct (Nat.eqb_spec atom2 hi) as [->|_]; [congruence|].
      rewrite andb_false_r. reflexivity. }
  destruct (Nat.ltb_spec i1 i2) as [Hi|Hi]; unfold count_calls; simpl.
  - destruct (Nat.eqb_spec (i1 + 1) (ilo + 1)) as [E1|N1],
             (Nat.eqb_spec (i2 + 1) (ihi + 1)) as [E2|N2],
             (Nat.eqb_spec (i1 + 1) (ihi + 1)) as [E3|N3],
             (Nat.eqb_spec (i2 + 1) (ilo + 1)) as [E4|N4];
      simpl; try lia.
    all: destruct (Nat.eqb_spec atom1 lo) as [A1|A1],
                  (Nat.eqb_spec atom2 hi) as [A2|A2]; simpl;
      try reflexivity; subst; exfalso.
    all: try (assert (i1 = ilo) by lia; assert (i2 = ihi) by lia; subst;
              first [ apply A1; eapply list_index_inj; eassumption
                    | apply A2; eapply list_index_inj; eassumption ]).
    all: try (assert (i1 = ilo) by congruence; lia).
    all: try (assert (i2 = ihi) by congruence; lia).
  - destruct (Nat.eqb_spec atom1 lo) as [->|_]; [|reflexivity].
    destruct (Nat.eqb_spec atom2 hi) as [->|_]; [|reflexivity].
    exfalso. assert (i1 = ilo) by congruence. assert (i2 = ihi) by congruence.
    lia.
Qed.

Lemma emitted_joins_once (bonds : dict (dict Bond.t)) (bond : Bond.t) :
  bonds_wf bonds ->
  stored bonds lo hi = Some bond ->
  count_calls (joins (ilo + 1) (ihi + 1)) (emitted atoms bonds) = 1 /\
  In (AddBond (ilo + 1) (ihi + 1) (Bond.order bond)) (emitted atoms bonds).
Proof.
  intros [Hwf Hwfin] Hst. unfold stored, Graph.neighbours in Hst.
  destruct (dict_get bonds lo) as [d|] eqn:Hd; [|discriminate].
  pose proof (dict_get_In _ _ Hd) as Hind.
  split.
  - unfold emitted. rewrite count_calls_flat_map.
    rewrite (@sum_single _ bonds _ lo Hwf).
    + rewrite Hd. simpl. rewrite count_calls_flat_map.
      rewrite (@sum_single _ d _ hi (Hwfin lo d Hind)).
      * rewrite Hst. rewrite emitted1_joins. simpl.
        rewrite !Nat.eqb_refl. reflexivity.
      * intros k v Hne. rewrite emitted1_joins. simpl.
        destruct (Nat.eqb_spec k hi); [contradiction|].
        rewrite andb_false_r. reflexivity.
    + intros k v Hne. simpl. rewrite count_calls_flat_map.
      induction v as [|e v IHv]; simpl; [reflexivity|].
      rewrite emitted1_joins, IHv.
      destruct (Nat.eqb_spec k lo); [contradiction|reflexivity].
  - unfold emitted. apply in_flat_map. exists (lo, d). split; [assumption|].
    apply in_flat_map. exists (hi, bond).
    split; [apply dict_get_In; assumption|].
    unfold emitted1. simpl. rewrite Hlo, Hhi.
    destruct (Nat.ltb_spec ilo ihi); [left; reflexivity|lia].
Qed.

End Emission.

(** ** The planning loop of [makeHydrogensExplicit] *)

Lemma planned_ok_start (h0 : Heap) (eH : Element) : planned_ok h0 eH [] h0.
Proof.
  constructor; simpl.
  - lia.
  - reflexivity.
  - intros p [].
  - intros r _. unfold counter. destruct (cell h0 r); reflexivity.
  - intros r _. unfold planned_for. simpl. lia.
  - intros r Hr. lia.
Qed.

Lemma planned_for_app hs p r :
  planned_for (hs ++ [p]) r =
  planned_for hs r + (if Nat.eqb (snd (fst p)) r then 1 else 0).
Proof.
  unfold planned_for. rewrite filter_app, length_app. cbn.
  destruct (Nat.eqb _ r); reflexivity.
Qed.

Lemma planned_ok_step (h0 : Heap) (eH : Element) hs (h : Heap) (atom : ref) :
  planned_ok h0 eH hs h -> atom < next h0 ->
  planned_ok h0 eH (hs ++ [(next h, atom, Bond.mk 1)]) (plan_one eH h atom).
Proof.
  intros [Hnext Hrefs Htg Hold Hsum Hnew] Hatom.
  assert (Hne : atom <> next h) by lia.
  constructor.
  - simpl. rewrite length_app. simpl. lia.
  - rewrite map_app, length_app, seq_app, Hrefs. simpl. rewrite Hnext.
    reflexivity.
  - intros p Hp. apply in_app_or in Hp. destruct Hp as [Hp|[<-|[]]]; auto.
  - intros r Hr. unfold counter, plan_one, upd. simpl.
    destruct (Nat.eqb_spec r atom) as [->|Hra].
    + destruct (Nat.eqb_spec atom (next h)); [contradiction|].
      rewrite (Hold atom Hatom). reflexivity.
    + destruct (Nat.eqb_spec r (next h)); [lia|]. apply Hold. assumption.
  - intros r Hr. rewrite planned_for_app. simpl.
    specialize (Hsum r Hr). unfold counter, plan_one, upd in *. simpl.
    destruct (Nat.eqb_spec r atom) as [->|Hra].
    + destruct (Nat.eqb_spec atom (next h)); [contradiction|].
      rewrite Nat.eqb_refl. simpl. lia.
    + destruct (Nat.eqb_spec r (next h)); [lia|].
      destruct (Nat.eqb_spec atom r); [congruence|]. lia.
  - intros r Hr. unfold plan_one, upd in *. simpl in *.
    destruct (Nat.eqb_spec r atom) as [->|Hra]; [lia|].
    destruct (Nat.eqb_spec r (next h)) as [->|Hrn]; [reflexivity|].
    apply Hnew. lia.
Qed.

Section Explicit.
Context `{ElementRegistry}.
Variable eH : Element.
Hypothesis registry_H : elements_dict "H" = Some eH.

Lemma explicit_while_S (n : nat) (atom : ref) hs (h : Heap) :
  ChemGraph.explicit_while (S n) atom hs h =
  ChemGraph.explicit_while n atom (hs ++ [(next h, atom, Bond.mk 1)])
    (plan_one eH h atom).
Proof.
  simpl. unfold Atom_init. unfold_monad. rewrite registry_H. reflexivity.
Qed.

Lemma explicit_while_ok (h0 : Heap) (n : nat) (atom : ref) hs (h : Heap) :
  planned_ok h0 eH hs h -> atom < next h0 ->
  exists hs' h',
    ChemGraph.explicit_while n atom hs h = Ok (hs', h') /\
    planned_ok h0 eH hs' h' /\
    counter h' atom = (counter h atom - Z.of_nat n)%Z.
Proof.
  revert hs h. induction n as [|n IH]; intros hs h Hok Hatom.
  - exists hs, h. split; [reflexivity|]. split; [assumption|]. lia.
  - rewrite explicit_while_S.
    destruct (IH _ _ (planned_ok_step Hok Hatom) Hatom)
      as (hs' & h' & Hrun & Hok' & Hc).
    exists hs', h'. split; [assumption|]. split; [assumption|].
    rewrite Hc. unfold counter, plan_one, upd. simpl.
    rewrite Nat.eqb_refl.
    destruct (Nat.eqb_spec atom (next h)) as [E|_]; [|simpl; lia].
    exfalso. pose proof (po_next Hok). lia.
Qed.

(** The [while] loop is left when its condition fails: after the
    iterations that the counter allows, the counter is not positive. *)
Lemma explicit_step_exit (h0 : Heap) (atom : ref) hs (h : Heap) :
  planned_ok h0 eH hs h -> atom < next h0 ->
  exists hs' h',
    ChemGraph.explicit_step hs atom h = Ok (hs', h') /\
    planned_ok h0 eH hs' h' /\ (counter h' atom <= 0)%Z.
Proof.
  intros Hok Hatom. unfold ChemGraph.explicit_step, bind, read, gets.
  destruct (@explicit_while_ok h0
              (Z.to_nat (Atom.implicitHydrogens (cell h atom))) atom hs h
              Hok Hatom)
    as (hs' & h' & Hrun & Hok' & Hc).
  exists hs', h'. split; [assumption|]. split; [assumption|].
  rewrite Hc. unfold counter. lia.
Qed.

Lemma explicit_scan_ok (h0 : Heap) (l : list ref) hs (h : Heap) :
  planned_ok h0 eH hs h -> (forall a, In a l -> a < next h0) ->
  exists hs' h',
    foldM ChemGraph.explicit_step l hs h = Ok (hs', h') /\
    planned_ok h0 eH hs' h'.
Proof.
  revert hs h. induction l as [|a l IH]; intros hs h Hok Hl; simpl.
  - exists hs, h. split; [reflexivity|assumption].
  - destruct (@explicit_step_exit h0 a hs h Hok (Hl a (or_introl eq_refl)))
      as (hs1 & h1 & Hstep & Hok1 & _).
    rewrite (bind_eq _ _ _ Hstep). apply IH; [assumption|].
    intros a' Ha'. apply Hl. right. assumption.
Qed.

End Explicit.

(** ** The graph after the planned hydrogens are added *)

Arguments ChemGraph.explicit_add : simpl never.

Lemma explicit_add_bonds (g : ChemGraph.t) (H atom : ref) (bond : Bond.t) :
  ChemGraph.bonds (ChemGraph.explicit_add g (H, atom, bond)) =
  add_edges (ChemGraph.bonds g) H atom bond.
Proof. reflexivity. Qed.

Lemma explicit_add_atoms (g : ChemGraph.t) (p : ref * ref * Bond.t) :
  ChemGraph.atoms (ChemGraph.explicit_add g p) =
  ChemGraph.atoms g ++ [fst (fst p)].
Proof. destruct p as [[H atom] bond]. reflexivity. Qed.

Lemma explicit_add_flag (g : ChemGraph.t) (p : ref * ref * Bond.t) :
  ChemGraph.implicitHydrogens (ChemGraph.explicit_add g p) =
  ChemGraph.implicitHydrogens g.
Proof. destruct p as [[H atom] bond]. reflexivity. Qed.

Lemma fold_explicit_add_atoms hs (g : ChemGraph.t) :
  ChemGraph.atoms (fold_left ChemGraph.explicit_add hs g) =
  ChemGraph.atoms g ++ map (fun p => fst (fst p)) hs.
Proof.
  revert g. induction hs as [|p hs IH]; intros g; simpl.
  - rewrite app_nil_r. reflexivity.
  - rewrite IH, explicit_add_atoms, <- app_assoc. reflexivity.
Qed.

Lemma fold_explicit_add_flag hs (g : ChemGraph.t) :
  ChemGraph.implicitHydrogens (fold_left ChemGraph.explicit_add hs g) =
  ChemGraph.implicitHydrogens g.
Proof.
  revert g. induction hs as [|p hs IH]; intros g; simpl; [reflexivity|].
  rewrite IH. apply explicit_add_flag.
Qed.

Lemma add_edges_get_other es H atom bond x :
  x <> H -> x <> atom ->
  dict_get (add_edges es H atom bond) x = dict_get es x.
Proof.
  intros HxH Hxa. unfold add_edges, Graph.addEdge, Graph.addVertex. simpl.
  rewrite !dict_get_set_ne by assumption. reflexivity.
Qed.

Lemma add_edges_get_new es H atom bond :
  H <> atom -> dict_get (add_edges es H atom bond) H = Some [(atom, bond)].
Proof.
  intros Hne. unfold add_edges, Graph.addEdge, Graph.addVertex. simpl.
  rewrite dict_get_set_ne by assumption. rewrite dict_get_set_eq.
  unfold Graph.neighbours. rewrite dict_get_set_eq. reflexivity.
Qed.

Lemma fold_explicit_add_get_other hs (g : ChemGraph.t) (x : ref) :
  (forall p, In p hs -> x <> fst (fst p) /\ x <> snd (fst p)) ->
  dict_get (ChemGraph.bonds (fold_left ChemGraph.explicit_add hs g)) x =
  dict_get (ChemGraph.bonds g) x.
Proof.
  revert g. induction hs as [|[[H atom] bond] hs IH]; intros g Hx; simpl.
  - reflexivity.
  - rewrite IH by (intros p Hp; apply Hx; right; assumption).
    rewrite explicit_add_bonds.
    destruct (Hx _ (or_introl eq_refl)) as [H1 H2].
    apply add_edges_get_other; assumption.
Qed.

(** Each planned hydrogen ends with its atom as its first neighbour. *)
Lemma fold_explicit_add_first (n0 : nat) hs (g : ChemGraph.t) :
  NoDup (map (fun p => fst (fst p)) hs) ->
  (forall p, In p hs -> snd (fst p) < n0 <= fst (fst p)) ->
  forall p, In p hs ->
    first_neighbour
      (ChemGraph.bonds (fold_left ChemGraph.explicit_add hs g)) (fst (fst p))
    = Some (snd (fst p)).
Proof.
  revert g. induction hs as [|[[H atom] bond] hs IH]; intros g Hnd Hrg p Hp.
  - destruct Hp.
  - simpl in Hnd. inversion Hnd as [|? ? Hnin Hnd']; subst.
    destruct Hp as [<-|Hp].
    + simpl. unfold first_neighbour.
      rewrite fold_explicit_add_get_other.
      * rewrite explicit_add_bonds, add_edges_get_new; [reflexivity|].
        pose proof (Hrg _ (or_introl eq_refl)) as Hr. simpl in Hr. lia.
      * intros q Hq. split.
        -- intros ->. apply Hnin. apply in_map_iff. exists q. auto.
        -- pose proof (Hrg _ (or_introl eq_refl)) as Hr. simpl in Hr.
           pose proof (Hrg q (or_intror Hq)) as Hr'. lia.
    + simpl. apply IH; [assumption| |assumption].
      intros q Hq. apply Hrg. right. assumption.
Qed.

(** ** Counting the bonds between the atoms that existed before *)

Lemma inner_below_set_high n (d : dict Bond.t) k v :
  n <= k -> inner_below n (dict_set d k v) = inner_below n d.
Proof.
  intros Hk. unfold inner_below.
  induction d as [|[k0 v0] d IH]; simpl.
  - destruct (Nat.ltb_spec k n); [lia|reflexivity].
  - destruct (Nat.eqb_spec k0 k) as [->|Hne]; simpl.
    + destruct (Nat.ltb_spec k n); [lia|reflexivity].
    + destruct (Nat.ltb k0 n); simpl; rewrite IH; reflexivity.
Qed.

Lemma inner_below_del_high n (d : dict Bond.t) k :
  n <= k -> inner_below n (dict_del d k) = inner_below n d.
Proof.
  intros Hk. unfold inner_below, dict_del.
  induction d as [|[k0 v0] d IH]; simpl; [reflexivity|].
  destruct (Nat.eqb_spec k0 k) as [->|Hne]; simpl.
  - rewrite IH. destruct (Nat.ltb_spec k n); [lia|reflexivity].
  - destruct (Nat.ltb k0 n); simpl; rewrite IH; reflexivity.
Qed.

Lemma entries_below_set n (es : dict (dict Bond.t)) k d' :
  weight_below n (k, d') = weight_below n (k, Graph.neighbours es k) ->
  entries_below n (dict_set es k d') = entries_below n es.
Proof.
  unfold entries_below, Graph.neighbours.
  induction es as [|[k0 d0] es IH]; simpl.
  - intros Hw. rewrite Hw. unfold weight_below, inner_below. simpl.
    destruct (Nat.ltb k n); reflexivity.
  - destruct (Nat.eqb_spec k0 k) as [E|Hne]; simpl; intros Hw.
    + subst k0. rewrite Hw. reflexivity.
    + rewrite IH by assumption. reflexivity.
Qed.

Lemma weight_below_high n k d : n <= k -> weight_below n (k, d) = 0.
Proof.
  intros Hk. unfold weight_below. simpl.
  destruct (Nat.ltb_spec k n); [lia|reflexivity].
Qed.

Lemma entries_below_add n es H atom bond :
  n <= H -> entries_below n (add_edges es H atom bond) = entries_below n es.
Proof.
  intros HH. unfold add_edges, Graph.addEdge, Graph.addVertex. simpl.
  rewrite entries_below_set.
  - rewrite entries_below_set by (rewrite !weight_below_high; auto).
    apply entries_below_set. rewrite !weight_below_high; auto.
  - unfold weight_below. simpl. rewrite inner_below_set_high by assumption.
    reflexivity.
Qed.

Lemma entries_below_remove n (g : Graph.t) v :
  n <= v ->
  entries_below n (Graph.edges (Graph.removeVertex g v)) =
  entries_below n (Graph.edges g).
Proof.
  intros Hv. unfold Graph.removeVertex, entries_below, dict_del. simpl.
  induction (Graph.edges g) as [|[k d] es IH]; simpl; [reflexivity|].
  destruct (Nat.eqb_spec k v) as [->|Hne]; simpl.
  - rewrite IH, weight_below_high by assumption. reflexivity.
  - rewrite IH. f_equal. unfold weight_below. simpl.
    change (filter (fun kv => negb (Nat.eqb (fst kv) v)) d)
      with (dict_del d v).
    rewrite inner_below_del_high by assumption. reflexivity.
Qed.

Lemma fold_explicit_add_entries n hs (g : ChemGraph.t) :
  (forall p, In p hs -> n <= fst (fst p)) ->
  entries_below n (ChemGraph.bonds (fold_left ChemGraph.explicit_add hs g)) =
  entries_below n (ChemGraph.bonds g).
Proof.
  revert g. induction hs as [|[[H atom] bond] hs IH]; intros g Hhs; simpl.
  - reflexivity.
  - rewrite IH by (intros p Hp; apply Hhs; right; assumption).
    rewrite explicit_add_bonds. apply entries_below_add.
    apply (Hhs _ (or_introl eq_refl)).
Qed.

Lemma fold_removeAtom_entries n (vs : list ref) (g : ChemGraph.t) :
  (forall v, In v vs -> n <= v) ->
  entries_below n (ChemGraph.bonds (fold_left ChemGraph.removeAtom vs g)) =
  entries_below n (ChemGraph.bonds g).
Proof.
  revert g. induction vs as [|v vs IH]; intros g Hvs; simpl.
  - reflexivity.
  - rewrite IH by (intros v' Hv'; apply Hvs; right; assumption).
    apply (entries_below_remove (ChemGraph.graph g)).
    apply Hvs. left. reflexivity.
Qed.

Lemma entries_below_all n (es : dict (dict Bond.t)) :
  keys_ok (fun r => r < n) es -> entries_below n es = bond_entries es.
Proof.
  unfold entries_below, bond_entries, keys_ok.
  induction es as [|[k d] es IH]; simpl; intros Hk; [reflexivity|].
  rewrite IH by (intros a d' Hin; apply Hk; right; assumption).
  f_equal. destruct (Hk k d (or_introl eq_refl)) as [Hkn Hd].
  unfold weight_below, inner_below. simpl.
  destruct (Nat.ltb_spec k n); [|lia]. f_equal.
  clear -Hd. induction d as [|[k2 v2] d IHd]; simpl; [reflexivity|].
  destruct (Nat.ltb_spec k2 n) as [_|Hge].
  - f_equal. apply IHd. intros b Hb. apply Hd. right. assumption.
  - exfalso. specialize (Hd k2 (or_introl eq_refl)). lia.
Qed.

Lemma dict_set_In {V} (d : dict V) k v k' v' :
  In (k', v') (dict_set d k v) -> (k', v') = (k, v) \/ In (k', v') d.
Proof.
  induction d as [|[k0 v0] d IH]; simpl.
  - intros [<-|[]]. left. reflexivity.
  - destruct (Nat.eqb_spec k0 k) as [->|Hne]; simpl.
    + intros [<-|Hin]; auto.
    + intros [<-|Hin]; auto. destruct (IH Hin); auto.
Qed.

Lemma dict_keys_set_In {V} (d : dict V) k v b :
  In b (dict_keys (dict_set d k v)) -> b = k \/ In b (dict_keys d).
Proof.
  unfold dict_keys. intros Hb. apply in_map_iff in Hb.
  destruct Hb as ([k' v'] & <- & Hin). apply dict_set_In in Hin.
  destruct Hin as [[= -> ->]|Hin]; [left; reflexivity|].
  right. apply in_map_iff. exists (k', v'). auto.
Qed.

Lemma keys_ok_neighbours (P : ref -> Prop) es a b :
  keys_ok P es -> In b (dict_keys (Graph.neighbours es a)) -> P b.
Proof.
  intros Hk Hb. unfold Graph.neighbours in Hb.
  destruct (dict_get es a) as [d|] eqn:Hd; [|destruct Hb].
  apply dict_get_In in Hd. apply (Hk a d Hd). assumption.
Qed.

Lemma keys_ok_set_inner (P : ref -> Prop) es k1 k2 v :
  keys_ok P es -> P k1 -> P k2 ->
  keys_ok P (dict_set es k1 (dict_set (Graph.neighbours es k1) k2 v)).
Proof.
  intros Hk H1 H2 a d Hin. apply dict_set_In in Hin.
  destruct Hin as [[= -> ->]|Hin]; [|apply (Hk a d Hin)].
  split; [assumption|]. intros b Hb. apply dict_keys_set_In in Hb.
  destruct Hb as [->|Hb]; [assumption|].
  eapply keys_ok_neighbours; eassumption.
Qed.

Lemma keys_ok_add (P : ref -> Prop) es H atom bond :
  keys_ok P es -> P H -> P atom -> keys_ok P (add_edges es H atom bond).
Proof.
  intros Hk HH Ha. unfold add_edges, Graph.addEdge, Graph.addVertex. simpl.
  apply keys_ok_set_inner; [|assumption|assumption].
  apply keys_ok_set_inner; [|assumption|assumption].
  intros a d Hin. apply dict_set_In in Hin.
  destruct Hin as [[= -> ->]|Hin]; [|apply (Hk a d Hin)].
  split; [assumption|]. intros b [].
Qed.

Lemma fold_explicit_add_keys (P : ref -> Prop) hs (g : ChemGraph.t) :
  keys_ok P (ChemGraph.bonds g) ->
  (forall p, In p hs -> P (fst (fst p)) /\ P (snd (fst p))) ->
  keys_ok P (ChemGraph.bonds (fold_left ChemGraph.explicit_add hs g)).
Proof.
  revert g. induction hs as [|[[H atom] bond] hs IH]; intros g Hk Hhs; simpl.
  - assumption.
  - apply IH; [|intros p Hp; apply Hhs; right; assumption].
    rewrite explicit_add_bonds.
    destruct (Hhs _ (or_introl eq_refl)) as [HH Ha].
    apply keys_ok_add; assumption.
Qed.

Lemma keys_ok_remove (P : ref -> Prop) (g : Graph.t) v :
  keys_ok P (Graph.edges g) ->
  keys_ok (fun r => P r /\ r <> v) (Graph.edges (Graph.removeVertex g v)).
Proof.
  intros Hk a d' Hin. unfold Graph.removeVertex in Hin. simpl in Hin.
  apply in_map_iff in Hin. destruct Hin as ([k d] & [= <- <-] & Hin).
  unfold dict_del in Hin. apply filter_In in Hin. destruct Hin as [Hin Hkv].
  simpl in *. destruct (Hk k d Hin) as [Pk Pd].
  split.
  - split; [assumption|]. intros ->. rewrite Nat.eqb_refl in Hkv.
    discriminate.
  - intros b Hb. unfold dict_keys, dict_del in Hb. apply in_map_iff in Hb.
    destruct Hb as ([b' v'] & <- & Hb). apply filter_In in Hb.
    destruct Hb as [Hb Hbv]. simpl in *. split.
    + apply Pd. apply in_map_iff. exists (b', v'). auto.
    + intros ->. rewrite Nat.eqb_refl in Hbv. discriminate.
Qed.

Lemma fold_removeAtom_keys (P : ref -> Prop) (vs : list ref)
    (g : ChemGraph.t) :
  keys_ok P (ChemGraph.bonds g) ->
  keys_ok (fun r => P r /\ ~ In r vs)
          (ChemGraph.bonds (fold_left ChemGraph.removeAtom vs g)).
Proof.
  revert P g. induction vs as [|v vs IH]; intros P g Hk; simpl.
  - intros a d Hin. destruct (Hk a d Hin) as [Pa Pd]. split; [tauto|].
    intros b Hb. split; [auto|tauto].
  - pose proof (@keys_ok_remove P (ChemGraph.graph g) v Hk) as Hk'.
    specialize (IH _ (ChemGraph.removeAtom g v) Hk').
    intros a d Hin. destruct (IH a d Hin) as [[[Pa Hav] Hnin] Pd].
    split.
    + split; [assumption|]. intros [->|Hin']; [congruence|contradiction].
    + intros b Hb. destruct (Pd b Hb) as [[Pb Hbv] Hbn].
      split; [assumption|]. intros [->|Hin']; [congruence|contradiction].
Qed.

(** ** [makeHydrogensExplicit] followed by [makeHydrogensImplicit] *)

Lemma keys_ok_impl (P Q : ref -> Prop) es :
  (forall r, P r -> Q r) -> keys_ok P es -> keys_ok Q es.
Proof.
  intros HPQ Hk a d Hin. destruct (Hk a d Hin) as [Pa Pd]. split; auto.
Qed.

Lemma allocated_keys_ok (h : Heap) (g : ChemGraph.t) :
  allocated h g -> keys_ok (fun r => r < next h) (ChemGraph.bonds g).
Proof. intros [_ Hk]. exact Hk. Qed.

Lemma filter_all {A} (p : A -> bool) (l : list A) :
  (forall x, In x l -> p x = true) -> filter p l = l.
Proof.
  induction l as [|x l IH]; simpl; intros Hp; [reflexivity|].
  rewrite (Hp x (or_introl eq_refl)), IH; [reflexivity|].
  intros y Hy. apply Hp. right. assumption.
Qed.

Lemma filter_none {A} (p : A -> bool) (l : list A) :
  (forall x, In x l -> p x = false) -> filter p l = [].
Proof.
  induction l as [|x l IH]; simpl; intros Hp; [reflexivity|].
  rewrite (Hp x (or_introl eq_refl)). apply IH.
  intros y Hy. apply Hp. right. assumption.
Qed.

Lemma filter_map_length {A B} (p : B -> bool) (f : A -> B) (l : list A) :
  List.length (filter p (map f l)) =
  List.length (filter (fun x => p (f x)) l).
Proof.
  induction l as [|x l IH]; simpl; [reflexivity|].
  destruct (p (f x)); simpl; rewrite IH; reflexivity.
Qed.

Section RoundTrip.
Context `{ElementRegistry}.
Variable eH : Element.
Hypothesis registry_H : elements_dict "H" = Some eH.
Hypothesis number_H : number eH = 1%Z.

(** With hydrogen in the registry [makeHydrogensExplicit] returns: the
    planned hydrogens are added to the graph and the flag is cleared. *)
Lemma makeHydrogensExplicit_ok (g : ChemGraph.t) (h : Heap) :
  (forall a, In a (ChemGraph.atoms g) -> a < next h) ->
  exists hs h1,
    ChemGraph.makeHydrogensExplicit g h
    = Ok (ChemGraph.set_implicitHydrogens
            (fold_left ChemGraph.explicit_add hs g) false, h1) /\
    planned_ok h eH hs h1.
Proof.
  intros Halloc.
  destruct (@explicit_scan_ok _ eH registry_H h (ChemGraph.atoms g) [] h
              (planned_ok_start h eH) Halloc) as (hs & h1 & Hscan & Hok).
  exists hs, h1. split; [|assumption].
  unfold ChemGraph.makeHydrogensExplicit.
  rewrite (bind_eq _ _ _ Hscan). reflexivity.
Qed.

Section Planned.
Variables (g : ChemGraph.t) (h h1 : Heap) (hs : list (ref * ref * Bond.t)).
Hypothesis Halloc : allocated h g.
Hypothesis Hheavy :
  forall a, In a (ChemGraph.atoms g) -> isHydrogenAt h a = false.
Hypothesis Hok : planned_ok h eH hs h1.

Let g1 : ChemGraph.t :=
  ChemGraph.set_implicitHydrogens
    (fold_left ChemGraph.explicit_add hs g) false.
Let Hs : list ref := map (fun p => fst (fst p)) hs.

Lemma planned_atoms : ChemGraph.atoms g1 = ChemGraph.atoms g ++ Hs.
Proof. apply fold_explicit_add_atoms. Qed.

Lemma planned_range p : In p hs -> snd (fst p) < next h <= fst (fst p).
Proof.
  intros Hp. split; [exact (po_targets Hok p Hp)|].
  assert (Hin : In (fst (fst p)) Hs)
    by exact (in_map (fun q => fst (fst q)) hs p Hp).
  unfold Hs in Hin. rewrite (po_refs Hok) in Hin. apply in_seq in Hin. lia.
Qed.

Lemma planned_new_range r : In r Hs -> next h <= r < next h1.
Proof.
  unfold Hs. rewrite (po_refs Hok), (po_next Hok). intros Hin.
  apply in_seq in Hin. lia.
Qed.

Lemma planned_new_hydrogen r : In r Hs -> isHydrogenAt h1 r = true.
Proof.
  intros Hin. unfold isHydrogenAt.
  rewrite (po_new Hok) by (apply planned_new_range; assumption).
  unfold Atom.isHydrogen, Atom.number, hydrogen_atom. simpl.
  rewrite number_H. reflexivity.
Qed.

Lemma planned_old_heavy a :
  In a (ChemGraph.atoms g) -> isHydrogenAt h1 a = false.
Proof.
  intros Hin. rewrite <- (Hheavy a Hin). unfold isHydrogenAt.
  rewrite (po_old Hok) by (apply Halloc; assumption). reflexivity.
Qed.

Lemma planned_first p :
  In p hs ->
  first_neighbour (ChemGraph.bonds g1) (fst (fst p)) = Some (snd (fst p)).
Proof.
  intros Hp. apply (fold_explicit_add_first (n0 := next h)).
  - fold Hs. unfold Hs. rewrite (po_refs Hok). apply seq_NoDup.
  - apply planned_range.
  - assumption.
Qed.

Lemma planned_hydrogens_on r :
  List.length
    (hydrogens_on h1 (ChemGraph.bonds g1) (ChemGraph.atoms g1) r)
  = planned_for hs r.
Proof.
  rewrite planned_atoms. unfold hydrogens_on. rewrite filter_app, length_app.
  rewrite filter_none.
  2:{ intros a Ha. rewrite (planned_old_heavy a Ha). reflexivity. }
  unfold Hs. rewrite filter_map_length. unfold planned_for. simpl.
  f_equal. apply filter_ext_in_bool. intros p Hp.
  rewrite planned_new_hydrogen
    by exact (in_map (fun q => fst (fst q)) hs p Hp).
  rewrite (planned_first p Hp). reflexivity.
Qed.

Lemma planned_strip_atoms :
  filter (isHydrogenAt h1) (ChemGraph.atoms g1) = Hs /\
  ChemGraph.atoms (stripped h1 g1) = ChemGraph.atoms g.
Proof.
  split.
  - rewrite planned_atoms, filter_app.
    rewrite (filter_none _ _ planned_old_heavy).
    apply (filter_all _ _ planned_new_hydrogen).
  - rewrite stripped_atoms, planned_atoms, filter_app.
    rewrite filter_all, filter_none; [apply app_nil_r| |].
    + intros r Hr. rewrite planned_new_hydrogen by assumption. reflexivity.
    + intros a Ha. rewrite planned_old_heavy by assumption. reflexivity.
Qed.

Lemma planned_strip_bonds :
  bond_entries (ChemGraph.bonds (stripped h1 g1)) =
  bond_entries (ChemGraph.bonds g).
Proof.
  pose proof (allocated_keys_ok Halloc) as Hk0.
  assert (Hk1 : keys_ok (fun r => r < next h \/ In r Hs)
                        (ChemGraph.bonds g1)).
  { apply fold_explicit_add_keys.
    - eapply keys_ok_impl; [|exact Hk0]. intros r Hr. left. exact Hr.
    - intros p Hp. split.
      + right. exact (in_map (fun q => fst (fst q)) hs p Hp).
      + left. exact (po_targets Hok p Hp). }
  assert (Hbonds : ChemGraph.bonds (stripped h1 g1) =
                   ChemGraph.bonds (fold_left ChemGraph.removeAtom Hs g1)).
  { unfold stripped. rewrite (proj1 planned_strip_atoms). reflexivity. }
  rewrite Hbonds.
  rewrite <- (entries_below_all (n := next h)).
  - rewrite fold_removeAtom_entries.
    + change (ChemGraph.bonds g1)
        with (ChemGraph.bonds (fold_left ChemGraph.explicit_add hs g)).
      rewrite fold_explicit_add_entries.
      * apply entries_below_all. exact Hk0.
      * intros p Hp. apply planned_range. assumption.
    + intros v Hv. apply planned_new_range. assumption.
  - eapply keys_ok_impl; [|apply fold_removeAtom_keys; exact Hk1].
    intros r [[Hr|Hr] Hnin]; [assumption|contradiction].
Qed.

End Planned.

(** A scan over atoms without a positive counter plans nothing. *)
Lemma explicit_scan_idle (l : list ref) hs (h : Heap) :
  (forall a, In a l -> (counter h a <= 0)%Z) ->
  foldM ChemGraph.explicit_step l hs h = Ok (hs, h).
Proof.
  induction l as [|a l IH]; intros Hl; simpl; [reflexivity|].
  unfold bind at 1. unfold ChemGraph.explicit_step at 1.
  unfold bind, read, gets.
  pose proof (Hl a (or_introl eq_refl)) as Ha. unfold counter in Ha.
  replace (Z.to_nat (Atom.implicitHydrogens (cell h a))) with 0 by lia.
  simpl. apply IH. intros a' Ha'. apply Hl. right. assumption.
Qed.

Lemma roundtrip_idle (g : ChemGraph.t) (h : Heap) :
  (forall a, In a (ChemGraph.atoms g) ->
             isHydrogenAt h a = true /\ (counter h a <= 0)%Z) ->
  exists g1 h1 g2 h2,
    ChemGraph.makeHydrogensExplicit g h = Ok (g1, h1) /\
    ChemGraph.makeHydrogensImplicit g1 h1 = Ok (g2, h2) /\
    numAtoms g2 = numAtoms g /\
    numBonds g2 = numBonds g /\
    forall a, In a (ChemGraph.atoms g) -> counter h2 a = counter h a.
Proof.
  intros Hlight.
  exists (ChemGraph.set_implicitHydrogens g false), h,
         (ChemGraph.set_implicitHydrogens g false), h.
  split.
  { unfold ChemGraph.makeHydrogensExplicit.
    rewrite (bind_eq _ _ _ (explicit_scan_idle (ChemGraph.atoms g) [] h
               (fun a Ha => proj2 (Hlight a Ha)))).
    reflexivity. }
  split.
  { unfold ChemGraph.makeHydrogensImplicit, bind, gets.
    change (ChemGraph.atoms (ChemGraph.set_implicitHydrogens g false))
      with (ChemGraph.atoms g).
    replace (forallb _ (ChemGraph.atoms g)) with true; [reflexivity|].
    symmetry. apply forallb_forall. intros a Ha. apply (Hlight a Ha). }
  repeat split.
Qed.

(** C3, as the code has it.  When hydrogen is in the registry, on a graph
    over allocated atoms that has no hydrogen vertex (its hydrogens are all
    on the counters), or that has hydrogen vertices only, none with a
    positive counter, [makeHydrogensExplicit] followed by
    [makeHydrogensImplicit] both return and restore the number of atoms,
    the number of bonds and the counter of every atom of the graph. *)
Theorem explicit_implicit_roundtrip (g : ChemGraph.t) (h : Heap) :
  allocated h g ->
  (forall a, In a (ChemGraph.atoms g) -> isHydrogenAt h a = false) \/
  (forall a, In a (ChemGraph.atoms g) ->
             isHydrogenAt h a = true /\ (counter h a <= 0)%Z) ->
  exists g1 h1 g2 h2,
    ChemGraph.makeHydrogensExplicit g h = Ok (g1, h1) /\
    ChemGraph.makeHydrogensImplicit g1 h1 = Ok (g2, h2) /\
    numAtoms g2 = numAtoms g /\
    numBonds g2 = numBonds g /\
    forall a, In a (ChemGraph.atoms g) -> counter h2 a = counter h a.
Proof.
  intros Halloc [Hheavy|Hlight]; [|apply roundtrip_idle; assumption].
  assert (Hcase : ChemGraph.atoms g = [] \/
                  exists a0, In a0 (ChemGraph.atoms g)).
  { destruct (ChemGraph.atoms g) as [|a0 l0]; [left; reflexivity|].
    right. exists a0. left. reflexivity. }
  destruct Hcase as [Hatoms|(a0 & Hin0)].
  { apply roundtrip_idle. rewrite Hatoms. intros a []. }
  destruct (makeHydrogensExplicit_ok g h (proj1 Halloc))
    as (hs & h1 & Hexp & Hok).
  set (g1 := ChemGraph.set_implicitHydrogens
               (fold_left ChemGraph.explicit_add hs g) false) in *.
  exists g1, h1.
  destruct (makeHydrogensImplicit_ok g1 h1) as (h2 & Himp & _ & Hcnt).
  { exists a0. split.
    - unfold g1. rewrite (planned_atoms g hs). apply in_or_app. auto.
    - apply (planned_old_heavy Halloc Hheavy Hok). assumption. }
  { intros a Ha Hh. unfold g1 in Ha. rewrite (planned_atoms g hs) in Ha.
    apply in_app_or in Ha. destruct Ha as [Ha|Ha].
    - rewrite (planned_old_heavy Halloc Hheavy Hok a Ha) in Hh.
      discriminate.
    - apply in_map_iff in Ha. destruct Ha as (p & <- & Hp).
      unfold g1. rewrite (planned_first g Hok p Hp). discriminate. }
  exists (stripped h1 g1), h2. split; [assumption|].
  split; [assumption|]. split; [|split].
  - unfold numAtoms, g1.
    rewrite (proj2 (planned_strip_atoms Halloc Hheavy Hok)).
    reflexivity.
  - unfold numBonds, g1.
    rewrite (planned_strip_bonds Halloc Hheavy Hok). reflexivity.
  - intros a Ha. rewrite Hcnt.
    unfold g1. rewrite (planned_hydrogens_on Halloc Hheavy Hok).
    apply (po_sum Hok). apply Halloc. assumption.
Qed.

End RoundTrip.

Lemma explicit_implicit_roundtrip_witness :
  @elements_dict Demo.registry "H" = Some Demo.H /\
  number Demo.H = 1%Z /\
  allocated Demo.methane_heap Demo.methane /\
  exists g1 h1 g2 h2,
    @ChemGraph.makeHydrogensExplicit Demo.registry Demo.methane
      Demo.methane_heap = Ok (g1, h1) /\
    ChemGraph.makeHydrogensImplicit g1 h1 = Ok (g2, h2) /\
    numAtoms g2 = numAtoms Demo.methane /\
    numBonds g2 = numBonds Demo.methane /\
    forall a, In a (ChemGraph.atoms Demo.methane) ->
              counter h2 a = counter Demo.methane_heap a.
Proof.
  assert (Halloc : allocated Demo.methane_heap Demo.methane).
  { split.
    - simpl. intros a [<-|[]]. lia.
    - simpl. intros a d [[= <- <-]|[]]. split; [lia|]. intros b []. }
  split; [reflexivity|]. split; [reflexivity|]. split; [exact Halloc|].
  apply (@explicit_implicit_roundtrip Demo.registry Demo.H eq_refl eq_refl
           Demo.methane Demo.methane_heap Halloc).
  left. simpl. intros a [<-|[]]. reflexivity.
Defined.

(** C3, refuted as stated: in hydroxyl stored as O(0) - H(1) the hydrogen
    vertex has degree 1, yet [makeHydrogensExplicit] followed by
    [makeHydrogensImplicit] leaves one atom where there were two, no bond
    where there was one, and the counter of the oxygen at 1 instead
    of 0. *)
Lemma explicit_implicit_hydroxyl :
  (forall a, In a (ChemGraph.atoms Demo.hydroxyl) ->
             isHydrogenAt Demo.hydroxyl_heap a = true ->
             degree (ChemGraph.bonds Demo.hydroxyl) a = 1) /\
  exists g1 h1 g2 h2,
    @ChemGraph.makeHydrogensExplicit Demo.registry Demo.hydroxyl
      Demo.hydroxyl_heap = Ok (g1, h1) /\
    ChemGraph.makeHydrogensImplicit g1 h1 = Ok (g2, h2) /\
    numAtoms Demo.hydroxyl = 2 /\ numAtoms g2 = 1 /\
    numBonds Demo.hydroxyl = 1 /\ numBonds g2 = 0 /\
    counter Demo.hydroxyl_heap 0 = 0%Z /\ counter h2 0 = 1%Z.
Proof.
  split.
  - simpl. intros a [<-|[<-|[]]]; [discriminate|reflexivity].
  - eexists. eexists. eexists. eexists.
    split; [vm_compute; reflexivity|].
    split; [vm_compute; reflexivity|].
    repeat split.
Qed.

(** ** Export *)

Lemma old_elements_refl h : old_elements h h.
Proof. split; [lia|reflexivity]. Qed.

Lemma old_elements_trans h1 h2 h3 :
  old_elements h1 h2 -> old_elements h2 h3 -> old_elements h1 h3.
Proof.
  intros [Hn1 He1] [Hn2 He2]. split; [lia|].
  intros r Hr. rewrite He2 by lia. apply He1. assumption.
Qed.

Lemma old_elements_plan_one e h atom : old_elements h (plan_one e h atom).
Proof.
  split; [simpl; lia|]. intros r Hr. unfold plan_one, upd. simpl.
  destruct (Nat.eqb_spec r atom) as [->|Hne]; simpl.
  - destruct (Nat.eqb_spec atom (next h)); [lia|reflexivity].
  - destruct (Nat.eqb_spec r (next h)); [lia|reflexivity].
Qed.

Section ExportLemmas.
Context `{ElementRegistry} `{GraphCapability}.

Lemma explicit_while_old n atom hs h hs' h' :
  ChemGraph.explicit_while n atom hs h = Ok (hs', h') -> old_elements h h'.
Proof.
  revert hs h. induction n as [|n IH]; intros hs h.
  - intros [= <- <-]. apply old_elements_refl.
  - destruct (elements_dict "H") as [e|] eqn:He.
    + rewrite (explicit_while_S He). intros Hrun. apply IH in Hrun.
      eapply old_elements_trans; [apply old_elements_plan_one|exact Hrun].
    + simpl. unfold Atom_init, bind at 1 2, raise. rewrite He. discriminate.
Qed.

Lemma explicit_scan_old l hs h hs' h' :
  foldM ChemGraph.explicit_step l hs h = Ok (hs', h') -> old_elements h h'.
Proof.
  revert hs h. induction l as [|a l IH]; intros hs h; simpl.
  - intros [= <- <-]. apply old_elements_refl.
  - intros Hrun. apply bind_Ok in Hrun.
    destruct Hrun as (hs1 & h1 & Hstep & Hrest).
    unfold ChemGraph.explicit_step, bind at 1, read, gets in Hstep.
    apply explicit_while_old in Hstep. apply IH in Hrest.
    eapply old_elements_trans; eassumption.
Qed.

Lemma makeHydrogensExplicit_inv (g g1 : ChemGraph.t) (h h1 : Heap) :
  ChemGraph.makeHydrogensExplicit g h = Ok (g1, h1) ->
  exists hs,
    g1 = ChemGraph.set_implicitHydrogens
           (fold_left ChemGraph.explicit_add hs g) false /\
    old_elements h h1.
Proof.
  unfold ChemGraph.makeHydrogensExplicit. intros Hrun.
  apply bind_Ok in Hrun. destruct Hrun as (hs & h2 & Hscan & Hret).
  injection Hret as <- <-. exists hs. split; [reflexivity|].
  eapply explicit_scan_old. eassumption.
Qed.

Lemma toOBMol_atoms_calls (l : list ref) calls h :
  foldM Molecule.toOBMol_atom l calls h =
  Ok (calls ++ flat_map (atom_calls h) l, h).
Proof.
  revert calls. induction l as [|a l IH]; intros calls; simpl.
  - unfold ret. rewrite app_nil_r. reflexivity.
  - unfold bind at 1. unfold Molecule.toOBMol_atom at 1.
    unfold bind, read, gets, ret. rewrite IH, <- app_assoc. reflexivity.
Qed.

Lemma atom_calls_no_bond i j h l :
  count_calls (joins i j) (flat_map (atom_calls h) l) = 0.
Proof.
  rewrite count_calls_flat_map.
  induction l as [|a l IH]; simpl; [reflexivity|]. exact IH.
Qed.

Lemma toOBMol_inv (self self' : Molecule.t) (h h' : Heap)
    (calls : list OBCall) form others g1 h1 :
  Molecule.toOBMol self h = Ok ((calls, self'), h') ->
  Molecule.resonanceForms self = form :: others ->
  ChemGraph.makeHydrogensExplicit form h = Ok (g1, h1) ->
  let g2 := sorted_form h1 g1 in
  calls = flat_map (atom_calls h1) (ChemGraph.atoms g2)
          ++ emitted (ChemGraph.atoms g2) (ChemGraph.bonds g2)
          ++ [AssignSpinMultiplicity true] /\
  exists g3,
    self' = Molecule.mk (g3 :: others) /\
    if ChemGraph.implicitHydrogens form
    then ChemGraph.makeHydrogensImplicit g2 h1 = Ok (g3, h')
    else g3 = g2 /\ h' = h1.
Proof.
  intros Hrun Hforms Hexp g2. unfold Molecule.toOBMol in Hrun.
  rewrite Hforms in Hrun. rewrite (bind_eq _ _ _ Hexp) in Hrun.
  unfold ChemGraph.sortAtoms in Hrun. unfold bind at 1 2, gets, ret in Hrun.
  fold (sorted_form h1 g1) in Hrun. fold g2 in Hrun.
  rewrite (bind_eq _ _ _ (toOBMol_atoms_calls (ChemGraph.atoms g2) [] h1))
    in Hrun.
  unfold bind at 1, lift in Hrun.
  destruct (Molecule.toOBMol_bonds _ _ _) as [bcalls|] eqn:Hb;
    [|discriminate].
  apply toOBMol_bonds_emitted in Hb. simpl in Hb.
  destruct (ChemGraph.implicitHydrogens form).
  - apply bind_Ok in Hrun. destruct Hrun as (g3 & h3 & Himp & Hret).
    injection Hret as <- <- <-. split.
    + rewrite Hb, <- app_assoc. reflexivity.
    + exists g3. split; [reflexivity|assumption].
  - unfold bind, ret in Hrun. injection Hrun as <- <- <-. split.
    + rewrite Hb, <- app_assoc. reflexivity.
    + exists g2. auto.
Qed.

End ExportLemmas.

(** ** Dictionaries keep their keys apart *)

Lemma dict_wf_set {V} (d : dict V) k v : dict_wf d -> dict_wf (dict_set d k v).
Proof.
  unfold dict_wf. induction d as [|[k0 v0] d IH]; simpl; intros Hwf.
  - constructor; [intros []|constructor].
  - inversion Hwf as [|? ? Hnin Hwf']; subst.
    destruct (Nat.eqb_spec k0 k) as [->|Hne]; simpl.
    + constructor; assumption.
    + constructor; [|apply IH; assumption].
      intros Hin. apply dict_keys_set_In in Hin.
      destruct Hin as [->|Hin]; [congruence|contradiction].
Qed.

Lemma bonds_wf_neighbours es a : bonds_wf es -> dict_wf (Graph.neighbours es a).
Proof.
  intros [_ Hin]. unfold Graph.neighbours.
  destruct (dict_get es a) as [d|] eqn:Hd; [|constructor].
  apply (Hin a d). apply dict_get_In. assumption.
Qed.

Lemma bonds_wf_set es k d : bonds_wf es -> dict_wf d -> bonds_wf (dict_set es k d).
Proof.
  intros [Hout Hin] Hd. split; [apply dict_wf_set; assumption|].
  intros a d' Hin'. apply dict_set_In in Hin'.
  destruct Hin' as [[= -> ->]|Hin']; [assumption|eapply Hin; eassumption].
Qed.

Lemma bonds_wf_add es H atom bond :
  bonds_wf es -> bonds_wf (add_edges es H atom bond).
Proof.
  intros Hwf. unfold add_edges, Graph.addEdge, Graph.addVertex. simpl.
  assert (H1 : bonds_wf (dict_set es H [])).
  { apply bonds_wf_set; [assumption|constructor]. }
  assert (H2 : bonds_wf
            (dict_set (dict_set es H [])
               H (dict_set (Graph.neighbours (dict_set es H []) H) atom bond))).
  { apply bonds_wf_set; [assumption|].
    apply dict_wf_set, bonds_wf_neighbours. assumption. }
  apply bonds_wf_set; [assumption|].
  apply dict_wf_set, bonds_wf_neighbours. assumption.
Qed.

Lemma fold_explicit_add_wf hs (g : ChemGraph.t) :
  bonds_wf (ChemGraph.bonds g) ->
  bonds_wf (ChemGraph.bonds (fold_left ChemGraph.explicit_add hs g)).
Proof.
  revert g. induction hs as [|[[H atom] bond] hs IH]; intros g Hwf; simpl.
  - assumption.
  - apply IH. rewrite explicit_add_bonds. apply bonds_wf_add. assumption.
Qed.

(** ** The export *)

Lemma joins_sym (i j : nat) (c : OBCall) : joins i j c = joins j i c.
Proof. destruct c; simpl; try reflexivity. apply orb_comm. Qed.

Lemma count_calls_joins_sym (i j : nat) (calls : list OBCall) :
  count_calls (joins i j) calls = count_calls (joins j i) calls.
Proof.
  unfold count_calls. f_equal. apply filter_ext_in_bool.
  intros c _. apply joins_sym.
Qed.

(** The calls of an export that returns, for an entry of the bond mapping
    whose first atom comes first in the canonical order. *)
Lemma toOBMol_joins_once `{ElementRegistry} `{GraphCapability}
    (self self' : Molecule.t) (form : ChemGraph.t)
    (others : list ChemGraph.t) (g1 : ChemGraph.t) (h h1 h' : Heap)
    (calls : list OBCall) (a1 a2 : ref) (i1 i2 : nat) (bond : Bond.t) :
  Molecule.toOBMol self h = Ok ((calls, self'), h') ->
  Molecule.resonanceForms self = form :: others ->
  bonds_wf (ChemGraph.bonds form) ->
  ChemGraph.makeHydrogensExplicit form h = Ok (g1, h1) ->
  stored (ChemGraph.bonds g1) a1 a2 = Some bond ->
  list_index (sortVertices h1 (ChemGraph.graph g1)) a1 = Some i1 ->
  list_index (sortVertices h1 (ChemGraph.graph g1)) a2 = Some i2 ->
  i1 < i2 ->
  count_calls (joins (i1 + 1) (i2 + 1)) calls = 1 /\
  In (AddBond (i1 + 1) (i2 + 1) (Bond.order bond)) calls.
Proof.
  intros Hrun Hforms Hwf Hexp Hst Hi1 Hi2 Hlt.
  edestruct toOBMol_inv as [Hcalls _];
    [exact Hrun|exact Hforms|exact Hexp|].
  assert (Hwf1 : bonds_wf (ChemGraph.bonds g1)).
  { apply makeHydrogensExplicit_inv in Hexp. destruct Hexp as (hs & -> & _).
    apply (fold_explicit_add_wf hs form Hwf). }
  edestruct emitted_joins_once as [Hcount Hin];
    [exact Hi1|exact Hi2|exact Hlt|exact Hwf1|exact Hst|].
  rewrite Hcalls. split.
  - rewrite !count_calls_app, atom_calls_no_bond. simpl.
    change (ChemGraph.bonds (sorted_form h1 g1)) with (ChemGraph.bonds g1).
    change (ChemGraph.atoms (sorted_form h1 g1))
      with (sortVertices h1 (ChemGraph.graph g1)).
    rewrite Hcount. reflexivity.
  - apply in_or_app. right. apply in_or_app. left. exact Hin.
Qed.

(** C4.  In an export that returns, take two distinct atoms [a] and [b]
    with a bond stored under [(a, b)] and under [(b, a)] when the two loops
    run (hydrogens explicit, atoms in canonical order).  Their indices in
    the canonical order differ, and among all the calls of the export
    exactly one [AddBond] joins the two atoms: the one for the ordering
    whose first index is the smaller, with the order of the bond stored
    under that ordering.  The entry of the other ordering emits nothing, so
    the bond is not emitted twice. *)
Theorem toOBMol_bond_emitted_once `{ElementRegistry} `{GraphCapability}
    (self self' : Molecule.t) (form : ChemGraph.t)
    (others : list ChemGraph.t) (g1 : ChemGraph.t) (h h1 h' : Heap)
    (calls : list OBCall) (a b : ref) (ia ib : nat)
    (bond_ab bond_ba : Bond.t) :
  Molecule.toOBMol self h = Ok ((calls, self'), h') ->
  Molecule.resonanceForms self = form :: others ->
  bonds_wf (ChemGraph.bonds form) ->
  ChemGraph.makeHydrogensExplicit form h = Ok (g1, h1) ->
  stored (ChemGraph.bonds g1) a b = Some bond_ab ->
  stored (ChemGraph.bonds g1) b a = Some bond_ba ->
  a <> b ->
  list_index (sortVertices h1 (ChemGraph.graph g1)) a = Some ia ->
  list_index (sortVertices h1 (ChemGraph.graph g1)) b = Some ib ->
  ia <> ib /\
  count_calls (joins (ia + 1) (ib + 1)) calls = 1 /\
  (ia < ib -> In (AddBond (ia + 1) (ib + 1) (Bond.order bond_ab)) calls) /\
  (ib < ia -> In (AddBond (ib + 1) (ia + 1) (Bond.order bond_ba)) calls).
Proof.
  intros Hrun Hforms Hwf Hexp Hab Hba Hne Hia Hib.
  assert (Hidx : ia <> ib).
  { intros ->. apply Hne. eapply list_index_inj; eassumption. }
  split; [exact Hidx|].
  destruct (Nat.lt_total ia ib) as [Hlt|[Heq|Hgt]]; [|contradiction|].
  - edestruct toOBMol_joins_once as [Hcount Hin];
      [exact Hrun|exact Hforms|exact Hwf|exact Hexp|exact Hab|exact Hia
      |exact Hib|exact Hlt|].
    split; [exact Hcount|]. split; [intros _; exact Hin|lia].
  - edestruct toOBMol_joins_once as [Hcount Hin];
      [exact Hrun|exact Hforms|exact Hwf|exact Hexp|exact Hba|exact Hib
      |exact Hia|exact Hgt|].
    split; [rewrite count_calls_joins_sym; exact Hcount|].
    split; [lia|intros _; exact Hin].
Qed.

Lemma toOBMol_bond_emitted_once_witness :
  exists calls self' h' g1 h1,
    @Molecule.toOBMol Demo.registry Demo.capability
      (Molecule.mk [Demo.methane]) Demo.methane_heap
    = Ok ((calls, self'), h') /\
    bonds_wf (ChemGraph.bonds Demo.methane) /\
    @ChemGraph.makeHydrogensExplicit Demo.registry Demo.methane
      Demo.methane_heap = Ok (g1, h1) /\
    stored (ChemGraph.bonds g1) 0 1 = Some Demo.single /\
    stored (ChemGraph.bonds g1) 1 0 = Some Demo.single /\
    list_index (@sortVertices Demo.capability h1 (ChemGraph.graph g1)) 0
    = Some 4 /\
    list_index (@sortVertices Demo.capability h1 (ChemGraph.graph g1)) 1
    = Some 3 /\
    count_calls (joins 5 4) calls = 1 /\
    In (AddBond 4 5 1) calls.
Proof.
  assert (Hwf : bonds_wf (ChemGraph.bonds Demo.methane)).
  { split.
    - repeat constructor. intros [].
    - intros a d [[= <- <-]|[]]. constructor. }
  eexists. eexists. eexists. eexists. eexists.
  split; [vm_compute; reflexivity|]. split; [exact Hwf|].
  split; [vm_compute; reflexivity|].
  split; [reflexivity|]. split; [reflexivity|].
  split; [reflexivity|]. split; [reflexivity|].
  edestruct (@toOBMol_bond_emitted_once Demo.registry Demo.capability
               (Molecule.mk [Demo.methane]))
    with (form := Demo.methane) (others := @nil ChemGraph.t)
         (h := Demo.methane_heap) (a := 0) (b := 1) (ia := 4) (ib := 3)
         (bond_ab := Demo.single) (bond_ba := Demo.single)
    as (_ & Hcount & _ & Hin).
  - vm_compute. reflexivity.
  - reflexivity.
  - exact Hwf.
  - vm_compute. reflexivity.
  - reflexivity.
  - reflexivity.
  - discriminate.
  - reflexivity.
  - reflexivity.
  - split; [exact Hcount|]. apply Hin. lia.
Defined.

(** C5, as the code has it.  In an export that returns, of a form over
    allocated atoms whose flag is false or which has an atom that is not a
    hydrogen, the form is left with the flag it had before the call, for
    both values of the flag, and its atoms are left in the canonical order
    computed during the export: the whole of it when the flag was false,
    and what is left of it once the hydrogens are implicit again when the
    flag was true. *)
Theorem toOBMol_flag_and_order `{ElementRegistry} `{GraphCapability}
    (self self' : Molecule.t) (form : ChemGraph.t)
    (others : list ChemGraph.t) (g1 : ChemGraph.t) (h h1 h' : Heap)
    (calls : list OBCall) :
  Molecule.toOBMol self h = Ok ((calls, self'), h') ->
  Molecule.resonanceForms self = form :: others ->
  (forall a, In a (ChemGraph.atoms form) -> a < next h) ->
  ChemGraph.makeHydrogensExplicit form h = Ok (g1, h1) ->
  ChemGraph.implicitHydrogens form = false \/
  (exists a, In a (ChemGraph.atoms form) /\ isHydrogenAt h a = false) ->
  exists form',
    Molecule.resonanceForms self' = form' :: others /\
    ChemGraph.implicitHydrogens form' = ChemGraph.implicitHydrogens form /\
    ChemGraph.atoms form' =
      if ChemGraph.implicitHydrogens form
      then filter (fun a => negb (isHydrogenAt h1 a))
                  (sortVertices h1 (ChemGraph.graph g1))
      else sortVertices h1 (ChemGraph.graph g1).
Proof.
  intros Hrun Hforms Halloc Hexp Hcase.
  edestruct toOBMol_inv as [_ (g3 & -> & Hend)];
    [exact Hrun|exact Hforms|exact Hexp|].
  exists g3. split; [reflexivity|].
  apply makeHydrogensExplicit_inv in Hexp.
  destruct Hexp as (hs & Hg1 & Hnext & Helem).
  destruct (ChemGraph.implicitHydrogens form) eqn:Hflag.
  - destruct Hcase as [Hfalse|(a & Hin & Hheavy)]; [discriminate|].
    assert (Hheavy1 : In a (ChemGraph.atoms (sorted_form h1 g1)) /\
                      isHydrogenAt h1 a = false).
    { split.
      - apply (Permutation_in a
                 (Permutation_sym (sortVertices_perm h1 (ChemGraph.graph g1)))).
        rewrite Hg1.
        change (In a (ChemGraph.atoms
                        (fold_left ChemGraph.explicit_add hs form))).
        rewrite fold_explicit_add_atoms. apply in_or_app. left. assumption.
      - rewrite <- Hheavy. unfold isHydrogenAt, Atom.isHydrogen, Atom.number.
        rewrite Helem by (apply Halloc; assumption). reflexivity. }
    apply makeHydrogensImplicit_inv in Hend.
    destruct Hend as [(Hall & _)|(_ & -> & _)].
    + destruct Hheavy1 as [Hin1 Hh1]. rewrite (Hall a Hin1) in Hh1.
      discriminate.
    + split; [reflexivity|]. apply stripped_atoms.
  - destruct Hend as [-> _]. split; [|reflexivity].
    rewrite Hg1. reflexivity.
Qed.

Lemma toOBMol_flag_and_order_witness :
  exists calls self' h' g1 h1 form',
    @Molecule.toOBMol Demo.registry Demo.capability
      (Molecule.mk [Demo.methane]) Demo.methane_heap
    = Ok ((calls, self'), h') /\
    @ChemGraph.makeHydrogensExplicit Demo.registry Demo.methane
      Demo.methane_heap = Ok (g1, h1) /\
    ChemGraph.atoms g1 = [0; 1; 2; 3; 4] /\
    Molecule.resonanceForms self' = [form'] /\
    ChemGraph.implicitHydrogens form' = true /\
    ChemGraph.atoms form' =
      filter (fun a => negb (isHydrogenAt h1 a)) [4; 3; 2; 1; 0].
Proof.
  eexists. eexists. eexists. eexists. eexists.
  edestruct (@toOBMol_flag_and_order Demo.registry Demo.capability
               (Molecule.mk [Demo.methane]))
    with (form := Demo.methane) (others := @nil ChemGraph.t)
         (h := Demo.methane_heap)
    as (form' & Hforms & Hflag & Hatoms).
  - vm_compute. reflexivity.
  - reflexivity.
  - simpl. intros a [<-|[]]. lia.
  - vm_compute. reflexivity.
  - right. exists 0. split; [left; reflexivity|reflexivity].
  - exists form'. split; [vm_compute; reflexivity|].
    split; [vm_compute; reflexivity|]. split; [reflexivity|].
    split; [exact Hforms|]. split; [exact Hflag|exact Hatoms].
Defined.

(** C5, refuted as stated: a form without atoms whose flag is set (what is
    left when the atoms of an implicit form are removed) comes back from
    the export with its flag cleared, since [makeHydrogensImplicit] returns
    at its guard without setting it. *)
Lemma toOBMol_emptied_flag :
  ChemGraph.implicitHydrogens Demo.emptied = true /\
  exists calls self' h' form',
    @Molecule.toOBMol Demo.registry Demo.capability
      (Molecule.mk [Demo.emptied]) Demo.empty_heap
    = Ok ((calls, self'), h') /\
    Molecule.resonanceForms self' = [form'] /\
    ChemGraph.implicitHydrogens form' = false.
Proof.
  split; [reflexivity|].
  eexists. eexists. eexists. eexists.
  split; [vm_compute; reflexivity|]. split; reflexivity.
Qed.

(** ** The properties at work on the small instance *)

Example ChemGraph_copy_methane :
  exists g',
    @ChemGraph.copy Demo.capability Demo.methane false Demo.methane_heap
    = Ok (g', Demo.methane_heap) /\
    ChemGraph.implicitHydrogens Demo.methane = true /\
    ChemGraph.implicitHydrogens g' = false /\
    ChemGraph.atoms g' = ChemGraph.atoms Demo.methane.
Proof. eexists. repeat split. Qed.

Example isIsomorphic_other_type :
  @Molecule.isIsomorphic Demo.capability (Molecule.mk [Demo.methane])
    PyOther Demo.methane_heap = Ok (false, Demo.methane_heap).
Proof. reflexivity. Qed.

Example isIsomorphic_second_form :
  @Molecule.isIsomorphic Demo.capability
    (Molecule.mk [Demo.hydroxyl; Demo.methane])
    (PyMolecule (Molecule.mk [Demo.methane])) Demo.methane_heap
  = Ok (true, Demo.methane_heap).
Proof. reflexivity. Qed.

Example decode_spin_table :
  map Molecule.decode_spin [0; 1; 2; 3; 4; -1]%Z
  = [(0, 1); (2, 1); (1, 2); (2, 3); (0, 4); (0, -1)]%Z.
Proof. reflexivity. Qed.

(** * Further properties of the module *)

(** ** [makeHydrogensImplicit] *)

(** A scan over atoms none of which is a hydrogen changes nothing. *)
Lemma implicit_scan_none (es : dict (dict Bond.t)) (l hs : list ref)
    (h : Heap) :
  (forall a, In a l -> isHydrogenAt h a = false) ->
  foldM (ChemGraph.implicit_step es) l hs h = Ok (hs, h).
Proof.
  revert hs. induction l as [|a l IH]; intros hs Hl; simpl; [reflexivity|].
  unfold bind. rewrite implicit_step_eq.
  rewrite (Hl a (or_introl eq_refl)). apply IH.
  intros a' Ha'. apply Hl. right. assumption.
Qed.

(** X1.  [makeHydrogensImplicit] is idempotent: called again on the graph
    and the store that a first call has left, it returns them as they
    are. *)
Theorem makeHydrogensImplicit_idempotent (g g1 : ChemGraph.t)
    (h h1 : Heap) :
  ChemGraph.makeHydrogensImplicit g h = Ok (g1, h1) ->
  ChemGraph.makeHydrogensImplicit g1 h1 = Ok (g1, h1).
Proof.
  intros Hrun. pose proof Hrun as Hinv.
  apply makeHydrogensImplicit_inv in Hinv.
  destruct Hinv as [(_ & -> & ->)|((a & Hin & Ha) & -> & Hoc & _)];
    [exact Hrun|].
  assert (Hheavy : forall x, In x (ChemGraph.atoms (stripped h g)) ->
                             isHydrogenAt h1 x = false).
  { intros x Hx. rewrite stripped_atoms in Hx. apply filter_In in Hx.
    rewrite (only_counters_isHydrogen x Hoc).
    destruct Hx as [_ Hx]. destruct (isHydrogenAt h x); [discriminate|].
    reflexivity. }
  assert (Hin1 : In a (ChemGraph.atoms (stripped h g))).
  { rewrite stripped_atoms. apply filter_In. split; [assumption|].
    rewrite Ha. reflexivity. }
  unfold ChemGraph.makeHydrogensImplicit at 1. unfold bind at 1, gets.
  replace (forallb _ (ChemGraph.atoms (stripped h g))) with false.
  - rewrite (bind_eq _ _ _ (implicit_scan_none _ _ [] h1 Hheavy)).
    reflexivity.
  - symmetry. apply forallb_false_exists. exists a.
    split; [assumption|]. apply (Hheavy a Hin1).
Qed.

Lemma makeHydrogensImplicit_idempotent_witness :
  exists g1 h1,
    ChemGraph.makeHydrogensImplicit Demo.hydroxyl Demo.hydroxyl_heap
    = Ok (g1, h1) /\
    ChemGraph.atoms g1 = [0] /\
    ChemGraph.makeHydrogensImplicit g1 h1 = Ok (g1, h1).
Proof.
  eexists. eexists. split; [vm_compute; reflexivity|].
  split; [reflexivity|].
  apply (@makeHydrogensImplicit_idempotent Demo.hydroxyl _
           Demo.hydroxyl_heap).
  vm_compute. reflexivity.
Defined.

Lemma only_counters_fields (h h' : Heap) (r : ref) :
  only_counters h h' -> same_but_counter (cell h r) (cell h' r).
Proof.
  intros [_ Hc]. unfold same_but_counter. rewrite (Hc r).
  repeat split.
Qed.

(** X2.  What [makeHydrogensImplicit] leaves when it returns.  It creates
    no object and changes no field of any atom but the counters of
    implicit hydrogens.  Either every vertex is a hydrogen and nothing has
    changed at all, or the flag is set, the vertices are the ones that are
    not hydrogens, in their order, and so no vertex is a hydrogen any
    more. *)
Theorem makeHydrogensImplicit_leaves (g g' : ChemGraph.t) (h h' : Heap) :
  ChemGraph.makeHydrogensImplicit g h = Ok (g', h') ->
  next h' = next h /\
  (forall r, same_but_counter (cell h r) (cell h' r)) /\
  (((forall a, In a (ChemGraph.atoms g) -> isHydrogenAt h a = true) /\
    g' = g /\ h' = h)
   \/
   (ChemGraph.implicitHydrogens g' = true /\
    ChemGraph.atoms g' =
      filter (fun a => negb (isHydrogenAt h a)) (ChemGraph.atoms g) /\
    forall a, In a (ChemGraph.atoms g') -> isHydrogenAt h' a = false)).
Proof.
  intros Hrun.
  pose proof (makeHydrogensImplicit_only_counters _ _ Hrun) as Hoc.
  split; [apply Hoc|]. split; [intros r; apply only_counters_fields, Hoc|].
  apply makeHydrogensImplicit_inv in Hrun.
  destruct Hrun as [(Hall & -> & ->)|(_ & -> & _ & _)]; [left; auto|].
  right. split; [reflexivity|]. split; [apply stripped_atoms|].
  intros a Ha. rewrite stripped_atoms in Ha. apply filter_In in Ha.
  rewrite (only_counters_isHydrogen a Hoc).
  destruct Ha as [_ Ha]. destruct (isHydrogenAt h a); [discriminate|].
  reflexivity.
Qed.

Lemma makeHydrogensImplicit_leaves_witness :
  exists g' h',
    ChemGraph.makeHydrogensImplicit Demo.bridge Demo.bridge_heap
    = Ok (g', h') /\
    next h' = 3 /\
    ChemGraph.implicitHydrogens g' = true /\
    ChemGraph.atoms g' = [0; 2].
Proof.
  eexists. eexists. split; [vm_compute; reflexivity|].
  edestruct (@makeHydrogensImplicit_leaves Demo.bridge)
    with (h := Demo.bridge_heap) as (Hnext & _ & [(Hall & _)|(Hflag & Hat & _)]).
  - vm_compute. reflexivity.
  - specialize (Hall 0 (or_introl eq_refl)). discriminate.
  - split; [exact Hnext|]. split; [exact Hflag|exact Hat].
Defined.

Lemma sum_over_one (n : ref) (S : list ref) (f f' : ref -> nat) :
  NoDup S -> In n S ->
  (forall r, f r = if Nat.eqb n r then Datatypes.S (f' r) else f' r) ->
  fold_right Z.add 0%Z (map (fun r => Z.of_nat (f r)) S)
  = (1 + fold_right Z.add 0%Z (map (fun r => Z.of_nat (f' r)) S))%Z.
Proof.
  intros Hnd Hin Hf. induction S as [|r S IHS]; [destruct Hin|].
  inversion Hnd as [|? ? Hnin Hnd']; subst. cbn [map fold_right].
  rewrite (Hf r). destruct (Nat.eqb_spec n r) as [E|Hne].
  - subst r. rewrite Nat2Z.inj_succ.
    assert (Hrest : fold_right Z.add 0%Z (map (fun r => Z.of_nat (f r)) S)
                    = fold_right Z.add 0%Z
                        (map (fun r => Z.of_nat (f' r)) S)).
    { f_equal. apply map_ext_in. intros r Hr. rewrite (Hf r).
      destruct (Nat.eqb_spec n r) as [E|_]; [|reflexivity].
      subst r. contradiction. }
    rewrite Hrest. lia.
  - destruct Hin as [E|Hin]; [congruence|].
    rewrite (IHS Hnd' Hin). lia.
Qed.

(** The counters of the atoms [S], each listed once, receive one unit for
    every hydrogen whose first neighbour is among them. *)
Lemma hydrogens_on_total (h : Heap) (es : dict (dict Bond.t))
    (l S : list ref) :
  NoDup S ->
  (forall a, In a l -> isHydrogenAt h a = true ->
             exists n, first_neighbour es a = Some n /\ In n S) ->
  fold_right Z.add 0%Z
    (map (fun r => Z.of_nat (List.length (hydrogens_on h es l r))) S)
  = Z.of_nat (List.length (filter (isHydrogenAt h) l)).
Proof.
  intros Hnd. induction l as [|a l IH]; intros Hl.
  - clear. induction S as [|r S IHS]; [reflexivity|].
    cbn [map fold_right]. rewrite IHS. reflexivity.
  - assert (IH' := IH (fun a' Ha' => Hl a' (or_intror Ha'))).
    cbn [filter]. destruct (isHydrogenAt h a) eqn:Ha.
    + destruct (Hl a (or_introl eq_refl) Ha) as (n & Hn & HnS).
      cbn [List.length]. rewrite Nat2Z.inj_succ, <- IH'.
      rewrite (@sum_over_one n S
                 (fun r => List.length (hydrogens_on h es (a :: l) r))
                 (fun r => List.length (hydrogens_on h es l r)) Hnd HnS).
      * lia.
      * intros r. rewrite hydrogens_on_cons, Ha, Hn. cbn [andb].
        destruct (Nat.eqb n r); reflexivity.
    + rewrite <- IH'. f_equal. apply map_ext. intros r.
      rewrite hydrogens_on_cons, Ha. reflexivity.
Qed.

Lemma filter_partition_length {A} (p : A -> bool) (l : list A) :
  List.length l =
  List.length (filter (fun x => negb (p x)) l) + List.length (filter p l).
Proof.
  induction l as [|x l IH]; simpl; [reflexivity|].
  destruct (p x); simpl; lia.
Qed.

(** X3.  [makeHydrogensImplicit] loses no hydrogen: when it returns from
    a graph with a heavy atom, and the first neighbours of the hydrogen
    vertices are among the atoms [S] (each listed once), the counters of
    [S] have gained in total exactly the number of vertices that the graph
    has lost. *)
Theorem makeHydrogensImplicit_conserves (g g' : ChemGraph.t) (h h' : Heap)
    (S : list ref) :
  ChemGraph.makeHydrogensImplicit g h = Ok (g', h') ->
  (exists a, In a (ChemGraph.atoms g) /\ isHydrogenAt h a = false) ->
  NoDup S ->
  (forall a n, In a (ChemGraph.atoms g) -> isHydrogenAt h a = true ->
               first_neighbour (ChemGraph.bonds g) a = Some n -> In n S) ->
  exists removed : nat,
    numAtoms g = numAtoms g' + removed /\
    total_counter h' S = (total_counter h S + Z.of_nat removed)%Z.
Proof.
  intros Hrun Hheavy Hnd HS.
  exists (List.length (filter (isHydrogenAt h) (ChemGraph.atoms g))).
  assert (Hdeg : forall a, In a (ChemGraph.atoms g) ->
            isHydrogenAt h a = true ->
            first_neighbour (ChemGraph.bonds g) a <> None).
  { destruct (implicit_scan_cases (ChemGraph.bonds g) (ChemGraph.atoms g) h)
      as [Hdeg|Hbad]; [exact Hdeg|].
    exfalso.
    destruct (implicit_scan_raise (ChemGraph.bonds g) (ChemGraph.atoms g)
                [] h Hbad) as (e & Hscan & _).
    unfold ChemGraph.makeHydrogensImplicit, bind, gets in Hrun.
    apply forallb_false_exists in Hheavy. unfold isHydrogenAt in Hheavy.
    rewrite Hheavy, Hscan in Hrun. discriminate. }
  apply makeHydrogensImplicit_inv in Hrun.
  destruct Hrun as [(Hall & _)|(_ & -> & _ & Hcnt)].
  { destruct Hheavy as (a & Hin & Ha). rewrite (Hall a Hin) in Ha.
    discriminate. }
  split.
  - unfold numAtoms. rewrite stripped_atoms.
    apply filter_partition_length.
  - rewrite <- (hydrogens_on_total h (ChemGraph.bonds g)
                  (ChemGraph.atoms g) Hnd).
    + unfold total_counter. clear Hnd HS.
      induction S as [|r S IHS]; simpl; [reflexivity|].
      rewrite Hcnt, IHS. lia.
    + intros a Hin Ha.
      destruct (first_neighbour (ChemGraph.bonds g) a) as [n|] eqn:Hn.
      * exists n. split; [reflexivity|]. eapply HS; eassumption.
      * exfalso. apply (Hdeg a Hin Ha). assumption.
Qed.

Lemma makeHydrogensImplicit_conserves_witness :
  exists g' h' removed,
    ChemGraph.makeHydrogensImplicit Demo.bridge Demo.bridge_heap
    = Ok (g', h') /\
    numAtoms Demo.bridge = numAtoms g' + removed /\
    total_counter h' [0; 2]
    = Z.add (total_counter Demo.bridge_heap [0; 2]) (Z.of_nat removed).
Proof.
  eexists. eexists.
  edestruct (@makeHydrogensImplicit_conserves Demo.bridge)
    with (h := Demo.bridge_heap) (S := [0; 2])
    as (removed & Hn & Ht).
  - vm_compute. reflexivity.
  - exists 0. split; [left; reflexivity|reflexivity].
  - repeat constructor; simpl; intuition discriminate.
  - simpl. intros a n [<-|[<-|[<-|[]]]] Ha; try discriminate.
    intros [= <-]. left. reflexivity.
  - exists removed. split; [vm_compute; reflexivity|].
    split; [exact Hn|exact Ht].
Defined.

(** ** [makeHydrogensExplicit] *)

Unset Implicit Arguments.

Lemma planned_for_app_list hs ext r :
  planned_for (hs ++ ext) r = planned_for hs r + planned_for ext r.
Proof. unfold planned_for. rewrite filter_app, length_app. reflexivity. Qed.

Lemma planned_for_none ext r :
  (forall p, In p ext -> snd (fst p) <> r) -> planned_for ext r = 0.
Proof.
  intros Hext. unfold planned_for. rewrite filter_none; [reflexivity|].
  intros p Hp. apply Nat.eqb_neq. apply Hext. assumption.
Qed.

Lemma positive_or_not (h : Heap) (l : list ref) :
  (forall a, In a l -> (counter h a <= 0)%Z) \/
  (exists a, In a l /\ (0 < counter h a)%Z).
Proof.
  induction l as [|x l [IH|(a & Hin & Ha)]].
  - left. intros a [].
  - destruct (Z_lt_le_dec 0 (counter h x)) as [Hx|Hx].
    + right. exists x. split; [left; reflexivity|assumption].
    + left. intros a [<-|Hin]; auto.
  - right. exists a. split; [right; assumption|assumption].
Qed.

Section ExplicitMore.
Context `{ElementRegistry}.

(** Without hydrogen in the namespace of the element module the planning
    loop stops at the first atom whose counter is positive. *)
Lemma explicit_scan_without_hydrogen (l : list ref)
    (hs : list (ref * ref * Bond.t)) (h : Heap) :
  elements_dict "H" = None ->
  (exists a, In a l /\ (0 < counter h a)%Z) ->
  foldM ChemGraph.explicit_step l hs h = Raise (KeyError (KStr "H")).
Proof.
  intros Hreg. revert hs.
  induction l as [|x l IH]; intros hs (a & Hin & Ha); [destruct Hin|].
  cbn [foldM]. unfold bind at 1. unfold ChemGraph.explicit_step at 1.
  unfold bind at 1, read, gets.
  destruct (Z_lt_le_dec 0 (counter h x)) as [Hx|Hx]; unfold counter in Hx.
  - destruct (Z.to_nat (Atom.implicitHydrogens (cell h x))) as [|n] eqn:Hn;
      [lia|].
    simpl. unfold Atom_init, bind at 1 2, raise. rewrite Hreg.
    reflexivity.
  - replace (Z.to_nat (Atom.implicitHydrogens (cell h x))) with 0 by lia.
    simpl. apply IH. destruct Hin as [<-|Hin]; [unfold counter in Ha; lia|].
    exists a. split; assumption.
Qed.

(** X4.  Without hydrogen in the namespace of the element module,
    [makeHydrogensExplicit] raises the [KeyError] of the symbol H as soon
    as an atom of the graph has a positive counter of implicit
    hydrogens. *)
Theorem makeHydrogensExplicit_without_hydrogen (g : ChemGraph.t)
    (h : Heap) :
  elements_dict "H" = None ->
  (exists a, In a (ChemGraph.atoms g) /\ (0 < counter h a)%Z) ->
  ChemGraph.makeHydrogensExplicit g h = Raise (KeyError (KStr "H")).
Proof.
  intros Hreg Hpos. unfold ChemGraph.makeHydrogensExplicit, bind.
  rewrite (explicit_scan_without_hydrogen (ChemGraph.atoms g) [] h Hreg Hpos).
  reflexivity.
Qed.

Variable eH : Element.
Hypothesis registry_H : elements_dict "H" = Some eH.

Lemma explicit_while_ext (n : nat) (atom : ref) hs (h : Heap) hs' h' :
  ChemGraph.explicit_while n atom hs h = Ok (hs', h') ->
  exists ext, hs' = hs ++ ext /\ List.length ext = n /\
              forall p, In p ext -> snd (fst p) = atom /\ snd p = Bond.mk 1.
Proof.
  revert hs h. induction n as [|n IH]; intros hs h.
  - intros [= <- <-]. exists []. rewrite app_nil_r.
    split; [reflexivity|]. split; [reflexivity|]. intros p [].
  - rewrite (explicit_while_S registry_H). intros Hrun. apply IH in Hrun.
    destruct Hrun as (ext & -> & Hlen & Htg).
    exists ((next h, atom, Bond.mk 1) :: ext).
    rewrite <- app_assoc. split; [reflexivity|].
    split; [simpl; lia|]. intros p [<-|Hp]; [split; reflexivity|auto].
Qed.

(** One atom of the scan: its counter is brought down to zero, if it was
    positive, and the counters of the other atoms stay. *)
Lemma explicit_step_effect (h0 : Heap) (atom : ref) hs (h : Heap) :
  planned_ok h0 eH hs h -> atom < next h0 ->
  exists ext h',
    ChemGraph.explicit_step hs atom h = Ok (hs ++ ext, h') /\
    planned_ok h0 eH (hs ++ ext) h' /\
    (forall p, In p ext ->
       snd (fst p) = atom /\ snd p = Bond.mk 1 /\
       (0 < counter h atom)%Z) /\
    forall r, r < next h0 ->
      counter h' r =
      if Nat.eqb r atom then Z.min (counter h r) 0 else counter h r.
Proof.
  intros Hok Hatom.
  destruct (@explicit_while_ok _ eH registry_H h0
              (Z.to_nat (Atom.implicitHydrogens (cell h atom))) atom hs h
              Hok Hatom) as (hs' & h' & Hrun & Hok' & Hc).
  destruct (explicit_while_ext _ _ _ _ _ _ Hrun) as (ext & -> & Hlen & Htg).
  exists ext, h'. split.
  { unfold ChemGraph.explicit_step, bind, read, gets. exact Hrun. }
  split; [exact Hok'|]. split.
  { intros p Hp. split; [apply Htg; assumption|].
    split; [apply Htg; assumption|].
    destruct ext as [|q ext]; [destruct Hp|]. simpl in Hlen.
    unfold counter. lia. }
  intros r Hr. destruct (Nat.eqb_spec r atom) as [->|Hne].
  - rewrite Hc. unfold counter. lia.
  - pose proof (po_sum Hok Hr) as H1.
    pose proof (po_sum Hok' Hr) as H2.
    rewrite planned_for_app_list in H2.
    rewrite (planned_for_none ext) in H2; [lia|].
    intros p Hp. rewrite (proj1 (Htg p Hp)). congruence.
Qed.

Lemma explicit_scan_effect (h0 : Heap) (l : list ref) hs (h : Heap) :
  planned_ok h0 eH hs h -> (forall a, In a l -> a < next h0) ->
  exists ext h',
    foldM ChemGraph.explicit_step l hs h = Ok (hs ++ ext, h') /\
    planned_ok h0 eH (hs ++ ext) h' /\
    (forall p, In p ext ->
       In (snd (fst p)) l /\ snd p = Bond.mk 1 /\
       (0 < counter h (snd (fst p)))%Z) /\
    forall r, r < next h0 ->
      counter h' r =
      if existsb (Nat.eqb r) l then Z.min (counter h r) 0 else counter h r.
Proof.
  revert hs h. induction l as [|a l IH]; intros hs h Hok Hl.
  - exists [], h. rewrite app_nil_r. split; [reflexivity|].
    split; [assumption|]. split; [intros p []|]. intros r _. reflexivity.
  - destruct (explicit_step_effect h0 a hs h Hok (Hl a (or_introl eq_refl)))
      as (ext1 & h1 & Hstep & Hok1 & Htg1 & Hc1).
    destruct (IH (hs ++ ext1) h1 Hok1 (fun x Hx => Hl x (or_intror Hx)))
      as (ext2 & h2 & Hrest & Hok2 & Htg2 & Hc2).
    exists (ext1 ++ ext2), h2. rewrite app_assoc.
    split. { cbn [foldM]. rewrite (bind_eq _ _ _ Hstep). exact Hrest. }
    split; [exact Hok2|]. split.
    + intros p Hp. apply in_app_or in Hp. destruct Hp as [Hp|Hp].
      * destruct (Htg1 p Hp) as (-> & Hb & Hpos).
        split; [left; reflexivity|]. split; assumption.
      * destruct (Htg2 p Hp) as (Hin & Hb & Hpos).
        split; [right; assumption|]. split; [assumption|].
        assert (Hr : snd (fst p) < next h0) by (apply Hl; right; assumption).
        rewrite (Hc1 _ Hr) in Hpos.
        destruct (Nat.eqb (snd (fst p)) a); lia.
    + intros r Hr. rewrite (Hc2 r Hr), (Hc1 r Hr). cbn [existsb].
      destruct (Nat.eqb r a), (existsb (Nat.eqb r) l); simpl; lia.
Qed.

End ExplicitMore.

Lemma dict_set_length_new {V} (d : dict V) (k : ref) (v : V) :
  ~ In k (dict_keys d) -> List.length (dict_set d k v) = S (List.length d).
Proof.
  induction d as [|[k0 v0] d IH]; simpl; intros Hnin; [reflexivity|].
  destruct (Nat.eqb_spec k0 k) as [E|Hne].
  - exfalso. apply Hnin. left. assumption.
  - simpl. f_equal. apply IH. intros Hin. apply Hnin. right. assumption.
Qed.

Lemma neighbours_add_edges_atom es H atom bond :
  H <> atom ->
  Graph.neighbours (add_edges es H atom bond) atom =
  dict_set (Graph.neighbours es atom) H bond.
Proof.
  intros Hne. unfold add_edges, Graph.addEdge, Graph.addVertex. simpl.
  unfold Graph.neighbours at 1. rewrite dict_get_set_eq.
  f_equal. unfold Graph.neighbours.
  rewrite !dict_get_set_ne by congruence. reflexivity.
Qed.

Lemma neighbours_add_edges_other es H atom bond x :
  x <> H -> x <> atom ->
  Graph.neighbours (add_edges es H atom bond) x = Graph.neighbours es x.
Proof.
  intros HxH Hxa. unfold Graph.neighbours.
  rewrite add_edges_get_other by assumption. reflexivity.
Qed.

Lemma planned_for_single (H atom : ref) (bond : Bond.t) (x : ref) :
  planned_for [(H, atom, bond)] x = if Nat.eqb atom x then 1 else 0.
Proof. unfold planned_for. simpl. destruct (Nat.eqb atom x); reflexivity. Qed.

(** Adding the planned hydrogens gives each atom one more bond for every
    hydrogen planned for it. *)
Lemma fold_explicit_add_degree hs : forall (n : nat) (g : ChemGraph.t),
  keys_ok (fun r => r < n) (ChemGraph.bonds g) ->
  map (fun p => fst (fst p)) hs = seq n (List.length hs) ->
  (forall p, In p hs -> snd (fst p) < n) ->
  forall x, x < n ->
    degree (ChemGraph.bonds (fold_left ChemGraph.explicit_add hs g)) x
    = degree (ChemGraph.bonds g) x + planned_for hs x.
Proof.
  induction hs as [|[[H atom] bond] hs IH]; intros n g Hk Hrefs Htg x Hx.
  - simpl. unfold planned_for. simpl. lia.
  - simpl in Hrefs. injection Hrefs as HH Hrefs. subst H.
    assert (Hatom : atom < n) by (apply (Htg _ (or_introl eq_refl))).
    cbn [fold_left].
    rewrite (IH (S n) (ChemGraph.explicit_add g (n, atom, bond))).
    + rewrite explicit_add_bonds. unfold degree.
      change ((n, atom, bond) :: hs) with ([(n, atom, bond)] ++ hs).
      rewrite planned_for_app_list, planned_for_single.
      destruct (Nat.eqb_spec atom x) as [E|Hne].
      * subst x. rewrite neighbours_add_edges_atom by lia.
        rewrite dict_set_length_new; [lia|].
        intros Hin.
        pose proof (@keys_ok_neighbours (fun r => r < n)
                      (ChemGraph.bonds g) atom n Hk Hin) as Hb.
        cbn beta in Hb. lia.
      * rewrite neighbours_add_edges_other by lia. lia.
    + rewrite explicit_add_bonds. apply keys_ok_add.
      * apply (@keys_ok_impl (fun r => r < n) (fun r => r < S n)
                 (ChemGraph.bonds g)); [|exact Hk].
        intros r Hr. lia.
      * lia.
      * lia.
    + exact Hrefs.
    + intros p Hp. specialize (Htg p (or_intror Hp)). lia.
    + lia.
Qed.

Lemma stored_add_edges_keep es H atom bond x y :
  x <> H -> y <> H ->
  stored (add_edges es H atom bond) x y = stored es x y.
Proof.
  intros HxH HyH. unfold stored.
  destruct (Nat.eq_dec x atom) as [->|Hxa].
  - rewrite neighbours_add_edges_atom by congruence.
    apply dict_get_set_ne. assumption.
  - rewrite neighbours_add_edges_other by assumption. reflexivity.
Qed.

Lemma stored_add_edges_new es H atom bond :
  H <> atom -> stored (add_edges es H atom bond) atom H = Some bond.
Proof.
  intros Hne. unfold stored. rewrite neighbours_add_edges_atom by assumption.
  apply dict_get_set_eq.
Qed.

(** Each planned hydrogen ends with one bond, to its atom, stored under
    both orderings. *)
Lemma fold_explicit_add_bond (n0 : nat) hs : forall (g : ChemGraph.t),
  NoDup (map (fun p => fst (fst p)) hs) ->
  (forall p, In p hs -> snd (fst p) < n0 <= fst (fst p)) ->
  forall p, In p hs ->
    dict_get (ChemGraph.bonds (fold_left ChemGraph.explicit_add hs g))
             (fst (fst p)) = Some [(snd (fst p), snd p)] /\
    stored (ChemGraph.bonds (fold_left ChemGraph.explicit_add hs g))
           (snd (fst p)) (fst (fst p)) = Some (snd p).
Proof.
  induction hs as [|[[H atom] bond] hs IH]; intros g Hnd Hrg p Hp.
  - destruct Hp.
  - simpl in Hnd. inversion Hnd as [|? ? Hnin Hnd']; subst.
    pose proof (Hrg _ (or_introl eq_refl)) as Hr. simpl in Hr.
    assert (Hrest : forall q, In q hs ->
              H <> fst (fst q) /\ H <> snd (fst q)).
    { intros q Hq. split.
      - intros ->. apply Hnin. apply in_map_iff. exists q. auto.
      - pose proof (Hrg q (or_intror Hq)). lia. }
    destruct Hp as [<-|Hp]; cbn [fold_left fst snd].
    + split.
      * rewrite fold_explicit_add_get_other by exact Hrest.
        rewrite explicit_add_bonds. apply add_edges_get_new. lia.
      * assert (Hkeep : forall l g0,
                  (forall q, In q l ->
                     H <> fst (fst q) /\ H <> snd (fst q)) ->
                  (forall q, In q l -> snd (fst q) < n0 <= fst (fst q)) ->
                  stored (ChemGraph.bonds
                            (fold_left ChemGraph.explicit_add l g0)) atom H
                  = stored (ChemGraph.bonds g0) atom H).
        { induction l as [|[[H' a'] b'] l IHl]; intros g0 Hl Hrl;
            [reflexivity|].
          cbn [fold_left]. rewrite IHl.
          - rewrite explicit_add_bonds.
            destruct (Hl _ (or_introl eq_refl)) as [H1 H2]. simpl in H1, H2.
            pose proof (Hrl _ (or_introl eq_refl)) as H3. simpl in H3.
            apply stored_add_edges_keep; lia.
          - intros q Hq. apply Hl. right. assumption.
          - intros q Hq. apply Hrl. right. assumption. }
        rewrite Hkeep.
        -- rewrite explicit_add_bonds. apply stored_add_edges_new. lia.
        -- exact Hrest.
        -- intros q Hq. apply Hrg. right. assumption.
    + apply IH; [assumption| |assumption].
      intros q Hq. apply Hrg. right. assumption.
Qed.

(** X5.  With hydrogen in the namespace of the element module, on a graph
    over allocated atoms [makeHydrogensExplicit] returns and the flag is
    cleared.  Every atom of the graph has its counter brought down to zero
    (a counter that was not positive is left as it was) and has as many
    more bonds as its counter allowed.  The vertices added are new objects,
    hydrogen atoms as [Atom(element='H')] builds them, each with one single
    bond, stored under both orderings, to an atom of the graph whose
    counter was positive. *)
Theorem makeHydrogensExplicit_expands `{ElementRegistry} (eH : Element)
    (g : ChemGraph.t) (h : Heap) :
  elements_dict "H" = Some eH ->
  allocated h g ->
  exists g1 h1 new,
    ChemGraph.makeHydrogensExplicit g h = Ok (g1, h1) /\
    ChemGraph.implicitHydrogens g1 = false /\
    ChemGraph.atoms g1 = ChemGraph.atoms g ++ new /\
    new = seq (next h) (List.length new) /\
    next h1 = next h + List.length new /\
    (forall a, In a (ChemGraph.atoms g) ->
       counter h1 a = Z.min (counter h a) 0 /\
       degree (ChemGraph.bonds g1) a
       = degree (ChemGraph.bonds g) a + Z.to_nat (counter h a)) /\
    (forall r, In r new ->
       cell h1 r = hydrogen_atom eH /\
       exists a, In a (ChemGraph.atoms g) /\ (0 < counter h a)%Z /\
         dict_get (ChemGraph.bonds g1) r = Some [(a, Bond.mk 1)] /\
         stored (ChemGraph.bonds g1) a r = Some (Bond.mk 1)).
Proof.
  intros Hreg [Hatoms Hkeys].
  destruct (explicit_scan_effect eH Hreg h (ChemGraph.atoms g) [] h
              (planned_ok_start h eH) Hatoms)
    as (hs & h1 & Hscan & Hok & Htg & Hc).
  simpl in Hscan, Hok.
  exists (ChemGraph.set_implicitHydrogens
            (fold_left ChemGraph.explicit_add hs g) false), h1,
         (map (fun p => fst (fst p)) hs).
  assert (Hrange : forall p, In p hs -> snd (fst p) < next h <= fst (fst p)).
  { intros p Hp. split; [exact (po_targets Hok p Hp)|].
    pose proof (in_map (fun q => fst (fst q)) hs p Hp) as Hin.
    rewrite (po_refs Hok) in Hin. apply in_seq in Hin. lia. }
  assert (Hnd : NoDup (map (fun p => fst (fst p)) hs)).
  { rewrite (po_refs Hok). apply seq_NoDup. }
  split.
  { unfold ChemGraph.makeHydrogensExplicit.
    rewrite (bind_eq _ _ _ Hscan). reflexivity. }
  split; [reflexivity|].
  split; [apply fold_explicit_add_atoms|].
  split; [rewrite length_map; exact (po_refs Hok)|].
  split; [rewrite length_map; exact (po_next Hok)|].
  split.
  - intros a Ha. pose proof (Hatoms a Ha) as Hlt.
    assert (Hca : counter h1 a = Z.min (counter h a) 0).
    { rewrite (Hc a Hlt).
      replace (existsb (Nat.eqb a) (ChemGraph.atoms g)) with true;
        [reflexivity|].
      symmetry. apply existsb_exists. exists a.
      split; [assumption|apply Nat.eqb_refl]. }
    split; [exact Hca|].
    change (ChemGraph.bonds (ChemGraph.set_implicitHydrogens
              (fold_left ChemGraph.explicit_add hs g) false))
      with (ChemGraph.bonds (fold_left ChemGraph.explicit_add hs g)).
    rewrite (fold_explicit_add_degree hs (next h) g Hkeys (po_refs Hok)
               (po_targets Hok) a Hlt).
    f_equal. pose proof (po_sum Hok Hlt) as Hsum. lia.
  - intros r Hr. split.
    + apply (po_new Hok). rewrite (po_refs Hok) in Hr.
      apply in_seq in Hr. rewrite (po_next Hok). lia.
    + apply in_map_iff in Hr. destruct Hr as (p & <- & Hp).
      destruct (Htg p Hp) as (Hin & Hb & Hpos).
      exists (snd (fst p)). split; [exact Hin|]. split; [exact Hpos|].
      rewrite <- Hb.
      exact (fold_explicit_add_bond (next h) hs g Hnd Hrange p Hp).
Qed.

Lemma makeHydrogensExplicit_expands_witness :
  @elements_dict Demo.registry "H" = Some Demo.H /\
  allocated Demo.methane_heap Demo.methane /\
  exists g1 h1,
    @ChemGraph.makeHydrogensExplicit Demo.registry Demo.methane
      Demo.methane_heap = Ok (g1, h1) /\
    ChemGraph.atoms g1 = [0; 1; 2; 3; 4] /\
    counter h1 0 = 0%Z /\
    degree (ChemGraph.bonds g1) 0 = 4.
Proof.
  assert (Halloc : allocated Demo.methane_heap Demo.methane).
  { split.
    - simpl. intros a [<-|[]]. lia.
    - simpl. intros a d [[= <- <-]|[]]. split; [lia|]. intros b []. }
  split; [reflexivity|]. split; [exact Halloc|].
  destruct (@makeHydrogensExplicit_expands Demo.registry Demo.H Demo.methane
              Demo.methane_heap eq_refl Halloc)
    as (g1 & h1 & new & Hrun & _ & _ & _ & _ & Hold & _).
  exists g1, h1. split; [exact Hrun|].
  assert (Hg : Ok (g1, h1) =
               @ChemGraph.makeHydrogensExplicit Demo.registry Demo.methane
                 Demo.methane_heap) by (symmetry; exact Hrun).
  vm_compute in Hg. injection Hg as -> ->.
  split; [reflexivity|]. split; reflexivity.
Defined.

Lemma makeHydrogensExplicit_idle `{ElementRegistry} (g : ChemGraph.t)
    (h : Heap) :
  (forall a, In a (ChemGraph.atoms g) -> (counter h a <= 0)%Z) ->
  ChemGraph.makeHydrogensExplicit g h
  = Ok (ChemGraph.set_implicitHydrogens g false, h).
Proof.
  intros Hidle. unfold ChemGraph.makeHydrogensExplicit.
  rewrite (bind_eq _ _ _ (explicit_scan_idle (ChemGraph.atoms g) [] h Hidle)).
  reflexivity.
Qed.

(** X6.  [makeHydrogensExplicit] is idempotent: called again on the graph
    and the store that a first call on a graph over allocated atoms has
    left, it returns them as they are. *)
Theorem makeHydrogensExplicit_idempotent `{ElementRegistry}
    (g g1 : ChemGraph.t) (h h1 : Heap) :
  (forall a, In a (ChemGraph.atoms g) -> a < next h) ->
  ChemGraph.makeHydrogensExplicit g h = Ok (g1, h1) ->
  ChemGraph.makeHydrogensExplicit g1 h1 = Ok (g1, h1).
Proof.
  intros Hatoms Hrun.
  assert (Hidle : forall a, In a (ChemGraph.atoms g1) ->
                            (counter h1 a <= 0)%Z).
  { destruct (elements_dict "H") as [eH|] eqn:Hreg.
    - destruct (explicit_scan_effect eH Hreg h (ChemGraph.atoms g) [] h
                  (planned_ok_start h eH) Hatoms)
        as (hs & h1' & Hscan & Hok & _ & Hc).
      simpl in Hscan, Hok.
      unfold ChemGraph.makeHydrogensExplicit in Hrun.
      rewrite (bind_eq _ _ _ Hscan) in Hrun. unfold ret in Hrun.
      injection Hrun as <- <-.
      intros a Ha.
      change (In a (ChemGraph.atoms
                      (fold_left ChemGraph.explicit_add hs g))) in Ha.
      rewrite fold_explicit_add_atoms in Ha. apply in_app_or in Ha.
      destruct Ha as [Ha|Ha].
      + assert (Hex : existsb (Nat.eqb a) (ChemGraph.atoms g) = true).
        { apply existsb_exists. exists a.
          split; [assumption|apply Nat.eqb_refl]. }
        rewrite (Hc a (Hatoms a Ha)), Hex. lia.
      + rewrite (po_refs Hok) in Ha. apply in_seq in Ha.
        unfold counter. rewrite (po_new Hok) by (rewrite (po_next Hok); lia).
        simpl. lia.
    - destruct (positive_or_not h (ChemGraph.atoms g)) as [Hle|Hpos].
      + rewrite (makeHydrogensExplicit_idle g h Hle) in Hrun.
        injection Hrun as <- <-. exact Hle.
      + unfold ChemGraph.makeHydrogensExplicit, bind in Hrun.
        rewrite (explicit_scan_without_hydrogen (ChemGraph.atoms g) [] h
                   Hreg Hpos) in Hrun.
        discriminate. }
  rewrite (makeHydrogensExplicit_idle g1 h1 Hidle). f_equal. f_equal.
  unfold ChemGraph.makeHydrogensExplicit in Hrun.
  apply bind_Ok in Hrun. destruct Hrun as (hs & h2 & _ & Hret).
  injection Hret as <- _. reflexivity.
Qed.

Lemma makeHydrogensExplicit_idempotent_witness :
  exists g1 h1,
    @ChemGraph.makeHydrogensExplicit Demo.registry Demo.methane
      Demo.methane_heap = Ok (g1, h1) /\
    numAtoms g1 = 5 /\
    @ChemGraph.makeHydrogensExplicit Demo.registry g1 h1 = Ok (g1, h1).
Proof.
  eexists. eexists. split; [vm_compute; reflexivity|].
  split; [reflexivity|].
  apply (@makeHydrogensExplicit_idempotent Demo.registry Demo.methane _
           Demo.methane_heap).
  - simpl. intros a [<-|[]]. lia.
  - vm_compute. reflexivity.
Defined.

Lemma makeHydrogensExplicit_without_hydrogen_witness :
  @elements_dict DemoMore.no_hydrogen "H" = None /\
  (exists a, In a (ChemGraph.atoms Demo.methane) /\
             (0 < counter Demo.methane_heap a)%Z) /\
  @ChemGraph.makeHydrogensExplicit DemoMore.no_hydrogen Demo.methane
    Demo.methane_heap = Raise (KeyError (KStr "H")).
Proof.
  assert (Hpos : exists a, In a (ChemGraph.atoms Demo.methane) /\
                           (0 < counter Demo.methane_heap a)%Z).
  { exists 0. split; [left; reflexivity|]. vm_compute. reflexivity. }
  split; [reflexivity|]. split; [exact Hpos|].
  exact (@makeHydrogensExplicit_without_hydrogen DemoMore.no_hydrogen
           Demo.methane Demo.methane_heap eq_refl Hpos).
Defined.

(** ** Atoms and bonds *)

Lemma same_element_eq (e1 e2 : Element) :
  same_element e1 e2 = true <-> e1 = e2.
Proof.
  unfold same_element. rewrite andb_true_iff, Z.eqb_eq, String.eqb_eq.
  destruct e1, e2; simpl. split.
  - intros [-> ->]. reflexivity.
  - intros [= -> ->]. split; reflexivity.
Qed.

Lemma Atom_equivalent_fields (a b : Atom.t) :
  Atom_equivalent a (IsAtom b) = true <->
  Atom.element a = Atom.element b /\
  Atom.radicalElectrons a = Atom.radicalElectrons b /\
  Atom.spinMultiplicity a = Atom.spinMultiplicity b /\
  Atom.implicitHydrogens a = Atom.implicitHydrogens b /\
  Atom.charge a = Atom.charge b.
Proof.
  unfold Atom_equivalent.
  rewrite !andb_true_iff, !Z.eqb_eq, same_element_eq. tauto.
Qed.


(** X8.  [Atom.copy] of an allocated atom creates a new object, different
    from the atom copied, with the same values in all its fields, the
    label too; the copy is equivalent to the original, and no other object
    of the store changes. *)
Theorem Atom_copy_new `{ElementRegistry} (self : ref) (h : Heap) :
  self < next h ->
  exists r h',
    Atom_copy self h = Ok (r, h') /\
    r <> self /\ next h <= r /\ next h' = S (next h) /\
    cell h' r = cell h self /\
    (forall x, x <> r -> cell h' x = cell h x) /\
    Atom_equivalent (cell h' r) (IsAtom (cell h' self)) = true.
Proof.
  intros Hself. exists (next h).
  eexists. split; [reflexivity|]. cbn [cell next].
  assert (Hcopy : upd (cell h) (next h)
                    (Atom.mk (Atom.element (cell h self))
                       (Atom.radicalElectrons (cell h self))
                       (Atom.spinMultiplicity (cell h self))
                       (Atom.implicitHydrogens (cell h self))
                       (Atom.charge (cell h self))
                       (Atom.label (cell h self))) (next h)
                  = cell h self).
  { unfold upd. rewrite Nat.eqb_refl. destruct (cell h self); reflexivity. }
  split; [lia|]. split; [lia|]. split; [reflexivity|].
  split; [exact Hcopy|]. split.
  - intros x Hx. unfold upd.
    destruct (Nat.eqb_spec x (next h)); [contradiction|reflexivity].
  - rewrite Hcopy. unfold upd at 1.
    destruct (Nat.eqb_spec self (next h)); [lia|].
    apply Atom_equivalent_fields. repeat split.
Qed.

Lemma Atom_copy_new_witness :
  0 < next Demo.methane_heap /\
  exists r h',
    @Atom_copy Demo.registry 0 Demo.methane_heap = Ok (r, h') /\
    r = 1 /\ cell h' 1 = Demo.atomOf Demo.C 4.
Proof.
  split; [simpl; lia|].
  destruct (@Atom_copy_new Demo.registry 0 Demo.methane_heap)
    as (r & h' & Hrun & _ & _ & _ & Hcell & _); [simpl; lia|].
  exists r, h'. split; [exact Hrun|].
  assert (Hr : Ok (r, h') = @Atom_copy Demo.registry 0 Demo.methane_heap)
    by (symmetry; exact Hrun).
  injection Hr as -> ->. split; reflexivity.
Defined.

(** X9.  Printing an imported bond.  [Bond.__str__] of the bond that
    [fromOBMol] builds from a foreign bond gives the letter S, D or T of
    the first of the predicates single, double, triple that holds, and
    raises [KeyError] when none of the three holds: with the key 5 for an
    aromatic bond, and with the key 0 for a bond that is not aromatic
    either. *)
Theorem Bond_str_imported (obbond : OBBond) :
  Bond_str (Bond.mk (Molecule.decode_order obbond)) =
  if IsSingle obbond then Str "<Bond 'S'>"
  else if IsDouble obbond then Str "<Bond 'D'>"
  else if IsTriple obbond then Str "<Bond 'T'>"
  else StrKeyError (if IsAromatic obbond then 5 else 0).
Proof.
  unfold Molecule.decode_order.
  destruct (IsSingle obbond), (IsDouble obbond), (IsTriple obbond),
           (IsAromatic obbond); reflexivity.
Qed.

(** ** Resonance forms *)

Lemma existsb_ext_all {A} (f f' : A -> bool) (l : list A) :
  (forall x, f x = f' x) -> existsb f l = existsb f' l.
Proof.
  intros Hf. induction l as [|x l IH]; simpl; [reflexivity|].
  rewrite Hf, IH. reflexivity.
Qed.

Lemma existsb_swap {A B} (f : A -> B -> bool) (la : list A) (lb : list B) :
  existsb (fun a => existsb (fun b => f a b) lb) la =
  existsb (fun b => existsb (fun a => f a b) la) lb.
Proof.
  apply eq_true_iff_eq. rewrite !existsb_exists. split.
  - intros (a & Ha & Hex). apply existsb_exists in Hex.
    destruct Hex as (b & Hb & Hf). exists b. split; [assumption|].
    apply existsb_exists. exists a. auto.
  - intros (b & Hb & Hex). apply existsb_exists in Hex.
    destruct Hex as (a & Ha & Hf). exists a. split; [assumption|].
    apply existsb_exists. exists b. auto.
Qed.

(** X10.  [Molecule.isIsomorphic] treats a chemical graph as the molecule
    that has this graph as its only resonance form; and a molecule without
    resonance forms is isomorphic to nothing and nothing is isomorphic to
    it, not even itself. *)
Theorem isIsomorphic_single_and_empty `{GraphCapability}
    (self : Molecule.t) (g : ChemGraph.t) (other : pyobj Molecule.t)
    (h : Heap) :
  Molecule.isIsomorphic self (PyChemGraph g) h
  = Molecule.isIsomorphic self (PyMolecule (Molecule.mk [g])) h /\
  Molecule.isIsomorphic Molecule.init other h = Ok (false, h) /\
  Molecule.isIsomorphic self (PyMolecule Molecule.init) h = Ok (false, h).
Proof.
  unfold Molecule.isIsomorphic, gets. split; [|split].
  - f_equal. f_equal. simpl. apply existsb_ext_all. intros g1.
    rewrite orb_false_r. reflexivity.
  - destruct other; reflexivity.
  - f_equal. f_equal. simpl.
    induction (Molecule.resonanceForms self) as [|g1 l IH]; [reflexivity|].
    simpl. exact IH.
Qed.

(** X11.  When the isomorphism test of the graph capability is symmetric,
    so is [Molecule.isIsomorphic] between two molecules. *)
Theorem isIsomorphic_symmetric `{GraphCapability} (A B : Molecule.t)
    (h : Heap) :
  (forall g1 g2, Graph_isIsomorphic h g1 g2 = Graph_isIsomorphic h g2 g1) ->
  Molecule.isIsomorphic A (PyMolecule B) h
  = Molecule.isIsomorphic B (PyMolecule A) h.
Proof.
  intros Hsym. unfold Molecule.isIsomorphic, gets. f_equal. f_equal.
  rewrite existsb_swap. apply existsb_ext_all. intros gb.
  apply existsb_ext_all. intros ga. apply Hsym.
Qed.

Lemma isIsomorphic_symmetric_witness :
  (forall g1 g2,
     @Graph_isIsomorphic Demo.capability Demo.methane_heap g1 g2
     = @Graph_isIsomorphic Demo.capability Demo.methane_heap g2 g1) /\
  @Molecule.isIsomorphic Demo.capability
    (Molecule.mk [Demo.hydroxyl; Demo.methane])
    (PyMolecule (Molecule.mk [Demo.methane])) Demo.methane_heap
  = @Molecule.isIsomorphic Demo.capability (Molecule.mk [Demo.methane])
      (PyMolecule (Molecule.mk [Demo.hydroxyl; Demo.methane]))
      Demo.methane_heap.
Proof.
  assert (Hsym : forall g1 g2,
     @Graph_isIsomorphic Demo.capability Demo.methane_heap g1 g2
     = @Graph_isIsomorphic Demo.capability Demo.methane_heap g2 g1).
  { intros g1 g2. simpl. apply Nat.eqb_sym. }
  split; [exact Hsym|].
  exact (@isIsomorphic_symmetric Demo.capability _ _ _ Hsym).
Defined.

(** ** The bond mapping that [fromOBMol] builds *)

Lemma GetBond_sym (obmol : OBMol) (a b : nat) :
  GetBond obmol a b = GetBond obmol b a.
Proof.
  unfold GetBond.
  assert (Hfind : forall l,
    find (fun x : nat * nat * OBBond => let '(b1, b2, _) := x in
            (Nat.eqb b1 a && Nat.eqb b2 b) || (Nat.eqb b1 b && Nat.eqb b2 a)) l
    = find (fun x : nat * nat * OBBond => let '(b1, b2, _) := x in
            (Nat.eqb b1 b && Nat.eqb b2 a) || (Nat.eqb b1 a && Nat.eqb b2 b))
        l).
  { induction l as [|[[b1 b2] bd] l IH]; simpl; [reflexivity|].
    rewrite IH, orb_comm. reflexivity. }
  rewrite Hfind. reflexivity.
Qed.

Lemma ob_link_sym (obmol : OBMol) (p q : nat) :
  ob_link obmol p q = ob_link obmol q p.
Proof. unfold ob_link. rewrite GetBond_sym. reflexivity. Qed.

Lemma ensure_get_other es k x :
  x <> k -> dict_get (ensure es k) x = dict_get es x.
Proof.
  intros Hne. unfold ensure. destruct (dict_has es k); [reflexivity|].
  apply dict_get_set_ne. assumption.
Qed.

Lemma ensure_get_self es k :
  dict_get (ensure es k) k = Some (Graph.neighbours es k).
Proof.
  unfold ensure, dict_has, Graph.neighbours.
  destruct (dict_get es k) as [d|] eqn:Hk; [exact Hk|].
  apply dict_get_set_eq.
Qed.

Lemma ensure_wf es k : bonds_wf es -> bonds_wf (ensure es k).
Proof.
  intros Hwf. unfold ensure. destruct (dict_has es k); [assumption|].
  apply bonds_wf_set; [assumption|constructor].
Qed.

Lemma dict_setitem2_ok (d : dict (dict Bond.t)) (k1 k2 : ref) (v : Bond.t)
    (inner : dict Bond.t) :
  dict_get d k1 = Some inner ->
  Molecule.dict_setitem2 d k1 k2 v = Ok (dict_set d k1 (dict_set inner k2 v)).
Proof.
  intros Hk. unfold Molecule.dict_setitem2, dict_getitem. rewrite Hk.
  reflexivity.
Qed.

Lemma dict_set_nonempty {V} (d : dict V) (k : ref) (v : V) :
  dict_set d k v <> [].
Proof.
  destruct d as [|[k0 v0] d]; simpl; [discriminate|].
  destruct (Nat.eqb k0 k); discriminate.
Qed.

Lemma bonds_wf_inner es k d : bonds_wf es -> dict_get es k = Some d -> dict_wf d.
Proof.
  intros [_ Hin] Hk. apply (Hin k d). apply dict_get_In. assumption.
Qed.

Section BuildLoops.
Context `{ElementRegistry} `{ForeignModel}.
Variable obmol : OBMol.

(** The inner loop of [fromOBMol] at a pair of atoms that the foreign
    molecule joins: the bond is stored under both orderings. *)
Lemma fromOBMol_bond_some (i j : nat) (g : ChemGraph.t) (h : Heap)
    (obbond : OBBond) (a1 a2 : ref) :
  GetAtom obmol (j + 1) <> None ->
  GetBond obmol (i + 1) (j + 1) = Some obbond ->
  Molecule.list_getitem (ChemGraph.atoms g) i = Ok a1 ->
  Molecule.list_getitem (ChemGraph.atoms g) j = Ok a2 ->
  a1 <> a2 ->
  exists es',
    Molecule.fromOBMol_bond obmol i g j h
    = Ok (ChemGraph.mk (Graph.mk (ChemGraph.atoms g) es')
                       (ChemGraph.implicitHydrogens g), h) /\
    (forall x y, stored es' x y =
       if Nat.eqb x a2 && Nat.eqb y a1
       then Some (Bond.mk (Molecule.decode_order obbond))
       else if Nat.eqb x a1 && Nat.eqb y a2
       then Some (Bond.mk (Molecule.decode_order obbond))
       else stored (ChemGraph.bonds g) x y) /\
    (bonds_wf (ChemGraph.bonds g) -> bonds_wf es') /\
    ((forall x d, dict_get (ChemGraph.bonds g) x = Some d -> d <> []) ->
     forall x d, dict_get es' x = Some d -> d <> []).
Proof.
  intros Hatom Hbond H1 H2 Hne.
  set (bond := Bond.mk (Molecule.decode_order obbond)).
  set (b0 := ChemGraph.bonds g).
  set (b2 := ensure (ensure b0 a1) a2).
  set (d1 := Graph.neighbours b0 a1).
  set (b3 := dict_set b2 a1 (dict_set d1 a2 bond)).
  set (d2 := Graph.neighbours (ensure b0 a1) a2).
  set (b4 := dict_set b3 a2 (dict_set d2 a1 bond)).
  assert (Hg1 : dict_get b2 a1 = Some d1).
  { unfold b2. rewrite ensure_get_other by assumption.
    apply ensure_get_self. }
  assert (Hg2 : dict_get b3 a2 = Some d2).
  { unfold b3. rewrite dict_get_set_ne by congruence.
    unfold b2. apply ensure_get_self. }
  exists b4. split; [|split; [|split]].
  - unfold Molecule.fromOBMol_bond.
    destruct (GetAtom obmol (j + 1)); [|contradiction].
    rewrite Hbond. unfold bind, lift, ret. rewrite H1, H2.
    fold b0. fold (ensure b0 a1). fold (ensure (ensure b0 a1) a2). fold b2.
    fold bond. rewrite (dict_setitem2_ok b2 a1 a2 bond d1 Hg1). fold b3.
    rewrite (dict_setitem2_ok b3 a2 a1 bond d2 Hg2). reflexivity.
  - intros x y.
    assert (E4 : forall x y, stored b4 x y =
              if Nat.eqb x a2 && Nat.eqb y a1 then Some bond
              else stored b3 x y).
    { apply (dict_setitem2_stored b3 a2 a1 bond).
      apply dict_setitem2_ok. exact Hg2. }
    assert (E3 : forall x y, stored b3 x y =
              if Nat.eqb x a1 && Nat.eqb y a2 then Some bond
              else stored b2 x y).
    { apply (dict_setitem2_stored b2 a1 a2 bond).
      apply dict_setitem2_ok. exact Hg1. }
    rewrite E4, E3. unfold b2, ensure. rewrite !stored_ensure. reflexivity.
  - intros Hwf.
    assert (Hwf2 : bonds_wf b2) by (apply ensure_wf, ensure_wf, Hwf).
    assert (Hwf3 : bonds_wf b3).
    { apply bonds_wf_set; [assumption|]. apply dict_wf_set.
      eapply bonds_wf_inner; eassumption. }
    apply bonds_wf_set; [assumption|]. apply dict_wf_set.
    eapply bonds_wf_inner; eassumption.
  - intros Hnon x d Hx. unfold b4 in Hx. rewrite dict_get_set in Hx.
    destruct (Nat.eqb_spec x a2) as [E|Hx2].
    { injection Hx as <-. apply dict_set_nonempty. }
    unfold b3 in Hx. rewrite dict_get_set in Hx.
    destruct (Nat.eqb_spec x a1) as [E|Hx1].
    { injection Hx as <-. apply dict_set_nonempty. }
    unfold b2 in Hx. rewrite !ensure_get_other in Hx by assumption.
    eapply Hnon. exact Hx.
Qed.

Lemma visited_next_inner (i j p q : nat) :
  q < p -> j < i ->
  visited i (S j) p q = visited i j p q || (Nat.eqb p i && Nat.eqb q j).
Proof.
  intros Hqp Hji. unfold visited.
  destruct (Nat.ltb_spec p i), (Nat.eqb_spec p i), (Nat.ltb_spec q (S j)),
           (Nat.ltb_spec q j), (Nat.eqb_spec q j); simpl; try reflexivity;
    lia.
Qed.

Lemma visited_next_outer (i p q : nat) :
  q < p -> visited i i p q = visited (S i) 0 p q.
Proof.
  intros Hqp. unfold visited.
  destruct (Nat.ltb_spec p i), (Nat.eqb_spec p i), (Nat.ltb_spec q i),
           (Nat.ltb_spec p (S i)), (Nat.eqb_spec p (S i)); simpl;
    try reflexivity; lia.
Qed.

Lemma seq_getitem (n0 len i : nat) :
  i < len -> Molecule.list_getitem (seq n0 len) i = Ok (n0 + i).
Proof.
  intros Hi. unfold Molecule.list_getitem.
  assert (Hnth : nth_error (seq n0 len) i = Some (n0 + i)).
  { rewrite (nth_error_nth' _ 0) by (rewrite length_seq; assumption).
    rewrite seq_nth by assumption. reflexivity. }
  rewrite Hnth. reflexivity.
Qed.

Lemma GetAtom_some (k : nat) :
  k < NumAtoms obmol -> GetAtom obmol (k + 1) <> None.
Proof.
  intros Hk. rewrite Nat.add_1_r. unfold GetAtom.
  apply nth_error_Some. exact Hk.
Qed.

(** One turn of the inner loop. *)
Lemma fromOBMol_bond_links (n0 i j : nat) (g : ChemGraph.t) (h : Heap) :
  i < NumAtoms obmol -> j < i ->
  ChemGraph.atoms g = seq n0 (S i) ->
  links obmol n0 i j (ChemGraph.bonds g) ->
  exists g',
    Molecule.fromOBMol_bond obmol i g j h = Ok (g', h) /\
    ChemGraph.atoms g' = ChemGraph.atoms g /\
    ChemGraph.implicitHydrogens g' = ChemGraph.implicitHydrogens g /\
    links obmol n0 i (S j) (ChemGraph.bonds g').
Proof.
  intros Hi Hji Hatoms [Hlow Hdiag Hpair Hwf Hnon].
  assert (Hj : GetAtom obmol (j + 1) <> None) by (apply GetAtom_some; lia).
  destruct (GetBond obmol (i + 1) (j + 1)) as [obbond|] eqn:Hbond.
  - destruct (fromOBMol_bond_some i j g h obbond (n0 + i) (n0 + j) Hj Hbond)
      as (es' & Hrun & Hst & Hwf' & Hnon').
    { rewrite Hatoms. apply seq_getitem. lia. }
    { rewrite Hatoms. apply seq_getitem. lia. }
    { lia. }
    eexists. split; [exact Hrun|]. split; [reflexivity|].
    split; [reflexivity|]. cbn [ChemGraph.bonds ChemGraph.graph Graph.edges].
    constructor.
    + intros x y Hxy. rewrite Hst.
      destruct (Nat.eqb_spec x (n0 + j)), (Nat.eqb_spec y (n0 + i)),
               (Nat.eqb_spec x (n0 + i)), (Nat.eqb_spec y (n0 + j));
        simpl; try lia; apply Hlow; assumption.
    + intros p. rewrite Hst.
      destruct (Nat.eqb_spec (n0 + p) (n0 + j)),
               (Nat.eqb_spec (n0 + p) (n0 + i)); simpl; try lia;
        apply Hdiag.
    + intros p q Hqp. rewrite !Hst.
      rewrite (visited_next_inner i j p q Hqp Hji).
      destruct (Hpair p q Hqp) as [Hpq Hqp'].
      assert (Hnot : visited i j i j = false).
      { unfold visited. rewrite Nat.ltb_irrefl, Nat.eqb_refl.
        simpl. apply Nat.ltb_irrefl. }
      assert (Hlink : ob_link obmol i j
                      = Some (Bond.mk (Molecule.decode_order obbond))).
      { unfold ob_link. rewrite Hbond. reflexivity. }
      destruct (Nat.eqb_spec p i) as [Ep|Np], (Nat.eqb_spec q j) as [Eq|Nq];
        simpl; subst;
        repeat match goal with
        | |- context [Nat.eqb ?a ?b] => destruct (Nat.eqb_spec a b); try lia
        end; simpl; rewrite ?orb_false_r, ?orb_true_r; auto;
        try (rewrite Hnot in *; auto).
    + apply Hwf'. assumption.
    + apply Hnon'. assumption.
  - exists g. split.
    { unfold Molecule.fromOBMol_bond.
      destruct (GetAtom obmol (j + 1)); [|contradiction].
      rewrite Hbond. reflexivity. }
    split; [reflexivity|]. split; [reflexivity|].
    constructor; try assumption.
    intros p q Hqp. rewrite (visited_next_inner i j p q Hqp Hji).
    destruct (Hpair p q Hqp) as [Hpq Hqp'].
    destruct (Nat.eqb_spec p i) as [Ep|Np], (Nat.eqb_spec q j) as [Eq|Nq];
      simpl; rewrite ?orb_false_r; auto.
    subst p q. rewrite orb_true_r.
    assert (Hnot : visited i j i j = false).
    { unfold visited. rewrite Nat.ltb_irrefl, Nat.eqb_refl.
      simpl. apply Nat.ltb_irrefl. }
    rewrite Hnot in Hpq, Hqp'.
    assert (Hlink : ob_link obmol i j = None).
    { unfold ob_link. rewrite Hbond. reflexivity. }
    rewrite Hlink. auto.
Qed.

End BuildLoops.

Section BuildMolecule.
Context `{ElementRegistry} `{ForeignModel}.
Variable obmol : OBMol.
Variable n0 : nat.

Lemma fromOBMol_inner_links (i : nat) :
  i < NumAtoms obmol ->
  forall (m j : nat) (g : ChemGraph.t) (h : Heap),
    j + m = i ->
    ChemGraph.atoms g = seq n0 (S i) ->
    links obmol n0 i j (ChemGraph.bonds g) ->
    exists g',
      foldM (Molecule.fromOBMol_bond obmol i) (seq j m) g h = Ok (g', h) /\
      ChemGraph.atoms g' = ChemGraph.atoms g /\
      ChemGraph.implicitHydrogens g' = ChemGraph.implicitHydrogens g /\
      links obmol n0 i i (ChemGraph.bonds g').
Proof.
  intros Hi. induction m as [|m IH]; intros j g h Hjm Hatoms Hlinks.
  - assert (E : j = i) by lia. subst j. exists g.
    split; [reflexivity|]. split; [reflexivity|].
    split; [reflexivity|exact Hlinks].
  - cbn [seq foldM].
    destruct (fromOBMol_bond_links obmol n0 i j g h Hi) as
      (g1 & Hstep & Ha1 & Hf1 & Hl1); [lia|assumption|assumption|].
    rewrite (bind_eq _ _ _ Hstep).
    destruct (IH (S j) g1 h) as (g' & Hrun & Ha & Hf & Hl);
      [lia|congruence|assumption|].
    exists g'. split; [exact Hrun|]. split; [congruence|].
    split; [congruence|assumption].
Qed.

Lemma links_next_outer (i : nat) (es : dict (dict Bond.t)) :
  links obmol n0 i i es -> links obmol n0 (S i) 0 es.
Proof.
  intros [Hlow Hdiag Hpair Hwf Hnon]. constructor; try assumption.
  intros p q Hqp. rewrite <- (visited_next_outer i p q Hqp).
  apply Hpair. assumption.
Qed.

(** One turn of the outer loop. *)
Lemma fromOBMol_atom_links (i : nat) (g : ChemGraph.t) (h : Heap)
    (obatom : OBAtom) (e : Element) :
  nth_error (ob_atoms obmol) i = Some obatom ->
  getElement (GetAtomicNum obatom) = Ok e ->
  ChemGraph.atoms g = seq n0 i ->
  next h = n0 + i ->
  links obmol n0 i 0 (ChemGraph.bonds g) ->
  exists g',
    Molecule.fromOBMol_atom obmol g i h
    = Ok (g', mkHeap (upd (cell h) (next h) (imported obatom e))
                     (S (next h))) /\
    ChemGraph.atoms g' = seq n0 (S i) /\
    ChemGraph.implicitHydrogens g' = ChemGraph.implicitHydrogens g /\
    links obmol n0 (S i) 0 (ChemGraph.bonds g').
Proof.
  intros Hnth He Hatoms Hnext Hlinks.
  assert (Hi : i < NumAtoms obmol).
  { apply nth_error_Some. rewrite Hnth. discriminate. }
  assert (Hseq : ChemGraph.atoms g ++ [next h] = seq n0 (S i))
    by (rewrite Hatoms, Hnext, seq_S; reflexivity).
  set (g1 := ChemGraph.mk
               (Graph.mk (ChemGraph.atoms g ++ [next h]) (ChemGraph.bonds g))
               (ChemGraph.implicitHydrogens g)).
  destruct (fromOBMol_inner_links i Hi i 0 g1
              (mkHeap (upd (cell h) (next h) (imported obatom e))
                      (S (next h))))
    as (g' & Hrun & Ha & Hf & Hl).
  { lia. }
  { exact Hseq. }
  { exact Hlinks. }
  exists g'. split.
  - unfold Molecule.fromOBMol_atom. rewrite Nat.add_1_r. unfold GetAtom.
    rewrite Hnth. unfold bind at 1, lift. rewrite He.
    unfold imported in Hrun |- *.
    destruct (Molecule.decode_spin (GetSpinMultiplicity obatom))
      as [rad spin].
    unfold Atom_init, bind, ret, alloc. exact Hrun.
  - split; [|split; [exact Hf|apply links_next_outer; exact Hl]].
    rewrite Ha. exact Hseq.
Qed.

Lemma fromOBMol_build_links :
  forall (m s : nat) (g : ChemGraph.t) (h : Heap),
    s + m <= NumAtoms obmol ->
    (forall k obatom, k < s + m ->
       nth_error (ob_atoms obmol) k = Some obatom ->
       exists e, getElement (GetAtomicNum obatom) = Ok e) ->
    ChemGraph.atoms g = seq n0 s ->
    next h = n0 + s ->
    links obmol n0 s 0 (ChemGraph.bonds g) ->
    exists g' h',
      foldM (Molecule.fromOBMol_atom obmol) (seq s m) g h = Ok (g', h') /\
      ChemGraph.atoms g' = seq n0 (s + m) /\
      ChemGraph.implicitHydrogens g' = ChemGraph.implicitHydrogens g /\
      links obmol n0 (s + m) 0 (ChemGraph.bonds g').
Proof.
  induction m as [|m IH]; intros s g h Hsm Hres Hatoms Hnext Hlinks.
  - exists g, h. rewrite Nat.add_0_r.
    split; [reflexivity|]. split; [assumption|].
    split; [reflexivity|assumption].
  - assert (Hs : s < NumAtoms obmol) by lia.
    destruct (nth_error (ob_atoms obmol) s) as [obatom|] eqn:Hnth.
    2:{ apply nth_error_None in Hnth. unfold NumAtoms in Hs. lia. }
    destruct (Hres s obatom) as (e & He); [lia|exact Hnth|].
    destruct (fromOBMol_atom_links s g h obatom e Hnth He Hatoms Hnext Hlinks)
      as (g1 & Hstep & Ha1 & Hf1 & Hl1).
    cbn [seq foldM]. rewrite (bind_eq _ _ _ Hstep).
    destruct (IH (S s) g1
                (mkHeap (upd (cell h) (next h) (imported obatom e))
                        (S (next h))))
      as (g' & h' & Hrun & Ha & Hf & Hl);
      [lia|intros k a Hk; apply Hres; lia|assumption|simpl; lia|assumption|].
    exists g', h'. split; [exact Hrun|].
    replace (s + S m) with (S s + m) by lia.
    split; [exact Ha|]. split; [congruence|exact Hl].
Qed.

End BuildMolecule.

Lemma links_start (obmol : OBMol) (n0 : nat) : links obmol n0 0 0 [].
Proof.
  constructor.
  - reflexivity.
  - reflexivity.
  - intros p q _. unfold visited. rewrite andb_false_r.
    split; reflexivity.
  - split; [constructor|intros a d []].
  - intros x d. discriminate.
Qed.

(** The graph and the store that the two loops of [fromOBMol] leave, for a
    foreign molecule all of whose atoms the registry resolves. *)
Lemma fromOBMol_built `{ElementRegistry} `{ForeignModel} (obmol : OBMol)
    (h : Heap) :
  resolves obmol ->
  exists g0 h0,
    foldM (Molecule.fromOBMol_atom obmol) (seq 0 (NumAtoms obmol))
          (ChemGraph.init None None) h = Ok (g0, h0) /\
    ChemGraph.atoms g0 = seq (next h) (NumAtoms obmol) /\
    ChemGraph.implicitHydrogens g0 = false /\
    links obmol (next h) (NumAtoms obmol) 0 (ChemGraph.bonds g0) /\
    next h0 = next h + NumAtoms obmol /\
    forall i obatom,
      nth_error (ob_atoms obmol) i = Some obatom ->
      exists e, getElement (GetAtomicNum obatom) = Ok e /\
                cell h0 (next h + i) = imported obatom e.
Proof.
  intros Hres.
  destruct (fromOBMol_build_links obmol (next h) (NumAtoms obmol) 0
              (ChemGraph.init None None) h)
    as (g0 & h0 & Hrun & Ha & Hf & Hl).
  { reflexivity. }
  { intros k obatom _ Hnth. apply Hres. eapply nth_error_In. exact Hnth. }
  { reflexivity. }
  { lia. }
  { apply links_start. }
  exists g0, h0. split; [exact Hrun|]. split; [exact Ha|].
  split; [exact Hf|]. split; [exact Hl|].
  pose proof Hrun as Hinv. apply fromOBMol_atoms_inv in Hinv.
  destruct Hinv as (Hnext & _ & Hnew & _).
  split; [exact Hnext|]. intros i obatom Hnth.
  apply (Hnew i obatom).
  - apply nth_error_Some. unfold NumAtoms in *. congruence.
  - exact Hnth.
Qed.

(** A run of [fromOBMol] that returns has resolved every atom. *)
Lemma fromOBMol_resolves `{ElementRegistry} `{ForeignModel}
    (self m' : Molecule.t) (obmol : OBMol) (h h' : Heap) :
  Molecule.fromOBMol self obmol h = Ok (m', h') ->
  resolves (AddHydrogens obmol).
Proof.
  intros Hrun. apply fromOBMol_inv in Hrun.
  destruct Hrun as (g0 & h0 & g & Hloop & _ & _).
  apply fromOBMol_atoms_inv in Hloop.
  destruct Hloop as (_ & _ & Hnew & _).
  intros obatom Hin. apply In_nth_error in Hin. destruct Hin as (i & Hnth).
  destruct (Hnew i obatom) as (e & He & _).
  - apply nth_error_Some. congruence.
  - exact Hnth.
  - exists e. exact He.
Qed.

(** ** The import as a whole *)

Lemma stored_first_neighbour (es : dict (dict Bond.t)) (a b : ref)
    (bond : Bond.t) :
  stored es a b = Some bond -> first_neighbour es a <> None.
Proof.
  unfold stored, Graph.neighbours, first_neighbour.
  destruct (dict_get es a) as [[|[n bd] d]|]; simpl; congruence.
Qed.

Lemma first_neighbour_stored (es : dict (dict Bond.t)) (a n : ref) :
  first_neighbour es a = Some n -> exists bond, stored es a n = Some bond.
Proof.
  unfold stored, Graph.neighbours, first_neighbour.
  destruct (dict_get es a) as [[|[n' bd] d]|]; try discriminate.
  intros [= ->]. exists bd. simpl. rewrite Nat.eqb_refl. reflexivity.
Qed.

Lemma imported_isHydrogen `{ElementRegistry} (obatom : OBAtom) (e : Element) :
  registry_consistent -> getElement (GetAtomicNum obatom) = Ok e ->
  Atom.isHydrogen (imported obatom e) = Z.eqb (GetAtomicNum obatom) 1.
Proof.
  intros Hcons He. unfold Atom.isHydrogen, Atom.number, imported. simpl.
  rewrite (Hcons _ _ He). reflexivity.
Qed.

Lemma filter_seq_shift (f : nat -> bool) (g : nat -> bool) (n0 len : nat) :
  forall s,
    (forall k, s <= k < s + len -> f (n0 + k) = g k) ->
    filter f (seq (n0 + s) len) = map (Nat.add n0) (filter g (seq s len)).
Proof.
  induction len as [|len IH]; intros s Hfg; simpl; [reflexivity|].
  rewrite (Hfg s) by lia.
  replace (S (n0 + s)) with (n0 + S s) by lia.
  rewrite (IH (S s)) by (intros k Hk; apply Hfg; lia).
  destruct (g s); reflexivity.
Qed.

Lemma set_implicitHydrogens_same (a : Atom.t) :
  Atom.set_implicitHydrogens a (Atom.implicitHydrogens a) = a.
Proof. destruct a; reflexivity. Qed.

Lemma stored_fold_removeAtom (vs : list ref) (g : ChemGraph.t) (a b : ref) :
  stored (ChemGraph.bonds (fold_left ChemGraph.removeAtom vs g)) a b =
  if existsb (Nat.eqb a) vs || existsb (Nat.eqb b) vs then None
  else stored (ChemGraph.bonds g) a b.
Proof.
  revert g. induction vs as [|v vs IH]; intros g; simpl; [reflexivity|].
  rewrite IH.
  change (ChemGraph.bonds (ChemGraph.removeAtom g v))
    with (Graph.edges (Graph.removeVertex (ChemGraph.graph g) v)).
  rewrite stored_removeVertex.
  destruct (Nat.eqb a v), (Nat.eqb b v), (existsb (Nat.eqb a) vs),
           (existsb (Nat.eqb b) vs); reflexivity.
Qed.

Lemma existsb_eqb_filter (f : ref -> bool) (l : list ref) (a : ref) :
  In a l -> existsb (Nat.eqb a) (filter f l) = f a.
Proof.
  induction l as [|x l IH]; intros Hin; [destruct Hin|].
  simpl. destruct (Nat.eqb_spec a x) as [E|Hne].
  - subst x. destruct (f a) eqn:Hf; simpl.
    + rewrite Nat.eqb_refl. reflexivity.
    + clear IH Hin. induction l as [|y l IHl]; simpl; [reflexivity|].
      destruct (f y) eqn:Hy; simpl; [|exact IHl].
      destruct (Nat.eqb_spec a y) as [E|_]; [congruence|exact IHl].
  - destruct Hin as [E|Hin]; [congruence|].
    destruct (f x); simpl.
    + destruct (Nat.eqb_spec a x); [contradiction|]. apply IH. assumption.
    + apply IH. assumption.
Qed.

Lemma stored_stripped (h : Heap) (g : ChemGraph.t) (a b : ref) :
  In a (ChemGraph.atoms g) -> In b (ChemGraph.atoms g) ->
  stored (ChemGraph.bonds (stripped h g)) a b =
  if isHydrogenAt h a || isHydrogenAt h b then None
  else stored (ChemGraph.bonds g) a b.
Proof.
  intros Ha Hb. unfold stripped.
  change (ChemGraph.bonds (ChemGraph.set_implicitHydrogens ?g0 true))
    with (ChemGraph.bonds g0).
  rewrite stored_fold_removeAtom.
  rewrite (existsb_eqb_filter _ _ _ Ha), (existsb_eqb_filter _ _ _ Hb).
  reflexivity.
Qed.

(** The graph and the store that the loops of [fromOBMol] leave, read
    against the foreign molecule. *)
Section Built.
Context `{ElementRegistry}.
Variable obmol : OBMol.
Variables (g0 : ChemGraph.t) (n0 : nat) (h0 : Heap).
Hypothesis Hcons : registry_consistent.
Hypothesis Hatoms : ChemGraph.atoms g0 = seq n0 (NumAtoms obmol).
Hypothesis Hlinks :
  links obmol n0 (NumAtoms obmol) 0 (ChemGraph.bonds g0).
Hypothesis Hcells : forall i obatom,
  nth_error (ob_atoms obmol) i = Some obatom ->
  exists e, getElement (GetAtomicNum obatom) = Ok e /\
            cell h0 (n0 + i) = imported obatom e.

Lemma built_isHydrogen (k : nat) :
  k < NumAtoms obmol -> isHydrogenAt h0 (n0 + k) = ob_hydrogen obmol k.
Proof.
  intros Hk. unfold ob_hydrogen, isHydrogenAt.
  destruct (nth_error (ob_atoms obmol) k) as [obatom|] eqn:Hnth.
  - destruct (Hcells k obatom Hnth) as (e & He & Hcell). rewrite Hcell.
    apply imported_isHydrogen; assumption.
  - apply nth_error_None in Hnth. unfold NumAtoms in Hk. lia.
Qed.

Lemma built_counter (k : nat) :
  k < NumAtoms obmol -> counter h0 (n0 + k) = 0%Z.
Proof.
  intros Hk. unfold counter.
  destruct (nth_error (ob_atoms obmol) k) as [obatom|] eqn:Hnth.
  - destruct (Hcells k obatom Hnth) as (e & He & Hcell). rewrite Hcell.
    reflexivity.
  - apply nth_error_None in Hnth. unfold NumAtoms in Hk. lia.
Qed.

Lemma visited_all (p q : nat) :
  visited (NumAtoms obmol) 0 p q = Nat.ltb p (NumAtoms obmol).
Proof. unfold visited. rewrite andb_false_r, orb_false_r. reflexivity. Qed.

Lemma built_stored (p q : nat) :
  p < NumAtoms obmol -> q < NumAtoms obmol -> p <> q ->
  stored (ChemGraph.bonds g0) (n0 + p) (n0 + q) = ob_link obmol p q.
Proof.
  intros Hp Hq Hne.
  destruct (Nat.lt_total p q) as [Hlt|[E|Hgt]]; [|contradiction|].
  - destruct (li_pair Hlinks Hlt) as [_ Hst].
    rewrite Hst, visited_all.
    destruct (Nat.ltb_spec q (NumAtoms obmol)); [|lia]. apply ob_link_sym.
  - destruct (li_pair Hlinks Hgt) as [Hst _].
    rewrite Hst, visited_all.
    destruct (Nat.ltb_spec p (NumAtoms obmol)); [reflexivity|lia].
Qed.

Lemma built_stored_inv (x y : ref) (bond : Bond.t) :
  stored (ChemGraph.bonds g0) x y = Some bond ->
  exists p q, x = n0 + p /\ y = n0 + q /\ p <> q /\
              p < NumAtoms obmol /\ q < NumAtoms obmol /\
              ob_link obmol p q = Some bond.
Proof.
  intros Hst.
  assert (Hx : n0 <= x).
  { destruct (Nat.lt_ge_cases x n0) as [Hlt|Hge]; [|assumption].
    rewrite (li_low Hlinks (x := x) (y := y) (or_introl Hlt)) in Hst. discriminate. }
  assert (Hy : n0 <= y).
  { destruct (Nat.lt_ge_cases y n0) as [Hlt|Hge]; [|assumption].
    rewrite (li_low Hlinks (x := x) (y := y) (or_intror Hlt)) in Hst. discriminate. }
  remember (x - n0) as p eqn:Ep. remember (y - n0) as q eqn:Eq.
  assert (Ex : x = n0 + p) by lia. assert (Ey : y = n0 + q) by lia.
  clear Ep Eq Hx Hy. subst x y. exists p, q.
  split; [reflexivity|]. split; [reflexivity|].
  destruct (Nat.lt_total p q) as [Hlt|[E|Hgt]].
  - destruct (li_pair Hlinks Hlt) as [_ H2].
    rewrite H2, visited_all in Hst.
    destruct (Nat.ltb_spec q (NumAtoms obmol)); [|discriminate].
    rewrite ob_link_sym in Hst.
    split; [lia|]. split; [lia|]. split; assumption.
  - subst q. rewrite (li_diag Hlinks) in Hst. discriminate.
  - destruct (li_pair Hlinks Hgt) as [H1 _].
    rewrite H1, visited_all in Hst.
    destruct (Nat.ltb_spec p (NumAtoms obmol)); [|discriminate].
    split; [lia|]. split; [lia|]. split; [lia|assumption].
Qed.

Lemma ob_link_bonded (k p : nat) :
  k <> p ->
  ob_bonded obmol k p = match ob_link obmol k p with
                        | Some _ => true
                        | None => false
                        end.
Proof.
  intros Hne. unfold ob_bonded, ob_link.
  destruct (Nat.eqb_spec k p); [contradiction|]. simpl.
  destruct (GetBond obmol (k + 1) (p + 1)); reflexivity.
Qed.

Lemma built_bonded (k p : nat) :
  k < NumAtoms obmol -> p < NumAtoms obmol -> ob_bonded obmol k p = true ->
  exists bond, stored (ChemGraph.bonds g0) (n0 + k) (n0 + p) = Some bond.
Proof.
  intros Hk Hp Hb.
  assert (Hne : k <> p).
  { intros E. subst p. unfold ob_bonded in Hb. rewrite Nat.eqb_refl in Hb.
    discriminate. }
  rewrite (ob_link_bonded k p Hne) in Hb.
  rewrite (built_stored k p Hk Hp Hne).
  destruct (ob_link obmol k p) as [bond|]; [|discriminate].
  exists bond. reflexivity.
Qed.

Lemma built_bonded_inv (k : nat) (y : ref) (bond : Bond.t) :
  stored (ChemGraph.bonds g0) (n0 + k) y = Some bond ->
  exists p, y = n0 + p /\ k < NumAtoms obmol /\ p < NumAtoms obmol /\
            ob_bonded obmol k p = true.
Proof.
  intros Hst. apply built_stored_inv in Hst.
  destruct Hst as (k' & p & Ek & Ey & Hne & Hk & Hp & Hl).
  assert (k' = k) by lia. subst k'. exists p.
  split; [assumption|]. split; [assumption|]. split; [assumption|].
  rewrite (ob_link_bonded k p Hne), Hl. reflexivity.
Qed.

Lemma built_unbonded (k : nat) :
  k < NumAtoms obmol ->
  first_neighbour (ChemGraph.bonds g0) (n0 + k) = None <->
  forall p, p < NumAtoms obmol -> ob_bonded obmol k p = false.
Proof.
  intros Hk. split.
  - intros Hfn p Hp. destruct (ob_bonded obmol k p) eqn:Hb; [|reflexivity].
    destruct (built_bonded k p Hk Hp Hb) as (bond & Hst).
    apply stored_first_neighbour in Hst. contradiction.
  - intros Hnone.
    destruct (first_neighbour (ChemGraph.bonds g0) (n0 + k)) as [n|] eqn:Hfn;
      [|reflexivity].
    apply first_neighbour_stored in Hfn. destruct Hfn as (bond & Hst).
    apply built_bonded_inv in Hst. destruct Hst as (p & _ & _ & Hp & Hb).
    rewrite (Hnone p Hp) in Hb. discriminate.
Qed.

Lemma built_heavy :
  (exists k, k < NumAtoms obmol /\ ob_hydrogen obmol k = false) ->
  exists a, In a (ChemGraph.atoms g0) /\ isHydrogenAt h0 a = false.
Proof.
  intros (k & Hk & Hh). exists (n0 + k). split.
  - rewrite Hatoms. apply in_seq. lia.
  - rewrite built_isHydrogen; assumption.
Qed.

Lemma built_all_hydrogen :
  (forall k, k < NumAtoms obmol -> ob_hydrogen obmol k = true) ->
  forall a, In a (ChemGraph.atoms g0) -> isHydrogenAt h0 a = true.
Proof.
  intros Hall a Hin. rewrite Hatoms in Hin. apply in_seq in Hin.
  replace a with (n0 + (a - n0)) by lia.
  rewrite built_isHydrogen by lia. apply Hall. lia.
Qed.

Lemma built_scan_ok :
  (forall k, k < NumAtoms obmol -> ob_hydrogen obmol k = true ->
     exists p, p < NumAtoms obmol /\ ob_bonded obmol k p = true) ->
  forall a, In a (ChemGraph.atoms g0) -> isHydrogenAt h0 a = true ->
            first_neighbour (ChemGraph.bonds g0) a <> None.
Proof.
  intros Hb a Hin Hh. rewrite Hatoms in Hin. apply in_seq in Hin.
  remember (a - n0) as k eqn:Ek.
  assert (Ea : a = n0 + k) by lia. assert (Hk : k < NumAtoms obmol) by lia.
  clear Ek Hin. subst a.
  rewrite (built_isHydrogen k Hk) in Hh.
  destruct (Hb k Hk Hh) as (p & Hp & Hbp).
  destruct (built_bonded k p Hk Hp Hbp) as (bond & Hst).
  eapply stored_first_neighbour. eassumption.
Qed.

Lemma built_atoms_stripped :
  ChemGraph.atoms (stripped h0 g0) = map (Nat.add n0) (heavy_index obmol).
Proof.
  rewrite stripped_atoms, Hatoms. unfold heavy_index.
  replace (seq n0 (NumAtoms obmol)) with (seq (n0 + 0) (NumAtoms obmol))
    by (rewrite Nat.add_0_r; reflexivity).
  apply filter_seq_shift. intros k Hk.
  rewrite built_isHydrogen by lia. reflexivity.
Qed.

Lemma built_hydrogens_on (p : nat) :
  p < NumAtoms obmol ->
  (forall k q q', k < NumAtoms obmol -> q < NumAtoms obmol ->
     q' < NumAtoms obmol -> ob_hydrogen obmol k = true ->
     ob_bonded obmol k q = true -> ob_bonded obmol k q' = true -> q = q') ->
  List.length (hydrogens_on h0 (ChemGraph.bonds g0) (ChemGraph.atoms g0)
                 (n0 + p))
  = hydrogens_bonded obmol p.
Proof.
  intros Hp Huniq. unfold hydrogens_on, hydrogens_bonded. rewrite Hatoms.
  replace (seq n0 (NumAtoms obmol)) with (seq (n0 + 0) (NumAtoms obmol))
    by (rewrite Nat.add_0_r; reflexivity).
  rewrite (filter_seq_shift _
             (fun k => ob_hydrogen obmol k && ob_bonded obmol k p)).
  { apply length_map. }
  intros k Hk. assert (Hk' : k < NumAtoms obmol) by lia.
  rewrite (built_isHydrogen k Hk').
  destruct (ob_hydrogen obmol k) eqn:Hh; simpl; [|reflexivity].
  destruct (first_neighbour (ChemGraph.bonds g0) (n0 + k)) as [n|] eqn:Hfn.
  - apply first_neighbour_stored in Hfn. destruct Hfn as (bond & Hst).
    apply built_bonded_inv in Hst. destruct Hst as (q & En & _ & Hq & Hb).
    subst n. destruct (ob_bonded obmol k p) eqn:Hbp.
    + rewrite (Huniq k q p Hk' Hq Hp Hh Hb Hbp). apply Nat.eqb_refl.
    + destruct (Nat.eqb_spec (n0 + q) (n0 + p)) as [E|_]; [|reflexivity].
      assert (q = p) by lia. congruence.
  - destruct (ob_bonded obmol k p) eqn:Hbp; [|reflexivity].
    destruct (built_bonded k p Hk' Hp Hbp) as (bond & Hst).
    apply stored_first_neighbour in Hst. contradiction.
Qed.

Lemma built_hydrogens_low (r : ref) :
  r < n0 ->
  hydrogens_on h0 (ChemGraph.bonds g0) (ChemGraph.atoms g0) r = [].
Proof.
  intros Hr. unfold hydrogens_on. clear Hatoms.
  induction (ChemGraph.atoms g0) as [|a l IH]; simpl; [reflexivity|].
  destruct (first_neighbour (ChemGraph.bonds g0) a) as [n|] eqn:Hfn.
  - apply first_neighbour_stored in Hfn. destruct Hfn as (bond & Hst).
    destruct (Nat.eqb_spec n r) as [E|_].
    + subst n. rewrite (li_low Hlinks (x := a) (y := r) (or_intror Hr)) in Hst.
      discriminate.
    + rewrite andb_false_r. exact IH.
  - rewrite andb_false_r. exact IH.
Qed.

End Built.

(** *** The conditions on the foreign molecule, unfolded *)

Lemma has_heavy_true (obmol : OBMol) :
  has_heavy obmol = true ->
  exists k, k < NumAtoms obmol /\ ob_hydrogen obmol k = false.
Proof.
  unfold has_heavy. intros Hex. apply existsb_exists in Hex.
  destruct Hex as (k & Hin & Hk). apply in_seq in Hin.
  exists k. split; [lia|]. apply negb_true_iff. exact Hk.
Qed.

Lemma has_heavy_false (obmol : OBMol) :
  has_heavy obmol = false ->
  forall k, k < NumAtoms obmol -> ob_hydrogen obmol k = true.
Proof.
  unfold has_heavy. intros Hex k Hk.
  destruct (ob_hydrogen obmol k) eqn:Hh; [reflexivity|].
  assert (Hyes : existsb (fun k => negb (ob_hydrogen obmol k))
                         (seq 0 (NumAtoms obmol)) = true).
  { apply existsb_exists. exists k. split; [apply in_seq; lia|].
    rewrite Hh. reflexivity. }
  congruence.
Qed.

Lemma partners_In (obmol : OBMol) (k p : nat) :
  In p (partners obmol k) <-> p < NumAtoms obmol /\ ob_bonded obmol k p = true.
Proof.
  unfold partners. rewrite filter_In, in_seq. split.
  - intros [Hp Hb]. split; [lia|assumption].
  - intros [Hp Hb]. split; [lia|assumption].
Qed.

Lemma hydrogens_bonded_all_true (obmol : OBMol) :
  hydrogens_bonded_all obmol = true ->
  forall k, k < NumAtoms obmol -> ob_hydrogen obmol k = true ->
    exists p, p < NumAtoms obmol /\ ob_bonded obmol k p = true.
Proof.
  unfold hydrogens_bonded_all. intros Hall k Hk Hh.
  rewrite forallb_forall in Hall.
  assert (Hin : In k (seq 0 (NumAtoms obmol))) by (apply in_seq; lia).
  specialize (Hall k Hin). rewrite Hh in Hall. simpl in Hall.
  destruct (partners obmol k) as [|p ps] eqn:Hps; [discriminate|].
  exists p. apply partners_In. rewrite Hps. left. reflexivity.
Qed.

Lemma hydrogens_monovalent_all (obmol : OBMol) :
  hydrogens_monovalent obmol = true -> hydrogens_bonded_all obmol = true.
Proof.
  unfold hydrogens_monovalent, hydrogens_bonded_all. intros Hone.
  rewrite forallb_forall in Hone. apply forallb_forall. intros k Hin.
  specialize (Hone k Hin). destruct (ob_hydrogen obmol k); [|reflexivity].
  simpl in *. apply Nat.eqb_eq in Hone. rewrite Hone. reflexivity.
Qed.

Lemma hydrogens_monovalent_once (obmol : OBMol) :
  hydrogens_monovalent obmol = true ->
  forall k q q', k < NumAtoms obmol -> q < NumAtoms obmol ->
    q' < NumAtoms obmol -> ob_hydrogen obmol k = true ->
    ob_bonded obmol k q = true -> ob_bonded obmol k q' = true -> q = q'.
Proof.
  unfold hydrogens_monovalent. intros Hone k q q' Hk Hq Hq' Hh Hb Hb'.
  rewrite forallb_forall in Hone.
  assert (Hin : In k (seq 0 (NumAtoms obmol))) by (apply in_seq; lia).
  specialize (Hone k Hin). rewrite Hh in Hone. simpl in Hone.
  apply Nat.eqb_eq in Hone.
  assert (H1 : In q (partners obmol k)) by (apply partners_In; auto).
  assert (H2 : In q' (partners obmol k)) by (apply partners_In; auto).
  destruct (partners obmol k) as [|x [|y l]]; try discriminate.
  destruct H1 as [E1|[]], H2 as [E2|[]]. congruence.
Qed.

Lemma filter_first {A} (f : A -> bool) (l : list A) (x : A) (rest : list A) :
  filter f l = x :: rest ->
  exists l1 l2, l = l1 ++ x :: l2 /\ f x = true /\
                forall y, In y l1 -> f y = false.
Proof.
  induction l as [|a l IH]; simpl; [discriminate|].
  destruct (f a) eqn:Hfa.
  - intros [= -> _]. exists [], l. split; [reflexivity|].
    split; [assumption|intros y []].
  - intros Hf. destruct (IH Hf) as (l1 & l2 & -> & Hx & Hl1).
    exists (a :: l1), l2. split; [reflexivity|]. split; [assumption|].
    intros y [<-|Hy]; [assumption|apply Hl1; assumption].
Qed.

Lemma seq_split_at (n0 len : nat) (l1 l2 : list nat) (k : nat) :
  seq 0 len = l1 ++ k :: l2 ->
  seq n0 len = map (Nat.add n0) l1 ++ (n0 + k) :: map (Nat.add n0) l2.
Proof.
  intros Hs.
  assert (Hshift : forall m s, seq (n0 + s) m = map (Nat.add n0) (seq s m)).
  { induction m as [|m IH]; intros s; simpl; [reflexivity|].
    replace (S (n0 + s)) with (n0 + S s) by lia. rewrite IH. reflexivity. }
  replace n0 with (n0 + 0) at 1 by lia.
  rewrite Hshift, Hs, map_app. reflexivity.
Qed.

(** *** The last step of the import *)

Lemma makeHydrogensImplicit_guard (g : ChemGraph.t) (h : Heap) :
  (forall a, In a (ChemGraph.atoms g) -> isHydrogenAt h a = true) ->
  ChemGraph.makeHydrogensImplicit g h = Ok (g, h).
Proof.
  intros Hall. unfold ChemGraph.makeHydrogensImplicit, bind, gets.
  replace (forallb _ _) with true; [reflexivity|].
  symmetry. apply forallb_forall. exact Hall.
Qed.

(** The scan raises at the first hydrogen that has no entry in the bond
    mapping. *)
Lemma implicit_scan_first_raise (es : dict (dict Bond.t))
    (l1 l2 : list ref) (a : ref) (hs : list ref) (h : Heap) :
  (forall x, In x l1 -> isHydrogenAt h x = true ->
             first_neighbour es x <> None) ->
  isHydrogenAt h a = true ->
  dict_get es a = None ->
  foldM (ChemGraph.implicit_step es) (l1 ++ a :: l2) hs h
  = Raise (KeyError (KAtom a)).
Proof.
  intros Hl1 Ha Hget. rewrite foldM_app.
  destruct (implicit_scan_ok es l1 hs h Hl1) as (h1 & Hrun & Hoc & _).
  rewrite (bind_eq _ _ _ Hrun). cbn [foldM]. unfold bind.
  rewrite implicit_step_eq, (only_counters_isHydrogen a Hoc), Ha.
  unfold first_neighbour. rewrite Hget. reflexivity.
Qed.

Lemma fromOBMol_run `{ElementRegistry} `{ForeignModel} (self : Molecule.t)
    (obmol : OBMol) (h : Heap) (g0 g : ChemGraph.t) (h0 h' : Heap) :
  foldM (Molecule.fromOBMol_atom (AddHydrogens obmol))
        (seq 0 (NumAtoms (AddHydrogens obmol))) (ChemGraph.init None None) h
  = Ok (g0, h0) ->
  ChemGraph.makeHydrogensImplicit g0 h0 = Ok (g, h') ->
  Molecule.fromOBMol self obmol h = Ok (Molecule.mk [g], h').
Proof.
  intros Hloop Himp. unfold Molecule.fromOBMol.
  rewrite (bind_eq _ _ _ Hloop), (bind_eq _ _ _ Himp). reflexivity.
Qed.

Lemma fromOBMol_run_raise `{ElementRegistry} `{ForeignModel}
    (self : Molecule.t) (obmol : OBMol) (h : Heap) (g0 : ChemGraph.t)
    (h0 : Heap) (e : exn) :
  foldM (Molecule.fromOBMol_atom (AddHydrogens obmol))
        (seq 0 (NumAtoms (AddHydrogens obmol))) (ChemGraph.init None None) h
  = Ok (g0, h0) ->
  ChemGraph.makeHydrogensImplicit g0 h0 = Raise e ->
  Molecule.fromOBMol self obmol h = Raise e.
Proof.
  intros Hloop Himp. unfold Molecule.fromOBMol.
  rewrite (bind_eq _ _ _ Hloop). unfold bind. rewrite Himp. reflexivity.
Qed.

(** The import of a foreign molecule that has a heavy atom and whose
    hydrogens all have a bond. *)
Lemma fromOBMol_heavy_core `{ElementRegistry} `{ForeignModel}
    (self : Molecule.t) (obmol : OBMol) (h : Heap) :
  registry_consistent ->
  resolves (AddHydrogens obmol) ->
  has_heavy (AddHydrogens obmol) = true ->
  hydrogens_bonded_all (AddHydrogens obmol) = true ->
  exists g0 h0 h',
    Molecule.fromOBMol self obmol h = Ok (Molecule.mk [stripped h0 g0], h') /\
    ChemGraph.atoms g0 = seq (next h) (NumAtoms (AddHydrogens obmol)) /\
    links (AddHydrogens obmol) (next h) (NumAtoms (AddHydrogens obmol)) 0
          (ChemGraph.bonds g0) /\
    (forall i obatom,
       nth_error (ob_atoms (AddHydrogens obmol)) i = Some obatom ->
       exists e, getElement (GetAtomicNum obatom) = Ok e /\
                 cell h0 (next h + i) = imported obatom e) /\
    next h0 = next h + NumAtoms (AddHydrogens obmol) /\
    only_counters h0 h' /\
    forall r, counter h' r =
      (counter h0 r +
       Z.of_nat (List.length
         (hydrogens_on h0 (ChemGraph.bonds g0) (ChemGraph.atoms g0) r)))%Z.
Proof.
  intros Hcons Hres Hheavy Hbonded.
  destruct (fromOBMol_built (AddHydrogens obmol) h Hres)
    as (g0 & h0 & Hloop & Hatoms & Hflag & Hlinks & Hnext & Hcells).
  destruct (makeHydrogensImplicit_ok g0 h0) as (h' & Himp & Hoc & Hcnt).
  { eapply built_heavy; try eassumption.
    apply has_heavy_true. assumption. }
  { eapply built_scan_ok; try eassumption.
    apply hydrogens_bonded_all_true. assumption. }
  exists g0, h0, h'.
  split; [eapply fromOBMol_run; eassumption|].
  repeat (split; [assumption|]). assumption.
Qed.

Lemma partners_nil (obmol : OBMol) (k : nat) :
  List.length (partners obmol k) = 0 ->
  forall p, p < NumAtoms obmol -> ob_bonded obmol k p = false.
Proof.
  intros Hlen p Hp. destruct (ob_bonded obmol k p) eqn:Hb; [|reflexivity].
  assert (Hin : In p (partners obmol k)) by (apply partners_In; auto).
  destruct (partners obmol k); [destruct Hin|discriminate].
Qed.

Lemma partners_some (obmol : OBMol) (k : nat) :
  List.length (partners obmol k) <> 0 ->
  exists p, p < NumAtoms obmol /\ ob_bonded obmol k p = true.
Proof.
  intros Hlen. destruct (partners obmol k) as [|p ps] eqn:Hps;
    [contradiction|].
  exists p. apply partners_In. rewrite Hps. left. reflexivity.
Qed.

(** *** The small registry and the foreign molecules of the examples *)

Lemma Demo_registry_consistent : @registry_consistent Demo.registry.
Proof.
  intros n e He. unfold getElement, Demo.registry in He.
  destruct (find (fun e0 => Z.eqb (number e0) n) Demo.table) as [e0|] eqn:Hf;
    [|discriminate].
  injection He as <-. apply find_some in Hf. destruct Hf as [_ Hn].
  apply Z.eqb_eq. exact Hn.
Qed.

Lemma resolves_check `{ElementRegistry} (obmol : OBMol) :
  forallb (fun obatom => is_ok (getElement (GetAtomicNum obatom)))
          (ob_atoms obmol) = true ->
  resolves obmol.
Proof.
  intros Hall obatom Hin. rewrite forallb_forall in Hall.
  specialize (Hall obatom Hin).
  destruct (getElement (GetAtomicNum obatom)) as [e|x]; [|discriminate].
  exists e. reflexivity.
Qed.

(** *** What the import returns *)

(** X12.  The import of a foreign molecule all of whose atoms the registry
    knows, which has an atom that is not a hydrogen and whose hydrogens all
    have a bond, returns.  The molecule it leaves has one resonance form,
    whatever forms it had before; the flag of the form is set; its vertices
    are the atoms built for the foreign atoms that are not hydrogens, in
    the order of the foreign molecule; and the import has created one atom
    object for each foreign atom, hydrogens included. *)
Theorem fromOBMol_returns `{ElementRegistry} `{ForeignModel}
    (self : Molecule.t) (obmol : OBMol) (h : Heap) :
  registry_consistent ->
  resolves (AddHydrogens obmol) ->
  has_heavy (AddHydrogens obmol) = true ->
  hydrogens_bonded_all (AddHydrogens obmol) = true ->
  exists g h',
    Molecule.fromOBMol self obmol h = Ok (Molecule.mk [g], h') /\
    ChemGraph.implicitHydrogens g = true /\
    ChemGraph.atoms g
    = map (Nat.add (next h)) (heavy_index (AddHydrogens obmol)) /\
    next h' = next h + NumAtoms (AddHydrogens obmol).
Proof.
  intros Hcons Hres Hheavy Hbonded.
  destruct (fromOBMol_heavy_core self obmol h Hcons Hres Hheavy Hbonded)
    as (g0 & h0 & h' & Hrun & Hatoms & Hlinks & Hcells & Hnext & Hoc & Hcnt).
  exists (stripped h0 g0), h'. split; [exact Hrun|].
  split; [reflexivity|]. split.
  - eapply built_atoms_stripped; eassumption.
  - destruct Hoc as [Hn _]. lia.
Qed.

Lemma fromOBMol_returns_witness :
  @registry_consistent Demo.registry /\
  @resolves Demo.registry (@AddHydrogens Demo.foreign Demo.ob_water) /\
  has_heavy (@AddHydrogens Demo.foreign Demo.ob_water) = true /\
  hydrogens_bonded_all (@AddHydrogens Demo.foreign Demo.ob_water) = true /\
  exists g h',
    @Molecule.fromOBMol Demo.registry Demo.foreign
      (Molecule.mk [Demo.methane]) Demo.ob_water Demo.empty_heap
    = Ok (Molecule.mk [g], h') /\
    ChemGraph.implicitHydrogens g = true /\
    ChemGraph.atoms g = [0] /\
    next h' = 3.
Proof.
  assert (Hres : @resolves Demo.registry
                   (@AddHydrogens Demo.foreign Demo.ob_water))
    by (apply resolves_check; reflexivity).
  split; [exact Demo_registry_consistent|]. split; [exact Hres|].
  split; [reflexivity|]. split; [reflexivity|].
  exact (@fromOBMol_returns Demo.registry Demo.foreign
           (Molecule.mk [Demo.methane]) Demo.ob_water Demo.empty_heap
           Demo_registry_consistent Hres eq_refl eq_refl).
Defined.

(** X13.  In the form that such an import leaves, the bond stored for two
    foreign atoms, under either ordering, is the one built from the foreign
    bond between them when neither is a hydrogen, and there is none when
    the foreign molecule has no bond between them or when one of them is a
    hydrogen.  No bond of the form has an end outside its vertices. *)
Theorem fromOBMol_bonds `{ElementRegistry} `{ForeignModel}
    (self : Molecule.t) (obmol : OBMol) (h : Heap) :
  registry_consistent ->
  resolves (AddHydrogens obmol) ->
  has_heavy (AddHydrogens obmol) = true ->
  hydrogens_bonded_all (AddHydrogens obmol) = true ->
  exists g h',
    Molecule.fromOBMol self obmol h = Ok (Molecule.mk [g], h') /\
    (forall p q,
       p < NumAtoms (AddHydrogens obmol) ->
       q < NumAtoms (AddHydrogens obmol) -> p <> q ->
       stored (ChemGraph.bonds g) (next h + p) (next h + q) =
       if ob_hydrogen (AddHydrogens obmol) p
          || ob_hydrogen (AddHydrogens obmol) q
       then None else ob_link (AddHydrogens obmol) p q) /\
    (forall x y bond,
       stored (ChemGraph.bonds g) x y = Some bond ->
       In x (ChemGraph.atoms g) /\ In y (ChemGraph.atoms g)).
Proof.
  intros Hcons Hres Hheavy Hbonded.
  destruct (fromOBMol_heavy_core self obmol h Hcons Hres Hheavy Hbonded)
    as (g0 & h0 & h' & Hrun & Hatoms & Hlinks & Hcells & Hnext & Hoc & Hcnt).
  exists (stripped h0 g0), h'. split; [exact Hrun|].
  assert (Hin : forall k, k < NumAtoms (AddHydrogens obmol) ->
                          In (next h + k) (ChemGraph.atoms g0)).
  { intros k Hk. rewrite Hatoms. apply in_seq. lia. }
  assert (Hhyd : forall k, k < NumAtoms (AddHydrogens obmol) ->
            isHydrogenAt h0 (next h + k)
            = ob_hydrogen (AddHydrogens obmol) k).
  { intros k Hk. eapply built_isHydrogen; eassumption. }
  split.
  - intros p q Hp Hq Hne.
    rewrite (stored_stripped h0 g0 _ _ (Hin p Hp) (Hin q Hq)).
    rewrite (Hhyd p Hp), (Hhyd q Hq).
    destruct (ob_hydrogen (AddHydrogens obmol) p
              || ob_hydrogen (AddHydrogens obmol) q); [reflexivity|].
    eapply built_stored; eassumption.
  - intros x y bond Hst.
    assert (Hst0 : exists bond0,
              stored (ChemGraph.bonds g0) x y = Some bond0).
    { unfold stripped in Hst.
      change (ChemGraph.bonds (ChemGraph.set_implicitHydrogens ?g1 true))
        with (ChemGraph.bonds g1) in Hst.
      rewrite stored_fold_removeAtom in Hst.
      destruct (_ || _); [discriminate|]. exists bond. exact Hst. }
    destruct Hst0 as (bond0 & Hst0).
    edestruct built_stored_inv as (p & q & Ex & Ey & Hne & Hp & Hq & _);
      [exact Hlinks|exact Hst0|].
    subst x y.
    rewrite (stored_stripped h0 g0 _ _ (Hin p Hp) (Hin q Hq)) in Hst.
    destruct (isHydrogenAt h0 (next h + p)) eqn:Hhp; [discriminate|].
    destruct (isHydrogenAt h0 (next h + q)) eqn:Hhq; [discriminate|].
    rewrite stripped_atoms. split; apply filter_In.
    + split; [apply Hin; assumption|]. rewrite Hhp. reflexivity.
    + split; [apply Hin; assumption|]. rewrite Hhq. reflexivity.
Qed.

Lemma fromOBMol_bonds_witness :
  @registry_consistent Demo.registry /\
  @resolves Demo.registry
    (@AddHydrogens Demo.foreign Demo.ob_carbon_monoxide) /\
  has_heavy (@AddHydrogens Demo.foreign Demo.ob_carbon_monoxide) = true /\
  hydrogens_bonded_all (@AddHydrogens Demo.foreign Demo.ob_carbon_monoxide)
  = true /\
  exists g h',
    @Molecule.fromOBMol Demo.registry Demo.foreign Molecule.init
      Demo.ob_carbon_monoxide Demo.empty_heap
    = Ok (Molecule.mk [g], h') /\
    stored (ChemGraph.bonds g) 0 1 = Some (Bond.mk 3) /\
    stored (ChemGraph.bonds g) 1 0 = Some (Bond.mk 3).
Proof.
  assert (Hres : @resolves Demo.registry
                   (@AddHydrogens Demo.foreign Demo.ob_carbon_monoxide))
    by (apply resolves_check; reflexivity).
  split; [exact Demo_registry_consistent|]. split; [exact Hres|].
  split; [reflexivity|]. split; [reflexivity|].
  destruct (@fromOBMol_bonds Demo.registry Demo.foreign Molecule.init
              Demo.ob_carbon_monoxide Demo.empty_heap
              Demo_registry_consistent Hres eq_refl eq_refl)
    as (g & h' & Hrun & Hst & _).
  exists g, h'. split; [exact Hrun|]. split.
  - apply (Hst 0 1); vm_compute; lia.
  - apply (Hst 1 0); vm_compute; lia.
Defined.

(** X14.  When each foreign hydrogen has one bond and one only, as its
    valence has it, the import leaves on the counter of implicit hydrogens
    of the atom built for each foreign atom the number of foreign hydrogens
    that have a bond with it. *)
Theorem fromOBMol_counters `{ElementRegistry} `{ForeignModel}
    (self : Molecule.t) (obmol : OBMol) (h : Heap) :
  registry_consistent ->
  resolves (AddHydrogens obmol) ->
  has_heavy (AddHydrogens obmol) = true ->
  hydrogens_monovalent (AddHydrogens obmol) = true ->
  exists g h',
    Molecule.fromOBMol self obmol h = Ok (Molecule.mk [g], h') /\
    forall p, p < NumAtoms (AddHydrogens obmol) ->
      counter h' (next h + p)
      = Z.of_nat (hydrogens_bonded (AddHydrogens obmol) p).
Proof.
  intros Hcons Hres Hheavy Hone.
  destruct (fromOBMol_heavy_core self obmol h Hcons Hres Hheavy
              (hydrogens_monovalent_all _ Hone))
    as (g0 & h0 & h' & Hrun & Hatoms & Hlinks & Hcells & Hnext & Hoc & Hcnt).
  exists (stripped h0 g0), h'. split; [exact Hrun|].
  intros p Hp. rewrite Hcnt.
  assert (Hzero : counter h0 (next h + p) = 0%Z)
    by (eapply built_counter; eassumption).
  assert (Hon : List.length
                  (hydrogens_on h0 (ChemGraph.bonds g0) (ChemGraph.atoms g0)
                     (next h + p))
                = hydrogens_bonded (AddHydrogens obmol) p).
  { eapply built_hydrogens_on; try eassumption.
    apply hydrogens_monovalent_once. assumption. }
  rewrite Hzero, Hon. reflexivity.
Qed.

Lemma fromOBMol_counters_witness :
  @registry_consistent Demo.registry /\
  @resolves Demo.registry (@AddHydrogens Demo.foreign Demo.ob_water) /\
  has_heavy (@AddHydrogens Demo.foreign Demo.ob_water) = true /\
  hydrogens_monovalent (@AddHydrogens Demo.foreign Demo.ob_water) = true /\
  exists g h',
    @Molecule.fromOBMol Demo.registry Demo.foreign Molecule.init
      Demo.ob_water Demo.empty_heap
    = Ok (Molecule.mk [g], h') /\
    counter h' 0 = 2%Z /\ counter h' 1 = 0%Z.
Proof.
  assert (Hres : @resolves Demo.registry
                   (@AddHydrogens Demo.foreign Demo.ob_water))
    by (apply resolves_check; reflexivity).
  split; [exact Demo_registry_consistent|]. split; [exact Hres|].
  split; [reflexivity|]. split; [reflexivity|].
  destruct (@fromOBMol_counters Demo.registry Demo.foreign Molecule.init
              Demo.ob_water Demo.empty_heap
              Demo_registry_consistent Hres eq_refl eq_refl)
    as (g & h' & Hrun & Hcnt).
  exists g, h'. split; [exact Hrun|]. split.
  - apply (Hcnt 0). vm_compute. lia.
  - apply (Hcnt 1). vm_compute. lia.
Defined.

(** X15.  The import of a foreign molecule all of whose atoms are
    hydrogens (dihydrogen, a hydrogen atom, or no atom at all) keeps them:
    the form it leaves has one vertex for each foreign atom, in the order
    of the foreign molecule, its flag is not set, the bonds of the foreign
    molecule are stored under both orderings, and every counter of implicit
    hydrogens is zero. *)
Theorem fromOBMol_all_hydrogen `{ElementRegistry} `{ForeignModel}
    (self : Molecule.t) (obmol : OBMol) (h : Heap) :
  registry_consistent ->
  resolves (AddHydrogens obmol) ->
  has_heavy (AddHydrogens obmol) = false ->
  exists g h',
    Molecule.fromOBMol self obmol h = Ok (Molecule.mk [g], h') /\
    ChemGraph.implicitHydrogens g = false /\
    ChemGraph.atoms g = seq (next h) (NumAtoms (AddHydrogens obmol)) /\
    (forall p q,
       p < NumAtoms (AddHydrogens obmol) ->
       q < NumAtoms (AddHydrogens obmol) -> p <> q ->
       stored (ChemGraph.bonds g) (next h + p) (next h + q)
       = ob_link (AddHydrogens obmol) p q) /\
    (forall k, k < NumAtoms (AddHydrogens obmol) ->
       counter h' (next h + k) = 0%Z).
Proof.
  intros Hcons Hres Hnone.
  destruct (fromOBMol_built (AddHydrogens obmol) h Hres)
    as (g0 & h0 & Hloop & Hatoms & Hflag & Hlinks & Hnext & Hcells).
  assert (Himp : ChemGraph.makeHydrogensImplicit g0 h0 = Ok (g0, h0)).
  { apply makeHydrogensImplicit_guard.
    eapply built_all_hydrogen; try eassumption.
    apply has_heavy_false. assumption. }
  exists g0, h0. split; [eapply fromOBMol_run; eassumption|].
  split; [exact Hflag|]. split; [exact Hatoms|]. split.
  - intros p q Hp Hq Hne. eapply built_stored; eassumption.
  - intros k Hk. eapply built_counter; eassumption.
Qed.

Lemma fromOBMol_all_hydrogen_witness :
  @registry_consistent Demo.registry /\
  @resolves Demo.registry
    (@AddHydrogens Demo.foreign DemoMore.ob_dihydrogen) /\
  has_heavy (@AddHydrogens Demo.foreign DemoMore.ob_dihydrogen) = false /\
  exists g h',
    @Molecule.fromOBMol Demo.registry Demo.foreign Molecule.init
      DemoMore.ob_dihydrogen Demo.empty_heap
    = Ok (Molecule.mk [g], h') /\
    ChemGraph.implicitHydrogens g = false /\
    ChemGraph.atoms g = [0; 1] /\
    stored (ChemGraph.bonds g) 0 1 = Some (Bond.mk 1) /\
    counter h' 0 = 0%Z.
Proof.
  assert (Hres : @resolves Demo.registry
                   (@AddHydrogens Demo.foreign DemoMore.ob_dihydrogen))
    by (apply resolves_check; reflexivity).
  split; [exact Demo_registry_consistent|]. split; [exact Hres|].
  split; [reflexivity|].
  destruct (@fromOBMol_all_hydrogen Demo.registry Demo.foreign Molecule.init
              DemoMore.ob_dihydrogen Demo.empty_heap
              Demo_registry_consistent Hres eq_refl)
    as (g & h' & Hrun & Hflag & Hatoms & Hst & Hcnt).
  exists g, h'. split; [exact Hrun|]. split; [exact Hflag|].
  split; [exact Hatoms|]. split.
  - apply (Hst 0 1); vm_compute; lia.
  - apply (Hcnt 0). vm_compute. lia.
Defined.

(** X16.  The import of a foreign molecule that has an atom which is not a
    hydrogen and a hydrogen without a bond (a proton beside an ion, say)
    does not return: every atom is built, and the last step raises the
    [KeyError] of the atom built for the first such hydrogen, which has no
    entry in the bond mapping. *)
Theorem fromOBMol_unbonded_hydrogen `{ElementRegistry} `{ForeignModel}
    (self : Molecule.t) (obmol : OBMol) (h : Heap) (k : nat)
    (rest : list nat) :
  registry_consistent ->
  resolves (AddHydrogens obmol) ->
  has_heavy (AddHydrogens obmol) = true ->
  unbonded_hydrogens (AddHydrogens obmol) = k :: rest ->
  Molecule.fromOBMol self obmol h = Raise (KeyError (KAtom (next h + k))).
Proof.
  intros Hcons Hres Hheavy Hfirst.
  destruct (fromOBMol_built (AddHydrogens obmol) h Hres)
    as (g0 & h0 & Hloop & Hatoms & Hflag & Hlinks & Hnext & Hcells).
  eapply fromOBMol_run_raise; [exact Hloop|].
  unfold unbonded_hydrogens in Hfirst. apply filter_first in Hfirst.
  destruct Hfirst as (l1 & l2 & Hsplit & Hk & Hl1).
  assert (Hsub : forall y, In y (l1 ++ k :: l2) ->
                           y < NumAtoms (AddHydrogens obmol)).
  { intros y Hy. rewrite <- Hsplit in Hy. apply in_seq in Hy. lia. }
  assert (Hkn : k < NumAtoms (AddHydrogens obmol)).
  { apply Hsub. apply in_or_app. right. left. reflexivity. }
  apply andb_prop in Hk. destruct Hk as [Hkh Hkp]. apply Nat.eqb_eq in Hkp.
  assert (Hhyd : forall y, y < NumAtoms (AddHydrogens obmol) ->
            isHydrogenAt h0 (next h + y)
            = ob_hydrogen (AddHydrogens obmol) y).
  { intros y Hy. eapply built_isHydrogen; eassumption. }
  unfold ChemGraph.makeHydrogensImplicit, bind, gets.
  assert (Hall : forallb (fun atom => Atom.isHydrogen (cell h0 atom))
                         (ChemGraph.atoms g0) = false).
  { apply forallb_false_exists.
    edestruct built_heavy as (a & Hin & Ha);
      [exact Hcons|exact Hatoms|exact Hcells
      |apply has_heavy_true; exact Hheavy|].
    exists a. split; assumption. }
  rewrite Hall.
  rewrite Hatoms, (seq_split_at (next h) _ l1 l2 k Hsplit).
  rewrite implicit_scan_first_raise; [reflexivity| | |].
  - intros x Hx Hxh. apply in_map_iff in Hx. destruct Hx as (y & <- & Hy).
    assert (Hyn : y < NumAtoms (AddHydrogens obmol)).
    { apply Hsub. apply in_or_app. left. assumption. }
    rewrite (Hhyd y Hyn) in Hxh. specialize (Hl1 y Hy).
    rewrite Hxh in Hl1. simpl in Hl1. apply Nat.eqb_neq in Hl1.
    destruct (partners_some _ _ Hl1) as (p & Hp & Hb).
    edestruct built_bonded as (bond & Hst);
      [exact Hlinks|exact Hyn|exact Hp|exact Hb|].
    eapply stored_first_neighbour. exact Hst.
  - rewrite (Hhyd k Hkn). exact Hkh.
  - assert (Hfn : first_neighbour (ChemGraph.bonds g0) (next h + k) = None).
    { eapply built_unbonded; try eassumption.
      apply partners_nil. assumption. }
    unfold first_neighbour in Hfn.
    destruct (dict_get (ChemGraph.bonds g0) (next h + k)) as [d|] eqn:Hd;
      [|reflexivity].
    pose proof (li_nonempty Hlinks _ Hd) as Hne.
    destruct d as [|[n b] d]; [contradiction|discriminate].
Qed.

Lemma fromOBMol_unbonded_hydrogen_witness :
  @registry_consistent Demo.registry /\
  @resolves Demo.registry
    (@AddHydrogens Demo.foreign DemoMore.ob_proton_hydroxide) /\
  has_heavy (@AddHydrogens Demo.foreign DemoMore.ob_proton_hydroxide)
  = true /\
  unbonded_hydrogens (@AddHydrogens Demo.foreign DemoMore.ob_proton_hydroxide)
  = [2] /\
  @Molecule.fromOBMol Demo.registry Demo.foreign Molecule.init
    DemoMore.ob_proton_hydroxide Demo.empty_heap
  = Raise (KeyError (KAtom 2)).
Proof.
  assert (Hres : @resolves Demo.registry
                   (@AddHydrogens Demo.foreign DemoMore.ob_proton_hydroxide))
    by (apply resolves_check; reflexivity).
  split; [exact Demo_registry_consistent|]. split; [exact Hres|].
  split; [reflexivity|]. split; [reflexivity|].
  exact (@fromOBMol_unbonded_hydrogen Demo.registry Demo.foreign
           Molecule.init DemoMore.ob_proton_hydroxide Demo.empty_heap
           2 [] Demo_registry_consistent Hres eq_refl eq_refl).
Defined.

(** *** What the import leaves alone *)

(** X17.  An import that returns has created one atom object for each atom
    of the completed foreign molecule and has changed no atom object that
    existed before: the counters that its last step raises are those of
    atoms it has built itself. *)
Theorem fromOBMol_frame `{ElementRegistry} `{ForeignModel}
    (self m' : Molecule.t) (obmol : OBMol) (h h' : Heap) :
  Molecule.fromOBMol self obmol h = Ok (m', h') ->
  next h' = next h + NumAtoms (AddHydrogens obmol) /\
  forall r, r < next h -> cell h' r = cell h r.
Proof.
  intros Hrun. pose proof (fromOBMol_resolves _ _ _ _ _ Hrun) as Hres.
  apply fromOBMol_inv in Hrun.
  destruct Hrun as (g0 & h0 & g & Hloop & Himp & _).
  destruct (fromOBMol_built (AddHydrogens obmol) h Hres)
    as (g1 & h1 & Hloop1 & Hatoms & _ & Hlinks & Hnext & _).
  rewrite Hloop in Hloop1. injection Hloop1 as <- <-.
  pose proof Hloop as Hold. apply fromOBMol_atoms_inv in Hold.
  destruct Hold as (_ & Hold & _).
  apply makeHydrogensImplicit_inv in Himp.
  destruct Himp as [(_ & _ & ->)|(_ & _ & Hoc & Hcnt)].
  - split; [exact Hnext|exact Hold].
  - split; [destruct Hoc as [Hn _]; lia|].
    intros r Hr. destruct Hoc as [_ Hcell].
    rewrite (Hcell r), (Hcnt r).
    rewrite (built_hydrogens_low _ _ _ _ Hlinks r Hr). simpl.
    rewrite Z.add_0_r. unfold counter.
    rewrite set_implicitHydrogens_same. apply Hold. exact Hr.
Qed.

Lemma fromOBMol_frame_witness :
  exists m' h',
    @Molecule.fromOBMol Demo.registry Demo.foreign Molecule.init
      Demo.ob_water Demo.hydroxyl_heap = Ok (m', h') /\
    next h' = 5 /\
    cell h' 0 = cell Demo.hydroxyl_heap 0 /\
    cell h' 1 = cell Demo.hydroxyl_heap 1.
Proof.
  eexists. eexists. split; [vm_compute; reflexivity|].
  edestruct (@fromOBMol_frame Demo.registry Demo.foreign Molecule.init)
    with (obmol := Demo.ob_water) (h := Demo.hydroxyl_heap)
    as [Hnext Hold].
  - vm_compute. reflexivity.
  - split; [exact Hnext|].
    split; [apply (Hold 0)|apply (Hold 1)]; vm_compute; lia.
Defined.

(** X18.  In an import that returns, the atom built for each foreign atom
    has the element that the registry gives for the atomic number of the
    foreign atom, the formal charge of the foreign atom and an empty
    label, also after the last step has made the hydrogens implicit. *)
Theorem fromOBMol_atom_fields `{ElementRegistry} `{ForeignModel}
    (self m' : Molecule.t) (obmol : OBMol) (h h' : Heap) :
  Molecule.fromOBMol self obmol h = Ok (m', h') ->
  forall i obatom,
    nth_error (ob_atoms (AddHydrogens obmol)) i = Some obatom ->
    getElement (GetAtomicNum obatom)
    = Ok (Atom.element (cell h' (next h + i))) /\
    Atom.charge (cell h' (next h + i)) = GetFormalCharge obatom /\
    Atom.label (cell h' (next h + i)) = ""%string.
Proof.
  intros Hrun i obatom Hnth.
  apply fromOBMol_inv in Hrun.
  destruct Hrun as (g0 & h0 & g & Hloop & Himp & _).
  apply fromOBMol_atoms_inv in Hloop.
  destruct Hloop as (_ & _ & Hnew & _).
  destruct (Hnew i obatom) as (e & He & Hcell).
  { apply nth_error_Some. unfold NumAtoms in *. congruence. }
  { exact Hnth. }
  apply makeHydrogensImplicit_only_counters in Himp.
  destruct Himp as [_ Hframe].
  rewrite (Hframe (next h + i)), Hcell. simpl.
  split; [exact He|]. split; reflexivity.
Qed.

Lemma fromOBMol_atom_fields_witness :
  exists m' h',
    @Molecule.fromOBMol Demo.registry Demo.foreign Molecule.init
      DemoMore.ob_dihydrogen Demo.empty_heap = Ok (m', h') /\
    Atom.element (cell h' 1) = Demo.H /\
    Atom.charge (cell h' 1) = 0%Z.
Proof.
  destruct (@Molecule.fromOBMol Demo.registry Demo.foreign Molecule.init
              DemoMore.ob_dihydrogen Demo.empty_heap)
    as [[m' h']|e] eqn:Hrun; [|vm_compute in Hrun; discriminate].
  exists m', h'. split; [reflexivity|].
  destruct (@fromOBMol_atom_fields Demo.registry Demo.foreign _ _ _ _ _ Hrun
              1 (mkOBAtom 1 0 0) eq_refl) as (He & Hc & _).
  split; [|exact Hc].
  change (Ok Demo.H = Ok (Atom.element (cell h' 1))) in He.
  injection He as He. symmetry. exact He.
Defined.

(** ** The export as a whole *)

Lemma list_index_lt (l : list ref) (x : ref) (i : nat) :
  list_index l x = Some i -> i < List.length l.
Proof.
  intros Hx. apply list_index_nth in Hx. apply nth_error_Some. congruence.
Qed.

(** Every call of the bond loop comes from an entry of the bond mapping
    whose first atom comes first in the list of atoms. *)
Lemma emitted_sound (atoms : list ref) (bonds : dict (dict Bond.t))
    (c : OBCall) :
  In c (emitted atoms bonds) ->
  exists a b d bond i j,
    In (a, d) bonds /\ In (b, bond) d /\
    list_index atoms a = Some i /\ list_index atoms b = Some j /\
    i < j /\ c = AddBond (i + 1) (j + 1) (Bond.order bond).
Proof.
  unfold emitted. intros Hin. apply in_flat_map in Hin.
  destruct Hin as ([a d] & Had & Hin). simpl in Hin.
  apply in_flat_map in Hin. destruct Hin as ([b bond] & Hbd & Hin).
  unfold emitted1 in Hin. simpl in Hin.
  destruct (list_index atoms a) as [i|] eqn:Hi; [|destruct Hin].
  destruct (list_index atoms b) as [j|] eqn:Hj; [|destruct Hin].
  destruct (Nat.ltb_spec i j) as [Hlt|Hge]; [|destruct Hin].
  destruct Hin as [E|[]]. subst c.
  exists a, b, d, bond, i, j.
  split; [assumption|]. split; [assumption|]. split; [assumption|].
  split; [assumption|]. split; [assumption|reflexivity].
Qed.

(** X19.  The calls of an export that returns.  First come, for each atom
    of the form with its hydrogens explicit, in canonical order, the three
    calls that create the foreign atom and set its atomic number and its
    formal charge; then the calls that add bonds; the last call assigns the
    spin multiplicities.  Each call that adds a bond comes from a bond
    stored in the form and joins two atoms by their places in the canonical
    order, counted from 1, the lower place first and both within the
    number of atoms: no atom is joined to itself and no index is out of
    range.  The resonance forms after the first are left as they were. *)
Theorem toOBMol_calls_shape `{ElementRegistry} `{GraphCapability}
    (self self' : Molecule.t) (form : ChemGraph.t)
    (others : list ChemGraph.t) (g1 : ChemGraph.t) (h h1 h' : Heap)
    (calls : list OBCall) :
  Molecule.toOBMol self h = Ok ((calls, self'), h') ->
  Molecule.resonanceForms self = form :: others ->
  ChemGraph.makeHydrogensExplicit form h = Ok (g1, h1) ->
  exists bcalls form',
    calls = flat_map (atom_calls h1) (sortVertices h1 (ChemGraph.graph g1))
            ++ bcalls ++ [AssignSpinMultiplicity true] /\
    List.length (sortVertices h1 (ChemGraph.graph g1)) = numAtoms g1 /\
    (forall c, In c bcalls ->
       exists a b d bond i j,
         In (a, d) (ChemGraph.bonds g1) /\ In (b, bond) d /\
         nth_error (sortVertices h1 (ChemGraph.graph g1)) i = Some a /\
         nth_error (sortVertices h1 (ChemGraph.graph g1)) j = Some b /\
         i < j /\ j < numAtoms g1 /\
         c = AddBond (i + 1) (j + 1) (Bond.order bond)) /\
    Molecule.resonanceForms self' = form' :: others.
Proof.
  intros Hrun Hforms Hexp.
  destruct (toOBMol_inv self h Hrun Hforms Hexp) as [Hcalls (g3 & Hself & _)].
  assert (Hlen : List.length (sortVertices h1 (ChemGraph.graph g1))
                 = numAtoms g1).
  { apply Permutation_length. apply sortVertices_perm. }
  exists (emitted (sortVertices h1 (ChemGraph.graph g1)) (ChemGraph.bonds g1)),
         g3.
  split; [exact Hcalls|]. split; [exact Hlen|].
  split; [|rewrite Hself; reflexivity].
  intros c Hc. apply emitted_sound in Hc.
  destruct Hc as (a & b & d & bond & i & j & Had & Hbd & Hi & Hj & Hlt & Hc).
  exists a, b, d, bond, i, j.
  split; [assumption|]. split; [assumption|].
  split; [apply list_index_nth; assumption|].
  split; [apply list_index_nth; assumption|].
  split; [assumption|]. split; [|assumption].
  rewrite <- Hlen. eapply list_index_lt. eassumption.
Qed.

Lemma toOBMol_calls_shape_witness :
  exists calls self' h' g1 h1 bcalls,
    @Molecule.toOBMol Demo.registry Demo.capability
      (Molecule.mk [Demo.methane; Demo.hydroxyl]) Demo.methane_heap
    = Ok ((calls, self'), h') /\
    @ChemGraph.makeHydrogensExplicit Demo.registry Demo.methane
      Demo.methane_heap = Ok (g1, h1) /\
    calls = flat_map (atom_calls h1) [4; 3; 2; 1; 0]
            ++ bcalls ++ [AssignSpinMultiplicity true] /\
    List.length bcalls = 4 /\
    exists form', Molecule.resonanceForms self' = [form'; Demo.hydroxyl].
Proof.
  destruct (@Molecule.toOBMol Demo.registry Demo.capability
              (Molecule.mk [Demo.methane; Demo.hydroxyl]) Demo.methane_heap)
    as [[[calls self'] h']|e] eqn:Hrun; [|vm_compute in Hrun; discriminate].
  destruct (@ChemGraph.makeHydrogensExplicit Demo.registry Demo.methane
              Demo.methane_heap)
    as [[g1 h1]|e] eqn:Hexp; [|vm_compute in Hexp; discriminate].
  destruct (@toOBMol_calls_shape Demo.registry Demo.capability _ _ _ _ _ _ _ _
              _ Hrun eq_refl Hexp)
    as (bcalls & form' & Hcalls & _ & _ & Hforms).
  exists calls, self', h', g1, h1, bcalls.
  split; [reflexivity|]. split; [reflexivity|].
  assert (Hg1 : ChemGraph.atoms g1 = [0; 1; 2; 3; 4]).
  { vm_compute in Hexp. injection Hexp as <- _. reflexivity. }
  assert (Hsort : @sortVertices Demo.capability h1 (ChemGraph.graph g1)
                  = [4; 3; 2; 1; 0]).
  { simpl. change (Graph.vertices (ChemGraph.graph g1))
      with (ChemGraph.atoms g1). rewrite Hg1. reflexivity. }
  rewrite Hsort in Hcalls.
  split; [exact Hcalls|]. split; [|exists form'; exact Hforms].
  assert (Hlen : List.length calls = 20).
  { vm_compute in Hrun. injection Hrun as <- _ _. reflexivity. }
  rewrite Hcalls, !length_app in Hlen. simpl in Hlen. lia.
Defined.

Lemma Permutation_filter_keep {A} (f : A -> bool) (l l' : list A) :
  Permutation l l' -> Permutation (filter f l) (filter f l').
Proof.
  induction 1 as [|x l l' _ IH|x y l|l l' l'' _ IH1 _ IH2]; simpl.
  - constructor.
  - destruct (f x); [constructor|]; assumption.
  - destruct (f x), (f y); try apply Permutation_refl. apply perm_swap.
  - eapply Permutation_trans; eassumption.
Qed.

Lemma fold_explicit_add_stored_old (hs : list (ref * ref * Bond.t)) :
  forall (g : ChemGraph.t) (x y : ref),
    (forall p, In p hs -> x <> fst (fst p) /\ y <> fst (fst p)) ->
    stored (ChemGraph.bonds (fold_left ChemGraph.explicit_add hs g)) x y
    = stored (ChemGraph.bonds g) x y.
Proof.
  induction hs as [|[[H0 atom] bond] hs IH]; intros g x y Hnew; simpl;
    [reflexivity|].
  rewrite IH by (intros p Hp; apply Hnew; right; assumption).
  rewrite explicit_add_bonds.
  destruct (Hnew (H0, atom, bond) (or_introl eq_refl)) as [Hx Hy].
  apply stored_add_edges_keep; assumption.
Qed.

(** The export, from its parts. *)
Lemma toOBMol_run `{ElementRegistry} `{GraphCapability} (self : Molecule.t)
    (form : ChemGraph.t) (others : list ChemGraph.t) (g1 g3 : ChemGraph.t)
    (h h1 h' : Heap) (bcalls : list OBCall) :
  Molecule.resonanceForms self = form :: others ->
  ChemGraph.makeHydrogensExplicit form h = Ok (g1, h1) ->
  Molecule.toOBMol_bonds (ChemGraph.atoms (sorted_form h1 g1))
    (ChemGraph.bonds (sorted_form h1 g1))
    (flat_map (atom_calls h1) (ChemGraph.atoms (sorted_form h1 g1)))
  = Ok bcalls ->
  (if ChemGraph.implicitHydrogens form
   then ChemGraph.makeHydrogensImplicit (sorted_form h1 g1) h1
   else ret (sorted_form h1 g1) h1) = Ok (g3, h') ->
  Molecule.toOBMol self h
  = Ok ((bcalls ++ [AssignSpinMultiplicity true],
         Molecule.mk (g3 :: others)), h').
Proof.
  intros Hforms Hexp Hbonds Hend. unfold Molecule.toOBMol.
  rewrite Hforms. rewrite (bind_eq _ _ _ Hexp).
  unfold ChemGraph.sortAtoms. unfold bind at 1 2, gets, ret.
  fold (sorted_form h1 g1).
  rewrite (bind_eq _ _ _
             (toOBMol_atoms_calls (ChemGraph.atoms (sorted_form h1 g1)) []
                h1)).
  unfold bind at 1, lift. simpl app. rewrite Hbonds.
  destruct (ChemGraph.implicitHydrogens form).
  - rewrite (bind_eq _ _ _ Hend). reflexivity.
  - unfold bind. unfold ret in Hend. injection Hend as <- <-. reflexivity.
Qed.

(** The export of a form that has its hydrogens implicit. *)
Lemma toOBMol_implicit_form `{ElementRegistry} `{GraphCapability}
    (eH : Element) (self : Molecule.t) (form : ChemGraph.t)
    (others : list ChemGraph.t) (h : Heap) :
  elements_dict "H" = Some eH ->
  number eH = 1%Z ->
  Molecule.resonanceForms self = form :: others ->
  ChemGraph.implicitHydrogens form = true ->
  allocated h form ->
  keys_ok (fun r => In r (ChemGraph.atoms form)) (ChemGraph.bonds form) ->
  ChemGraph.atoms form <> [] ->
  (forall a, In a (ChemGraph.atoms form) -> isHydrogenAt h a = false) ->
  exists g1 h1 form' h',
    ChemGraph.makeHydrogensExplicit form h = Ok (g1, h1) /\
    Molecule.toOBMol self h
    = Ok ((flat_map (atom_calls h1) (sortVertices h1 (ChemGraph.graph g1))
           ++ emitted (sortVertices h1 (ChemGraph.graph g1))
                      (ChemGraph.bonds g1)
           ++ [AssignSpinMultiplicity true],
           Molecule.mk (form' :: others)), h') /\
    ChemGraph.implicitHydrogens form' = true /\
    Permutation (ChemGraph.atoms form') (ChemGraph.atoms form) /\
    numBonds form' = numBonds form /\
    (forall a b, In a (ChemGraph.atoms form) -> In b (ChemGraph.atoms form) ->
       stored (ChemGraph.bonds form') a b
       = stored (ChemGraph.bonds form) a b) /\
    (forall a, In a (ChemGraph.atoms form) -> cell h' a = cell h a).
Proof.
  intros HregH HnumH Hforms Hflag Halloc Hkeys Hne Hheavy.
  destruct (explicit_scan_effect eH HregH h (ChemGraph.atoms form) [] h
              (planned_ok_start h eH) (proj1 Halloc))
    as (hs & h1 & Hscan & Hok & Htargets & _).
  simpl app in Hscan, Hok.
  set (Hs := map (fun p : ref * ref * Bond.t => fst (fst p)) hs).
  set (g1 := ChemGraph.set_implicitHydrogens
               (fold_left ChemGraph.explicit_add hs form) false).
  assert (Hexp : ChemGraph.makeHydrogensExplicit form h = Ok (g1, h1)).
  { unfold ChemGraph.makeHydrogensExplicit.
    rewrite (bind_eq _ _ _ Hscan). reflexivity. }
  set (g2 := sorted_form h1 g1).
  assert (Hatoms1 : ChemGraph.atoms g1 = ChemGraph.atoms form ++ Hs)
    by apply planned_atoms.
  assert (Hperm : Permutation (ChemGraph.atoms g2) (ChemGraph.atoms g1))
    by apply sortVertices_perm.
  assert (Hold : forall a, In a (ChemGraph.atoms form) ->
                           isHydrogenAt h1 a = false)
    by exact (planned_old_heavy Halloc Hheavy Hok).
  assert (Hnew : forall r, In r Hs -> isHydrogenAt h1 r = true)
    by exact (planned_new_hydrogen HnumH Hok).
  assert (Hin2 : forall a, In a (ChemGraph.atoms g2) <->
                           In a (ChemGraph.atoms form) \/ In a Hs).
  { intros a. rewrite <- in_app_iff, <- Hatoms1. split.
    - apply Permutation_in. exact Hperm.
    - apply Permutation_in. apply Permutation_sym. exact Hperm. }
  (* the bond loop *)
  assert (Hk1 : keys_ok (fun r => In r (ChemGraph.atoms form) \/ In r Hs)
                        (ChemGraph.bonds g1)).
  { apply fold_explicit_add_keys.
    - eapply keys_ok_impl; [|exact Hkeys]. intros r Hr. left. exact Hr.
    - intros p Hp. split.
      + right. exact (in_map (fun q => fst (fst q)) hs p Hp).
      + left. apply (Htargets p Hp). }
  destruct (toOBMol_bonds_returns (ChemGraph.atoms g2) (ChemGraph.bonds g2)
              (flat_map (atom_calls h1) (ChemGraph.atoms g2)))
    as (bcalls & Hbonds).
  { apply (keys_ok_impl (fun r => In r (ChemGraph.atoms g2))
             (P := fun r => In r (ChemGraph.atoms form) \/ In r Hs));
      [|exact Hk1].
    intros r Hr. apply Hin2. exact Hr. }
  (* the hydrogens implicit again *)
  destruct (makeHydrogensImplicit_ok g2 h1) as (h2 & Himp & Hoc & Hcnt).
  { destruct (ChemGraph.atoms form) as [|a0 l0] eqn:Hform; [contradiction|].
    exists a0. split.
    - apply Hin2. left. left. reflexivity.
    - apply Hold. left. reflexivity. }
  { intros a Ha Hh. apply Hin2 in Ha. destruct Ha as [Ha|Ha].
    - rewrite (Hold a Ha) in Hh. discriminate.
    - apply in_map_iff in Ha. destruct Ha as (p & <- & Hp).
      change (ChemGraph.bonds g2) with (ChemGraph.bonds g1). unfold g1.
      rewrite (planned_first form Hok p Hp). discriminate. }
  exists g1, h1, (stripped h1 g2), h2. split; [exact Hexp|].
  split.
  { assert (Hb : bcalls
                 = flat_map (atom_calls h1)
                     (sortVertices h1 (ChemGraph.graph g1))
                   ++ emitted (sortVertices h1 (ChemGraph.graph g1))
                              (ChemGraph.bonds g1))
      by exact (toOBMol_bonds_emitted _ _ _ Hbonds).
    rewrite app_assoc, <- Hb.
    apply (toOBMol_run self form others g1 (stripped h1 g2) h h1 h2 bcalls
             Hforms Hexp Hbonds).
    rewrite Hflag. exact Himp. }
  split; [reflexivity|].
  assert (Hvs : forall v, In v (filter (isHydrogenAt h1) (ChemGraph.atoms g2))
                          <-> In v Hs).
  { intros v. rewrite filter_In, Hin2. split.
    - intros [[Hv|Hv] Hh]; [rewrite (Hold v Hv) in Hh; discriminate|exact Hv].
    - intros Hv. split; [right; exact Hv|apply Hnew; exact Hv]. }
  split; [|split; [|split]].
  - rewrite stripped_atoms.
    eapply Permutation_trans;
      [apply Permutation_filter_keep; exact Hperm|].
    rewrite Hatoms1, filter_app.
    rewrite (filter_all _ (ChemGraph.atoms form)),
            (filter_none _ Hs), app_nil_r.
    + apply Permutation_refl.
    + intros r Hr. rewrite (Hnew r Hr). reflexivity.
    + intros a Ha. rewrite (Hold a Ha). reflexivity.
  - unfold numBonds. f_equal.
    pose proof (allocated_keys_ok Halloc) as Hk0.
    assert (Hk2 : keys_ok (fun r => r < next h \/ In r Hs)
                          (ChemGraph.bonds g2)).
    { apply (fold_explicit_add_keys (P := fun r => r < next h \/ In r Hs)).
      - eapply keys_ok_impl; [|exact Hk0]. intros r Hr. left. exact Hr.
      - intros p Hp. split.
        + right. exact (in_map (fun q => fst (fst q)) hs p Hp).
        + left. exact (po_targets Hok p Hp). }
    unfold stripped.
    change (ChemGraph.bonds (ChemGraph.set_implicitHydrogens ?g0 true))
      with (ChemGraph.bonds g0).
    rewrite <- (entries_below_all (n := next h)).
    + rewrite fold_removeAtom_entries.
      * change (ChemGraph.bonds g2)
          with (ChemGraph.bonds (fold_left ChemGraph.explicit_add hs form)).
        rewrite fold_explicit_add_entries.
        -- apply entries_below_all. exact Hk0.
        -- intros p Hp. apply (planned_range Hok p Hp).
      * intros v Hv. apply Hvs in Hv. apply (planned_new_range Hok v Hv).
    + eapply keys_ok_impl; [|apply fold_removeAtom_keys; exact Hk2].
      intros r [[Hr|Hr] Hnin]; [assumption|].
      exfalso. apply Hnin. apply Hvs. exact Hr.
  - intros a b Ha Hb. unfold stripped.
    change (ChemGraph.bonds (ChemGraph.set_implicitHydrogens ?g0 true))
      with (ChemGraph.bonds g0).
    rewrite stored_fold_removeAtom.
    rewrite (existsb_eqb_filter (isHydrogenAt h1) (ChemGraph.atoms g2) a)
      by (apply Hin2; left; exact Ha).
    rewrite (existsb_eqb_filter (isHydrogenAt h1) (ChemGraph.atoms g2) b)
      by (apply Hin2; left; exact Hb).
    rewrite (Hold a Ha), (Hold b Hb). simpl.
    change (ChemGraph.bonds g2)
      with (ChemGraph.bonds (fold_left ChemGraph.explicit_add hs form)).
    apply fold_explicit_add_stored_old. intros p Hp.
    pose proof (planned_range Hok p Hp) as Hr.
    pose proof (proj1 Halloc a Ha). pose proof (proj1 Halloc b Hb).
    split; lia.
  - intros a Ha. pose proof (proj1 Halloc a Ha) as Hlt.
    assert (Hc : counter h2 a = counter h a).
    { rewrite Hcnt. rewrite <- (po_sum Hok Hlt). f_equal. f_equal.
      rewrite <- (planned_hydrogens_on HnumH Halloc Hheavy Hok a).
      apply Permutation_length. unfold hydrogens_on.
      apply Permutation_filter_keep. exact Hperm. }
    destruct Hoc as [_ Hcell]. rewrite (Hcell a), Hc, (po_old Hok Hlt).
    unfold counter. destruct (cell h a); reflexivity.
Qed.

(** X20.  The export gives back what it borrowed.  Take a molecule whose
    first resonance form has its hydrogens implicit: the flag set, at
    least one atom, no hydrogen among its atoms, every bond between atoms
    of the form, over existing atom objects, hydrogen being in the
    registry with atomic number 1.  Then the export returns, and after it
    the form has its flag set, the same atoms up to their order, the same
    bonds between them and the same number of bonds; every atom of the
    form is as it was, its counter of implicit hydrogens included; and the
    other resonance forms are as they were. *)
Theorem toOBMol_restores `{ElementRegistry} `{GraphCapability}
    (eH : Element) (self : Molecule.t) (form : ChemGraph.t)
    (others : list ChemGraph.t) (h : Heap) :
  elements_dict "H" = Some eH ->
  number eH = 1%Z ->
  Molecule.resonanceForms self = form :: others ->
  ChemGraph.implicitHydrogens form = true ->
  allocated h form ->
  keys_ok (fun r => In r (ChemGraph.atoms form)) (ChemGraph.bonds form) ->
  ChemGraph.atoms form <> [] ->
  (forall a, In a (ChemGraph.atoms form) -> isHydrogenAt h a = false) ->
  exists calls form' h',
    Molecule.toOBMol self h
    = Ok ((calls, Molecule.mk (form' :: others)), h') /\
    ChemGraph.implicitHydrogens form' = true /\
    Permutation (ChemGraph.atoms form') (ChemGraph.atoms form) /\
    numBonds form' = numBonds form /\
    (forall a b, In a (ChemGraph.atoms form) -> In b (ChemGraph.atoms form) ->
       stored (ChemGraph.bonds form') a b
       = stored (ChemGraph.bonds form) a b) /\
    (forall a, In a (ChemGraph.atoms form) -> cell h' a = cell h a).
Proof.
  intros HregH HnumH Hforms Hflag Halloc Hkeys Hne Hheavy.
  destruct (toOBMol_implicit_form eH self form others h HregH HnumH Hforms
              Hflag Halloc Hkeys Hne Hheavy)
    as (g1 & h1 & form' & h' & _ & Hrun & Hflag' & Hperm & Hnum & Hst & Hcell).
  eexists. exists form', h'. split; [exact Hrun|].
  split; [exact Hflag'|]. split; [exact Hperm|]. split; [exact Hnum|].
  split; [exact Hst|exact Hcell].
Qed.

Lemma toOBMol_restores_witness :
  @elements_dict Demo.registry "H" = Some Demo.H /\
  number Demo.H = 1%Z /\
  ChemGraph.implicitHydrogens Demo.methane = true /\
  allocated Demo.methane_heap Demo.methane /\
  keys_ok (fun r => In r (ChemGraph.atoms Demo.methane))
          (ChemGraph.bonds Demo.methane) /\
  ChemGraph.atoms Demo.methane <> [] /\
  (forall a, In a (ChemGraph.atoms Demo.methane) ->
             isHydrogenAt Demo.methane_heap a = false) /\
  exists calls form' h',
    @Molecule.toOBMol Demo.registry Demo.capability
      (Molecule.mk [Demo.methane]) Demo.methane_heap
    = Ok ((calls, Molecule.mk [form']), h') /\
    ChemGraph.implicitHydrogens form' = true /\
    Permutation (ChemGraph.atoms form') [0] /\
    numBonds form' = 0 /\
    counter h' 0 = 4%Z.
Proof.
  assert (Halloc : allocated Demo.methane_heap Demo.methane).
  { split.
    - simpl. intros a [<-|[]]. lia.
    - simpl. intros a d [[= <- <-]|[]]. split; [lia|]. intros b []. }
  assert (Hkeys : keys_ok (fun r => In r (ChemGraph.atoms Demo.methane))
                          (ChemGraph.bonds Demo.methane)).
  { intros a d [[= <- <-]|[]]. split; [left; reflexivity|intros b []]. }
  assert (Hheavy : forall a, In a (ChemGraph.atoms Demo.methane) ->
                             isHydrogenAt Demo.methane_heap a = false).
  { simpl. intros a [<-|[]]. reflexivity. }
  assert (Hne : ChemGraph.atoms Demo.methane <> []) by discriminate.
  split; [reflexivity|]. split; [reflexivity|]. split; [reflexivity|].
  split; [exact Halloc|]. split; [exact Hkeys|]. split; [exact Hne|].
  split; [exact Hheavy|].
  destruct (@toOBMol_restores Demo.registry Demo.capability Demo.H
              (Molecule.mk [Demo.methane]) Demo.methane [] Demo.methane_heap
              eq_refl eq_refl eq_refl eq_refl Halloc Hkeys
              Hne Hheavy)
    as (calls & form' & h' & Hrun & Hflag & Hperm & Hbonds & _ & Hcell).
  exists calls, form', h'. split; [exact Hrun|]. split; [exact Hflag|].
  split; [exact Hperm|]. split; [exact Hbonds|].
  unfold counter. rewrite (Hcell 0 (or_introl eq_refl)). reflexivity.
Defined.

(** ** The import of an atom that the registry does not know *)

Lemma foldM_raise {A S} (body : S -> A -> M S) (l1 l2 : list A) (x : A)
    (s s1 : S) (h h1 : Heap) (e : exn) :
  foldM body l1 s h = Ok (s1, h1) ->
  body s1 x h1 = Raise e ->
  foldM body (l1 ++ x :: l2) s h = Raise e.
Proof.
  intros Hpre Hx. rewrite foldM_app, (bind_eq _ _ _ Hpre).
  cbn [foldM]. unfold bind. rewrite Hx. reflexivity.
Qed.

(** X21.  When the registry raises for the atomic number of a foreign atom
    and knows an element for each atom before it, the import raises what
    the registry has raised: the lookup is not guarded, and the atoms built
    so far are dropped with the graph under construction. *)
Theorem fromOBMol_unresolved `{ElementRegistry} `{ForeignModel}
    (self : Molecule.t) (obmol : OBMol) (h : Heap) (i : nat)
    (obatom : OBAtom) (e : exn) :
  nth_error (ob_atoms (AddHydrogens obmol)) i = Some obatom ->
  getElement (GetAtomicNum obatom) = Raise e ->
  (forall k a, k < i ->
     nth_error (ob_atoms (AddHydrogens obmol)) k = Some a ->
     exists el, getElement (GetAtomicNum a) = Ok el) ->
  Molecule.fromOBMol self obmol h = Raise e.
Proof.
  intros Hnth He Hbefore.
  assert (Hi : i < NumAtoms (AddHydrogens obmol)).
  { apply nth_error_Some. rewrite Hnth. discriminate. }
  destruct (fromOBMol_build_links (AddHydrogens obmol) (next h) i 0
              (ChemGraph.init None None) h)
    as (g0 & h0 & Hrun & _).
  { lia. }
  { intros k a Hk. apply Hbefore. lia. }
  { reflexivity. }
  { lia. }
  { apply links_start. }
  unfold Molecule.fromOBMol.
  assert (Hsplit : seq 0 (NumAtoms (AddHydrogens obmol))
                   = seq 0 i ++ i :: seq (S i)
                                       (NumAtoms (AddHydrogens obmol) - S i)).
  { replace (NumAtoms (AddHydrogens obmol))
      with (i + S (NumAtoms (AddHydrogens obmol) - S i)) at 1 by lia.
    rewrite seq_app. reflexivity. }
  unfold bind at 1. rewrite Hsplit.
  rewrite (foldM_raise _ _ _ i _ _ h _ e Hrun); [reflexivity|].
  unfold Molecule.fromOBMol_atom. rewrite Nat.add_1_r. unfold GetAtom.
  rewrite Hnth. unfold bind, lift. rewrite He. reflexivity.
Qed.

Lemma fromOBMol_unresolved_witness :
  @getElement Demo.registry 7 = Raise ValueError /\
  @Molecule.fromOBMol Demo.registry Demo.foreign Molecule.init
    DemoMore.ob_unknown Demo.empty_heap = Raise ValueError.
Proof.
  split; [reflexivity|].
  apply (@fromOBMol_unresolved Demo.registry Demo.foreign Molecule.init
           DemoMore.ob_unknown Demo.empty_heap 1 (mkOBAtom 7 0 0) ValueError
           eq_refl eq_refl).
  intros k a Hk Hnth. destruct k as [|k]; [|lia].
  injection Hnth as <-. exists Demo.O. reflexivity.
Defined.

(** ** The predicates of atoms and bonds *)

(** X22.  The predicates of an atom read its atomic number only.  An atom
    is never both a hydrogen and a non-hydrogen, and it is neither when
    its atomic number is below 1: [isNonHydrogen] is not the negation of
    [isHydrogen].  A carbon and an oxygen are non-hydrogens, and no atom is
    both.  Changing the counter of implicit hydrogens of an atom changes
    none of the four answers. *)
Theorem Atom_predicates (a : Atom.t) (n : Z) :
  Atom.isHydrogen a && Atom.isNonHydrogen a = false /\
  Atom.isHydrogen a || Atom.isNonHydrogen a = Z.leb 1 (Atom.number a) /\
  (Atom.isCarbon a = true ->
   Atom.isNonHydrogen a = true /\ Atom.isOxygen a = false) /\
  (Atom.isOxygen a = true ->
   Atom.isNonHydrogen a = true /\ Atom.isCarbon a = false) /\
  (let a' := Atom.set_implicitHydrogens a n in
   Atom.isHydrogen a' = Atom.isHydrogen a /\
   Atom.isNonHydrogen a' = Atom.isNonHydrogen a /\
   Atom.isCarbon a' = Atom.isCarbon a /\
   Atom.isOxygen a' = Atom.isOxygen a).
Proof.
  unfold Atom.isHydrogen, Atom.isNonHydrogen, Atom.isCarbon, Atom.isOxygen.
  split; [|split; [|split; [|split]]].
  - destruct (Z.eqb_spec (Atom.number a) 1), (Z.ltb_spec 1 (Atom.number a));
      simpl; try reflexivity; lia.
  - destruct (Z.eqb_spec (Atom.number a) 1), (Z.ltb_spec 1 (Atom.number a)),
             (Z.leb_spec 1 (Atom.number a)); simpl; try reflexivity; lia.
  - intros Hc. apply Z.eqb_eq in Hc. rewrite Hc. split; reflexivity.
  - intros Ho. apply Z.eqb_eq in Ho. rewrite Ho. split; reflexivity.
  - destruct a; repeat split.
Qed.

(** X23.  [Bond.equivalent] is an equivalence between bonds, a copy of a
    bond is equivalent to it, and equivalent bonds give the same answers to
    [isSingle], [isDouble] and [isTriple] and print alike.  At most one of
    the three predicates holds of a bond, and none holds of a bond whose
    order is not 1, 2 or 3, such as the bond of order 5 that the import
    builds for an aromatic foreign bond that is neither single, double nor
    triple. *)
Theorem Bond_equivalent_relation (b1 b2 b3 : Bond.t) (obbond : OBBond) :
  Bond.equivalent b1 b1 = true /\
  Bond.equivalent b1 b2 = Bond.equivalent b2 b1 /\
  (Bond.equivalent b1 b2 = true -> Bond.equivalent b2 b3 = true ->
   Bond.equivalent b1 b3 = true) /\
  Bond.equivalent (Bond.copy b1) b1 = true /\
  (Bond.equivalent b1 b2 = true ->
   Bond.isSingle b1 = Bond.isSingle b2 /\
   Bond.isDouble b1 = Bond.isDouble b2 /\
   Bond.isTriple b1 = Bond.isTriple b2 /\
   Bond_str b1 = Bond_str b2) /\
  (Bond.isSingle b1 && Bond.isDouble b1 = false /\
   Bond.isSingle b1 && Bond.isTriple b1 = false /\
   Bond.isDouble b1 && Bond.isTriple b1 = false) /\
  (IsSingle obbond = false -> IsDouble obbond = false ->
   IsTriple obbond = false ->
   let b := Bond.mk (Molecule.decode_order obbond) in
   Bond.isSingle b = false /\ Bond.isDouble b = false /\
   Bond.isTriple b = false).
Proof.
  unfold Bond.equivalent, Bond.copy, Bond.isSingle, Bond.isDouble,
    Bond.isTriple.
  split; [apply Z.eqb_refl|]. split; [apply Z.eqb_sym|].
  split.
  { intros H12 H23. apply Z.eqb_eq in H12, H23. apply Z.eqb_eq.
    congruence. }
  split; [apply Z.eqb_refl|]. split.
  { intros H12. apply Z.eqb_eq in H12. unfold Bond_str. rewrite H12.
    repeat split. }
  split.
  { destruct (Z.eqb_spec (Bond.order b1) 1), (Z.eqb_spec (Bond.order b1) 2),
             (Z.eqb_spec (Bond.order b1) 3); simpl; repeat split; lia. }
  intros Hs Hd Ht. unfold Molecule.decode_order. rewrite Hs, Hd, Ht. simpl.
  destruct (IsAromatic obbond); repeat split.
Qed.

(** ** The form that the import leaves is well formed *)

Lemma dict_wf_In_get {V} (d : dict V) (k : ref) (v : V) :
  dict_wf d -> In (k, v) d -> dict_get d k = Some v.
Proof.
  unfold dict_wf. induction d as [|[k0 v0] d IH]; simpl; [intros _ []|].
  intros Hwf Hin. inversion Hwf as [|? ? Hnin Hwf']; subst.
  destruct Hin as [E|Hin].
  - injection E as -> ->. rewrite Nat.eqb_refl. reflexivity.
  - destruct (Nat.eqb_spec k0 k) as [E|Hne].
    + subst k0. exfalso. apply Hnin. apply in_map_iff.
      exists (k, v). split; [reflexivity|assumption].
    + apply IH; assumption.
Qed.

Lemma dict_wf_del {V} (d : dict V) (k : ref) :
  dict_wf d -> dict_wf (dict_del d k).
Proof.
  unfold dict_wf, dict_keys, dict_del.
  induction d as [|[k0 v0] d IH]; simpl; intros Hwf; [constructor|].
  inversion Hwf as [|? ? Hnin Hwf']; subst.
  destruct (negb (Nat.eqb k0 k)); simpl; [|apply IH; assumption].
  constructor; [|apply IH; assumption].
  intros Hin. apply Hnin. apply in_map_iff in Hin.
  destruct Hin as (x & Hx & Hxin). apply filter_In in Hxin.
  apply in_map_iff. exists x. split; [assumption|apply Hxin].
Qed.

Lemma bonds_wf_removeVertex (g : Graph.t) (v : ref) :
  bonds_wf (Graph.edges g) ->
  bonds_wf (Graph.edges (Graph.removeVertex g v)).
Proof.
  intros [Hwf Hin]. unfold Graph.removeVertex. simpl. split.
  - unfold dict_wf, dict_keys. rewrite map_map.
    apply (dict_wf_del (Graph.edges g) v Hwf).
  - intros a d' Hin'. apply in_map_iff in Hin'.
    destruct Hin' as ([a0 d0] & E & Hin0). injection E as <- <-. simpl.
    apply dict_wf_del. apply (Hin a0 d0).
    unfold dict_del in Hin0. apply filter_In in Hin0. apply Hin0.
Qed.

Lemma bonds_wf_fold_removeAtom (vs : list ref) (g : ChemGraph.t) :
  bonds_wf (ChemGraph.bonds g) ->
  bonds_wf (ChemGraph.bonds (fold_left ChemGraph.removeAtom vs g)).
Proof.
  revert g. induction vs as [|v vs IH]; intros g Hwf; simpl; [assumption|].
  apply IH. apply (bonds_wf_removeVertex (ChemGraph.graph g) v Hwf).
Qed.

Section BuiltForm.
Context `{ElementRegistry}.
Variable obmol : OBMol.
Variables (g0 : ChemGraph.t) (n0 : nat) (h0 h' : Heap).
Hypothesis Hcons : registry_consistent.
Hypothesis Hatoms : ChemGraph.atoms g0 = seq n0 (NumAtoms obmol).
Hypothesis Hlinks :
  links obmol n0 (NumAtoms obmol) 0 (ChemGraph.bonds g0).
Hypothesis Hcells : forall i obatom,
  nth_error (ob_atoms obmol) i = Some obatom ->
  exists e, getElement (GetAtomicNum obatom) = Ok e /\
            cell h0 (n0 + i) = imported obatom e.
Hypothesis Hnext : next h0 = n0 + NumAtoms obmol.
Hypothesis Hoc : only_counters h0 h'.
Hypothesis Hheavy : has_heavy obmol = true.

Lemma built_keys_ok :
  keys_ok (fun r => In r (ChemGraph.atoms g0)) (ChemGraph.bonds g0).
Proof.
  intros a d Hin. destruct (li_wf Hlinks) as [Hwf Hwfin].
  pose proof (dict_wf_In_get _ _ _ Hwf Hin) as Hget.
  pose proof (Hwfin a d Hin) as Hwfd.
  assert (Hkey : forall b bond, In (b, bond) d ->
            In a (ChemGraph.atoms g0) /\ In b (ChemGraph.atoms g0)).
  { intros b bond Hb.
    assert (Hst : stored (ChemGraph.bonds g0) a b = Some bond).
    { unfold stored, Graph.neighbours. rewrite Hget.
      apply dict_wf_In_get; assumption. }
    edestruct built_stored_inv as (p & q & Ea & Eb & _ & Hp & Hq & _);
      [exact Hlinks|exact Hst|].
    subst a b. rewrite Hatoms. split; apply in_seq; lia. }
  split.
  - destruct d as [|[b bond] d'].
    + exfalso. exact (li_nonempty Hlinks _ Hget eq_refl).
    + apply (Hkey b bond). left. reflexivity.
  - intros b Hb. unfold dict_keys in Hb. apply in_map_iff in Hb.
    destruct Hb as ([b' bond] & E & Hb). simpl in E. subst b'.
    apply (Hkey b bond Hb).
Qed.

(** The form that the last step of the import leaves, when the foreign
    molecule has a heavy atom. *)
Lemma built_stripped_wf :
  ChemGraph.atoms (stripped h0 g0) <> [] /\
  NoDup (ChemGraph.atoms (stripped h0 g0)) /\
  (forall a, In a (ChemGraph.atoms (stripped h0 g0)) ->
             isHydrogenAt h' a = false) /\
  allocated h' (stripped h0 g0) /\
  keys_ok (fun r => In r (ChemGraph.atoms (stripped h0 g0)))
          (ChemGraph.bonds (stripped h0 g0)) /\
  bonds_wf (ChemGraph.bonds (stripped h0 g0)).
Proof.
  assert (Hin : forall a, In a (ChemGraph.atoms (stripped h0 g0)) <->
                  In a (ChemGraph.atoms g0) /\ isHydrogenAt h0 a = false).
  { intros a. rewrite stripped_atoms, filter_In, negb_true_iff.
    reflexivity. }
  assert (Hkeys : keys_ok (fun r => In r (ChemGraph.atoms (stripped h0 g0)))
                          (ChemGraph.bonds (stripped h0 g0))).
  { unfold stripped at 2.
    change (ChemGraph.bonds (ChemGraph.set_implicitHydrogens ?g1 true))
      with (ChemGraph.bonds g1).
    eapply keys_ok_impl;
      [|apply fold_removeAtom_keys; exact built_keys_ok].
    intros r [Hr Hnin]. apply Hin. split; [exact Hr|].
    destruct (isHydrogenAt h0 r) eqn:Hh; [|reflexivity].
    exfalso. apply Hnin. apply filter_In. split; assumption. }
  assert (Hlt : forall a, In a (ChemGraph.atoms (stripped h0 g0)) ->
                          a < next h').
  { intros a Ha. apply Hin in Ha. destruct Ha as [Ha _].
    rewrite Hatoms in Ha. apply in_seq in Ha.
    destruct Hoc as [Hn _]. lia. }
  split.
  { apply has_heavy_true in Hheavy. destruct Hheavy as (k & Hk & Hh).
    assert (Hk' : In (n0 + k) (ChemGraph.atoms (stripped h0 g0))).
    { apply Hin. split.
      - rewrite Hatoms. apply in_seq. lia.
      - erewrite built_isHydrogen; eassumption. }
    intros E. rewrite E in Hk'. destruct Hk'. }
  split.
  { rewrite stripped_atoms, Hatoms. apply NoDup_filter. apply seq_NoDup. }
  split.
  { intros a Ha. rewrite (only_counters_isHydrogen a Hoc).
    apply Hin. exact Ha. }
  split.
  { split; [exact Hlt|].
    apply (keys_ok_impl (fun r => r < next h')
             (P := fun r => In r (ChemGraph.atoms (stripped h0 g0))));
      [exact Hlt|exact Hkeys]. }
  split; [exact Hkeys|].
  unfold stripped.
  change (ChemGraph.bonds (ChemGraph.set_implicitHydrogens ?g1 true))
    with (ChemGraph.bonds g1).
  apply bonds_wf_fold_removeAtom. exact (li_wf Hlinks).
Qed.

End BuiltForm.

(** X24.  The form that the import leaves, for a foreign molecule all of
    whose atoms the registry knows, which has an atom that is not a
    hydrogen and whose hydrogens all have a bond, is a well-formed form
    with implicit hydrogens: the flag is set, there is at least one atom,
    no atom occurs twice, no atom is a hydrogen, all the atoms exist, every
    bond joins atoms of the form, and keys occur once in the bond
    mapping.  These are the conditions under which the export returns and
    gives the form back. *)
Theorem fromOBMol_well_formed `{ElementRegistry} `{ForeignModel}
    (self : Molecule.t) (obmol : OBMol) (h : Heap) :
  registry_consistent ->
  resolves (AddHydrogens obmol) ->
  has_heavy (AddHydrogens obmol) = true ->
  hydrogens_bonded_all (AddHydrogens obmol) = true ->
  exists g h',
    Molecule.fromOBMol self obmol h = Ok (Molecule.mk [g], h') /\
    ChemGraph.implicitHydrogens g = true /\
    ChemGraph.atoms g <> [] /\
    NoDup (ChemGraph.atoms g) /\
    (forall a, In a (ChemGraph.atoms g) -> isHydrogenAt h' a = false) /\
    allocated h' g /\
    keys_ok (fun r => In r (ChemGraph.atoms g)) (ChemGraph.bonds g) /\
    bonds_wf (ChemGraph.bonds g).
Proof.
  intros Hcons Hres Hheavy Hbonded.
  destruct (fromOBMol_heavy_core self obmol h Hcons Hres Hheavy Hbonded)
    as (g0 & h0 & h' & Hrun & Hatoms & Hlinks & Hcells & Hnext & Hoc & Hcnt).
  exists (stripped h0 g0), h'. split; [exact Hrun|].
  split; [reflexivity|].
  eapply built_stripped_wf; eassumption.
Qed.

Lemma fromOBMol_well_formed_witness :
  @registry_consistent Demo.registry /\
  @resolves Demo.registry (@AddHydrogens Demo.foreign Demo.ob_water) /\
  has_heavy (@AddHydrogens Demo.foreign Demo.ob_water) = true /\
  hydrogens_bonded_all (@AddHydrogens Demo.foreign Demo.ob_water) = true /\
  exists g h',
    @Molecule.fromOBMol Demo.registry Demo.foreign Molecule.init
      Demo.ob_water Demo.empty_heap
    = Ok (Molecule.mk [g], h') /\
    ChemGraph.implicitHydrogens g = true /\
    allocated h' g /\
    bonds_wf (ChemGraph.bonds g).
Proof.
  assert (Hres : @resolves Demo.registry
                   (@AddHydrogens Demo.foreign Demo.ob_water))
    by (apply resolves_check; reflexivity).
  split; [exact Demo_registry_consistent|]. split; [exact Hres|].
  split; [reflexivity|]. split; [reflexivity|].
  destruct (@fromOBMol_well_formed Demo.registry Demo.foreign Molecule.init
              Demo.ob_water Demo.empty_heap
              Demo_registry_consistent Hres eq_refl eq_refl)
    as (g & h' & Hrun & Hflag & _ & _ & _ & Halloc & _ & Hwf).
  exists g, h'. split; [exact Hrun|]. split; [exact Hflag|].
  split; [exact Halloc|exact Hwf].
Defined.

(** X25.  Import, then export.  For such a foreign molecule, hydrogen
    being in the registry with atomic number 1, the export of the molecule
    that the import has left returns, and it leaves the imported form as
    it was up to the order of its atoms: the flag set, the same atoms, the
    same bonds between them, the same number of bonds, and every atom of
    the form with the counter of implicit hydrogens that the import gave
    it. *)
Theorem fromOBMol_then_toOBMol `{ElementRegistry} `{GraphCapability}
    `{ForeignModel} (eH : Element) (self : Molecule.t) (obmol : OBMol)
    (h : Heap) :
  elements_dict "H" = Some eH ->
  number eH = 1%Z ->
  registry_consistent ->
  resolves (AddHydrogens obmol) ->
  has_heavy (AddHydrogens obmol) = true ->
  hydrogens_bonded_all (AddHydrogens obmol) = true ->
  exists form h1 calls form' h2,
    Molecule.fromOBMol self obmol h = Ok (Molecule.mk [form], h1) /\
    Molecule.toOBMol (Molecule.mk [form]) h1
    = Ok ((calls, Molecule.mk [form']), h2) /\
    ChemGraph.implicitHydrogens form' = true /\
    Permutation (ChemGraph.atoms form') (ChemGraph.atoms form) /\
    numBonds form' = numBonds form /\
    (forall a b, In a (ChemGraph.atoms form) -> In b (ChemGraph.atoms form) ->
       stored (ChemGraph.bonds form') a b
       = stored (ChemGraph.bonds form) a b) /\
    (forall a, In a (ChemGraph.atoms form) -> cell h2 a = cell h1 a).
Proof.
  intros HregH HnumH Hcons Hres Hheavy Hbonded.
  destruct (fromOBMol_heavy_core self obmol h Hcons Hres Hheavy Hbonded)
    as (g0 & h0 & h1 & Hrun & Hatoms & Hlinks & Hcells & Hnext & Hoc & Hcnt).
  edestruct built_stripped_wf
    as (Hne & _ & Hnoh & Halloc & Hkeys & _);
    [exact Hcons|exact Hatoms|exact Hlinks|exact Hcells|exact Hnext
    |exact Hoc|exact Hheavy|].
  destruct (toOBMol_implicit_form eH (Molecule.mk [stripped h0 g0])
              (stripped h0 g0) [] h1 HregH HnumH eq_refl eq_refl Halloc Hkeys
              Hne Hnoh)
    as (g1 & h1' & form' & h2 & _ & Hexport & Hflag & Hperm & Hnum & Hst
        & Hcell).
  exists (stripped h0 g0), h1. eexists. exists form', h2.
  split; [exact Hrun|]. split; [exact Hexport|].
  split; [exact Hflag|]. split; [exact Hperm|]. split; [exact Hnum|].
  split; [exact Hst|exact Hcell].
Qed.

Lemma fromOBMol_then_toOBMol_witness :
  @elements_dict Demo.registry "H" = Some Demo.H /\
  number Demo.H = 1%Z /\
  @registry_consistent Demo.registry /\
  @resolves Demo.registry (@AddHydrogens Demo.foreign Demo.ob_water) /\
  has_heavy (@AddHydrogens Demo.foreign Demo.ob_water) = true /\
  hydrogens_bonded_all (@AddHydrogens Demo.foreign Demo.ob_water) = true /\
  exists form h1 calls form' h2,
    @Molecule.fromOBMol Demo.registry Demo.foreign Molecule.init
      Demo.ob_water Demo.empty_heap = Ok (Molecule.mk [form], h1) /\
    @Molecule.toOBMol Demo.registry Demo.capability (Molecule.mk [form]) h1
    = Ok ((calls, Molecule.mk [form']), h2) /\
    ChemGraph.implicitHydrogens form' = true /\
    Permutation (ChemGraph.atoms form') (ChemGraph.atoms form) /\
    numBonds form' = numBonds form.
Proof.
  assert (Hres : @resolves Demo.registry
                   (@AddHydrogens Demo.foreign Demo.ob_water))
    by (apply resolves_check; reflexivity).
  split; [reflexivity|]. split; [reflexivity|].
  split; [exact Demo_registry_consistent|]. split; [exact Hres|].
  split; [reflexivity|]. split; [reflexivity|].
  destruct (@fromOBMol_then_toOBMol Demo.registry Demo.capability
              Demo.foreign Demo.H Molecule.init Demo.ob_water
              Demo.empty_heap eq_refl eq_refl Demo_registry_consistent Hres
              eq_refl eq_refl)
    as (form & h1 & calls & form' & h2 & Himp & Hexp & Hflag & Hperm & Hnum
        & _).
  exists form, h1, calls, form', h2.
  split; [exact Himp|]. split; [exact Hexp|]. split; [exact Hflag|].
  split; [exact Hperm|exact Hnum].
Defined.

(** ** Import, then export: the atoms come back *)

Lemma hydrogens_on_heavy_true (obmol : OBMol) :
  hydrogens_on_heavy obmol = true ->
  forall k p, k < NumAtoms obmol -> p < NumAtoms obmol ->
    ob_hydrogen obmol k = true -> ob_bonded obmol k p = true ->
    ob_hydrogen obmol p = false.
Proof.
  unfold hydrogens_on_heavy. intros Hall k p Hk Hp Hh Hb.
  rewrite forallb_forall in Hall.
  assert (Hin : In k (seq 0 (NumAtoms obmol))) by (apply in_seq; lia).
  specialize (Hall k Hin). rewrite Hh in Hall. simpl in Hall.
  rewrite forallb_forall in Hall.
  apply negb_true_iff. apply Hall. apply partners_In. split; assumption.
Qed.

Lemma count_NewAtom_atoms (h : Heap) (l : list ref) :
  count_calls is_NewAtom (flat_map (atom_calls h) l) = List.length l.
Proof.
  induction l as [|a l IH]; [reflexivity|].
  cbn [flat_map]. rewrite count_calls_app, IH. reflexivity.
Qed.

Lemma count_NewAtom_emitted (atoms : list ref) (bonds : dict (dict Bond.t)) :
  count_calls is_NewAtom (emitted atoms bonds) = 0.
Proof.
  unfold count_calls. rewrite filter_none; [reflexivity|].
  intros c Hc. apply emitted_sound in Hc.
  destruct Hc as (a & b & d & bond & i & j & _ & _ & _ & _ & _ & ->).
  reflexivity.
Qed.

Lemma sum_zero (S : list ref) :
  fold_right Z.add 0%Z (map (fun _ : ref => 0%Z) S) = 0%Z.
Proof. induction S as [|r S IH]; simpl; [reflexivity|exact IH]. Qed.

(** The planned hydrogens, counted by the atoms they go to. *)
Lemma planned_total (hs : list (ref * ref * Bond.t)) (S : list ref) :
  NoDup S ->
  (forall p, In p hs -> In (snd (fst p)) S) ->
  fold_right Z.add 0%Z (map (fun r => Z.of_nat (planned_for hs r)) S)
  = Z.of_nat (List.length hs).
Proof.
  intros Hnd. induction hs as [|p hs IH]; intros Hin.
  - unfold planned_for. simpl. apply sum_zero.
  - rewrite (@sum_over_one (snd (fst p)) S (planned_for (p :: hs))
               (planned_for hs) Hnd (Hin p (or_introl eq_refl))).
    + rewrite IH by (intros q Hq; apply Hin; right; assumption).
      cbn [List.length]. lia.
    + intros r. unfold planned_for. simpl.
      destruct (Nat.eqb (snd (fst p)) r); reflexivity.
Qed.

Lemma sum_ext (S : list ref) (f g : ref -> Z) :
  (forall r, In r S -> f r = g r) ->
  fold_right Z.add 0%Z (map f S) = fold_right Z.add 0%Z (map g S).
Proof.
  induction S as [|r S IH]; intros Hfg; simpl; [reflexivity|].
  rewrite (Hfg r (or_introl eq_refl)), IH; [reflexivity|].
  intros x Hx. apply Hfg. right. assumption.
Qed.

(** [makeHydrogensExplicit] adds as many atoms as the counters of the atoms
    of the graph sum to, when no counter is negative. *)
Lemma makeHydrogensExplicit_count `{ElementRegistry} (eH : Element)
    (g g1 : ChemGraph.t) (h h1 : Heap) :
  elements_dict "H" = Some eH ->
  (forall a, In a (ChemGraph.atoms g) -> a < next h) ->
  NoDup (ChemGraph.atoms g) ->
  (forall a, In a (ChemGraph.atoms g) -> (0 <= counter h a)%Z) ->
  ChemGraph.makeHydrogensExplicit g h = Ok (g1, h1) ->
  Z.of_nat (numAtoms g1)
  = (Z.of_nat (numAtoms g) + total_counter h (ChemGraph.atoms g))%Z.
Proof.
  intros HregH Halloc Hnd Hpos Hexp.
  destruct (explicit_scan_effect eH HregH h (ChemGraph.atoms g) [] h
              (planned_ok_start h eH) Halloc)
    as (hs & h2 & Hscan & Hok & Htargets & Hcounters).
  simpl app in Hscan, Hok.
  unfold ChemGraph.makeHydrogensExplicit in Hexp.
  rewrite (bind_eq _ _ _ Hscan) in Hexp. injection Hexp as <- <-.
  unfold numAtoms. rewrite planned_atoms, length_app, length_map.
  rewrite Nat2Z.inj_add. f_equal.
  rewrite <- (planned_total hs (ChemGraph.atoms g) Hnd)
    by (intros p Hp; apply (Htargets p Hp)).
  unfold total_counter. apply sum_ext. intros r Hr.
  pose proof (po_sum Hok (Halloc r Hr)) as Hsum.
  rewrite (Hcounters r (Halloc r Hr)) in Hsum.
  assert (Hex : existsb (Nat.eqb r) (ChemGraph.atoms g) = true).
  { apply existsb_exists. exists r. split; [exact Hr|apply Nat.eqb_refl]. }
  rewrite Hex in Hsum. pose proof (Hpos r Hr). lia.
Qed.

Section BuiltCount.
Context `{ElementRegistry}.
Variable obmol : OBMol.
Variables (g0 : ChemGraph.t) (n0 : nat) (h0 h' : Heap).
Hypothesis Hcons : registry_consistent.
Hypothesis Hatoms : ChemGraph.atoms g0 = seq n0 (NumAtoms obmol).
Hypothesis Hlinks :
  links obmol n0 (NumAtoms obmol) 0 (ChemGraph.bonds g0).
Hypothesis Hcells : forall i obatom,
  nth_error (ob_atoms obmol) i = Some obatom ->
  exists e, getElement (GetAtomicNum obatom) = Ok e /\
            cell h0 (n0 + i) = imported obatom e.
Hypothesis Hcnt : forall r, counter h' r =
  (counter h0 r +
   Z.of_nat (List.length
     (hydrogens_on h0 (ChemGraph.bonds g0) (ChemGraph.atoms g0) r)))%Z.
Hypothesis Hbonded : hydrogens_bonded_all obmol = true.
Hypothesis Hpartners : hydrogens_on_heavy obmol = true.

(** The counters of the atoms that the import keeps hold all the
    hydrogens that it strips. *)
Lemma built_total_counter :
  (Z.of_nat (numAtoms (stripped h0 g0))
   + total_counter h' (ChemGraph.atoms (stripped h0 g0)))%Z
  = Z.of_nat (NumAtoms obmol).
Proof.
  assert (Hhyd : forall k, k < NumAtoms obmol ->
            isHydrogenAt h0 (n0 + k) = ob_hydrogen obmol k).
  { intros k Hk. eapply built_isHydrogen; eassumption. }
  assert (Hkept : forall a, In a (ChemGraph.atoms (stripped h0 g0)) <->
                    In a (ChemGraph.atoms g0) /\ isHydrogenAt h0 a = false).
  { intros a. rewrite stripped_atoms, filter_In, negb_true_iff.
    reflexivity. }
  assert (Hnd : NoDup (ChemGraph.atoms (stripped h0 g0))).
  { rewrite stripped_atoms, Hatoms. apply NoDup_filter. apply seq_NoDup. }
  assert (Htotal : total_counter h' (ChemGraph.atoms (stripped h0 g0))
                   = Z.of_nat (List.length
                       (filter (isHydrogenAt h0) (ChemGraph.atoms g0)))).
  { rewrite <- (@hydrogens_on_total h0 (ChemGraph.bonds g0)
                  (ChemGraph.atoms g0) (ChemGraph.atoms (stripped h0 g0))
                  Hnd).
    - unfold total_counter. apply sum_ext. intros r Hr. rewrite Hcnt.
      apply Hkept in Hr. destruct Hr as [Hr _].
      rewrite Hatoms in Hr. apply in_seq in Hr.
      replace r with (n0 + (r - n0)) at 1 by lia.
      erewrite built_counter; [reflexivity|eassumption|lia].
    - intros a Ha Hh. rewrite Hatoms in Ha. apply in_seq in Ha.
      remember (a - n0) as k eqn:Ek.
      assert (Ea : a = n0 + k) by lia.
      assert (Hk : k < NumAtoms obmol) by lia.
      clear Ek Ha. subst a. rewrite (Hhyd k Hk) in Hh.
      destruct (hydrogens_bonded_all_true obmol Hbonded k Hk Hh)
        as (p & Hp & Hb).
      edestruct built_bonded as (bond & Hst);
        [exact Hlinks|exact Hk|exact Hp|exact Hb|].
      destruct (first_neighbour (ChemGraph.bonds g0) (n0 + k))
        as [n|] eqn:Hfn.
      2:{ apply stored_first_neighbour in Hst. contradiction. }
      exists n. split; [reflexivity|].
      apply first_neighbour_stored in Hfn. destruct Hfn as (bond' & Hst').
      edestruct built_bonded_inv as (q & En & _ & Hq & Hbq);
        [exact Hlinks|exact Hst'|].
      subst n. apply Hkept. split.
      + rewrite Hatoms. apply in_seq. lia.
      + rewrite (Hhyd q Hq).
        exact (hydrogens_on_heavy_true obmol Hpartners k q Hk Hq Hh Hbq). }
  rewrite Htotal. unfold numAtoms. rewrite stripped_atoms.
  rewrite <- Nat2Z.inj_add.
  rewrite <- (filter_partition_length (isHydrogenAt h0) (ChemGraph.atoms g0)).
  rewrite Hatoms, length_seq. reflexivity.
Qed.

Lemma built_counter_nonneg (r : ref) :
  In r (ChemGraph.atoms g0) -> (0 <= counter h' r)%Z.
Proof.
  intros Hr. rewrite Hcnt. rewrite Hatoms in Hr. apply in_seq in Hr.
  replace r with (n0 + (r - n0)) at 1 by lia.
  erewrite built_counter; [lia|eassumption|lia].
Qed.

End BuiltCount.

(** X26.  Import, then export: the atoms come back.  When moreover the
    foreign hydrogens are bonded to atoms that are not hydrogens, the
    export of the molecule that the import has left creates exactly as
    many foreign atoms as the completed foreign molecule had: the
    hydrogens that the import has put on the counters are all made
    explicit again. *)
Theorem fromOBMol_toOBMol_atoms `{ElementRegistry} `{GraphCapability}
    `{ForeignModel} (eH : Element) (self : Molecule.t) (obmol : OBMol)
    (h : Heap) :
  elements_dict "H" = Some eH ->
  number eH = 1%Z ->
  registry_consistent ->
  resolves (AddHydrogens obmol) ->
  has_heavy (AddHydrogens obmol) = true ->
  hydrogens_bonded_all (AddHydrogens obmol) = true ->
  hydrogens_on_heavy (AddHydrogens obmol) = true ->
  exists m h1 calls m' h2,
    Molecule.fromOBMol self obmol h = Ok (m, h1) /\
    Molecule.toOBMol m h1 = Ok ((calls, m'), h2) /\
    count_calls is_NewAtom calls = NumAtoms (AddHydrogens obmol).
Proof.
  intros HregH HnumH Hcons Hres Hheavy Hbonded Hpartners.
  destruct (fromOBMol_heavy_core self obmol h Hcons Hres Hheavy Hbonded)
    as (g0 & h0 & h1 & Hrun & Hatoms & Hlinks & Hcells & Hnext & Hoc & Hcnt).
  edestruct built_stripped_wf
    as (Hne & Hnd & Hnoh & Halloc & Hkeys & _);
    [exact Hcons|exact Hatoms|exact Hlinks|exact Hcells|exact Hnext
    |exact Hoc|exact Hheavy|].
  destruct (toOBMol_implicit_form eH (Molecule.mk [stripped h0 g0])
              (stripped h0 g0) [] h1 HregH HnumH eq_refl eq_refl Halloc Hkeys
              Hne Hnoh)
    as (g1 & h1' & form' & h2 & Hexp & Hexport & _).
  exists (Molecule.mk [stripped h0 g0]), h1. eexists. eexists. exists h2.
  split; [exact Hrun|]. split; [exact Hexport|].
  rewrite !count_calls_app, count_NewAtom_atoms, count_NewAtom_emitted.
  cbn [count_calls filter is_NewAtom List.length]. rewrite !Nat.add_0_r.
  rewrite (Permutation_length (sortVertices_perm h1' (ChemGraph.graph g1))).
  change (List.length (Graph.vertices (ChemGraph.graph g1)))
    with (numAtoms g1).
  apply Nat2Z.inj.
  rewrite (makeHydrogensExplicit_count eH (stripped h0 g0) g1 h1 h1' HregH
             (proj1 Halloc) Hnd).
  - eapply built_total_counter; eassumption.
  - intros a Ha. eapply built_counter_nonneg; try eassumption.
    rewrite stripped_atoms in Ha. apply filter_In in Ha. apply Ha.
  - exact Hexp.
Qed.

Lemma fromOBMol_toOBMol_atoms_witness :
  @elements_dict Demo.registry "H" = Some Demo.H /\
  number Demo.H = 1%Z /\
  @registry_consistent Demo.registry /\
  @resolves Demo.registry (@AddHydrogens Demo.foreign Demo.ob_water) /\
  has_heavy (@AddHydrogens Demo.foreign Demo.ob_water) = true /\
  hydrogens_bonded_all (@AddHydrogens Demo.foreign Demo.ob_water) = true /\
  hydrogens_on_heavy (@AddHydrogens Demo.foreign Demo.ob_water) = true /\
  exists m h1 calls m' h2,
    @Molecule.fromOBMol Demo.registry Demo.foreign Molecule.init
      Demo.ob_water Demo.empty_heap = Ok (m, h1) /\
    @Molecule.toOBMol Demo.registry Demo.capability m h1
    = Ok ((calls, m'), h2) /\
    count_calls is_NewAtom calls = 3.
Proof.
  assert (Hres : @resolves Demo.registry
                   (@AddHydrogens Demo.foreign Demo.ob_water))
    by (apply resolves_check; reflexivity).
  split; [reflexivity|]. split; [reflexivity|].
  split; [exact Demo_registry_consistent|]. split; [exact Hres|].
  split; [reflexivity|]. split; [reflexivity|]. split; [reflexivity|].
  exact (@fromOBMol_toOBMol_atoms Demo.registry Demo.capability
           Demo.foreign Demo.H Molecule.init Demo.ob_water
           Demo.empty_heap eq_refl eq_refl Demo_registry_consistent Hres
           eq_refl eq_refl eq_refl).
Defined.
